(** * ACE-OAuth / EDHOC: a shallow embedding of the Python sources

    The development follows the source files

    - [lib/edhoc/protocol.py]: key derivation, the EDHOC session, the
      [Server] and the [Client];
    - [lib/edhoc/util.py]: conversion between ECDH and ECDSA keys and
      COSE keys;
    - [as/__init__.py]: the token and introspection endpoints of the
      Authorization Server;
    - [ace/cose/cwt.py]: the encoding of a CWT;
    - [rs/__init__.py]: the temperature resource.

    Python values that travel through [cbor2] are modelled by the type
    [cbor]; byte strings are lists of bytes.  Methods that mutate [self] or
    raise are written in a state-and-exception monad in which the state
    survives an exception, as a Python object survives a raise.  The
    external libraries ([cbor2], [cryptography], [ecdsa]) are interfaces
    (type classes) with the laws their documentation promises; a small
    concrete instance at the end of the definitions runs the model. *)

From Stdlib Require Import Floats.PrimFloat.
From Stdlib Require Floats.SpecFloat Floats.FloatOps.
From Stdlib Require Import ZArith NArith List String Ascii Bool Lia.
From Stdlib Require Import Strings.Byte DecimalString.
Import ListNotations.
Local Open Scope string_scope.
Local Open Scope list_scope.
Local Open Scope Z_scope.
Set Warnings "-register-all".

(** ** Python values *)

Definition bytes := list byte.

(** The values [cbor2.loads] returns and [cbor2.dumps] accepts in this
    program: [int], [bytes], [str], [list], [dict] (in insertion order),
    [None] and [bool]. *)
Inductive cbor : Type :=
| CInt (z : Z)
| CBytes (b : bytes)
| CText (s : string)
| CArray (l : list cbor)
| CMap (d : list (cbor * cbor))
| CNull
| CBool (b : bool).

Inductive exn : Type :=
| CBORDecodeError
| TypeError
| IndexError
| KeyError
| ValueError
| OverflowError
| AttributeError
| InvalidTag
| SignatureVerificationFailed.

Inductive result (A : Type) : Type :=
| Return (a : A)
| Raise (e : exn).
Arguments Return {A} a.
Arguments Raise {A} e.

(** [v == n] for an integer constant [n]; in Python [True == 1] and
    [False == 0]. *)
Definition py_eq_int (v : cbor) (n : Z) : bool :=
  match v with
  | CInt z => z =? n
  | CBool b => (if b then 1 else 0) =? n
  | _ => false
  end.

(** [d[n]] on a dict. *)
Fixpoint dict_get (d : list (cbor * cbor)) (n : Z) : option cbor :=
  match d with
  | [] => None
  | (k, v) :: d' => if py_eq_int k n then Some v else dict_get d' n
  end.

(** [d[n] = v] on a dict: an existing key keeps its place. *)
Fixpoint dict_set (d : list (cbor * cbor)) (n : Z) (v : cbor)
  : list (cbor * cbor) :=
  match d with
  | [] => [(CInt n, v)]
  | (k, w) :: d' =>
      if py_eq_int k n then (k, v) :: d' else (k, w) :: dict_set d' n v
  end.

(** The dict display [{k1: v1, ..., kn: vn}] with integer keys. *)
Definition dict_of (kvs : list (Z * cbor)) : list (cbor * cbor) :=
  fold_left (fun d kv => dict_set d (fst kv) (snd kv)) kvs [].

(** Sequence indexing [l[n]], negative indices counting from the end. *)
Definition seq_index {A : Type} (l : list A) (n : Z) : option A :=
  let len := Z.of_nat (List.length l) in
  if (0 <=? n) && (n <? len) then nth_error l (Z.to_nat n)
  else if (n <? 0) && (0 <=? len + n) then nth_error l (Z.to_nat (len + n))
  else None.

Definition chars (s : string) : list cbor :=
  map (fun c => CText (String c EmptyString)) (list_ascii_of_string s).

Definition ints (b : bytes) : list cbor :=
  map (fun x => CInt (Z.of_N (Byte.to_N x))) b.

(** [v[n]] for an integer constant [n]. *)
Definition py_getitem (v : cbor) (n : Z) : result cbor :=
  match v with
  | CMap d =>
      match dict_get d n with Some x => Return x | None => Raise KeyError end
  | CArray l =>
      match seq_index l n with Some x => Return x | None => Raise IndexError end
  | CBytes b =>
      match seq_index (ints b) n with
      | Some x => Return x | None => Raise IndexError end
  | CText s =>
      match seq_index (chars s) n with
      | Some x => Return x | None => Raise IndexError end
  | CInt _ | CNull | CBool _ => Raise TypeError
  end.

(** [n in v] for an integer constant [n]. *)
Definition py_contains (v : cbor) (n : Z) : result bool :=
  match v with
  | CMap d => Return (existsb (fun kv => py_eq_int (fst kv) n) d)
  | CArray l => Return (existsb (fun x => py_eq_int x n) l)
  | CBytes b =>
      if (0 <=? n) && (n <? 256)
      then Return (existsb (fun x => py_eq_int x n) (ints b))
      else Raise ValueError
  | CText _ | CInt _ | CNull | CBool _ => Raise TypeError
  end.

(** Iteration, as used by tuple unpacking. *)
Definition py_iter (v : cbor) : result (list cbor) :=
  match v with
  | CArray l => Return l
  | CMap d => Return (map fst d)
  | CBytes b => Return (ints b)
  | CText s => Return (chars s)
  | CInt _ | CNull | CBool _ => Raise TypeError
  end.

(** ** The monad of methods

    A method of an object of type [S] takes the object and returns a value
    or an exception, the object as the method left it, and the lines it
    printed.  A printed line [print(label, b.hex())] is kept as the label
    and the bytes [b]. *)

Definition line : Type := string * bytes.

Definition M (S A : Type) : Type := S -> result A * S * list line.

Definition ret {S A : Type} (a : A) : M S A := fun s => (Return a, s, []).

Definition raise {S A : Type} (e : exn) : M S A := fun s => (Raise e, s, []).

Definition bind {S A B : Type} (m : M S A) (f : A -> M S B) : M S B :=
  fun s =>
    match m s with
    | (Return a, s', out) =>
        match f a s' with (r, s'', out') => (r, s'', out ++ out') end
    | (Raise e, s', out) => (Raise e, s', out)
    end.

Definition get {S : Type} : M S S := fun s => (Return s, s, []).

Definition put {S : Type} (s : S) : M S unit := fun _ => (Return tt, s, []).

Definition print {S : Type} (label : string) (b : bytes) : M S unit :=
  fun s => (Return tt, s, [(label, b)]).

Definition lift {S A : Type} (r : result A) : M S A := fun s => (r, s, []).

(** An attribute that must hold a value: [None] where a value is needed
    raises [TypeError]. *)
Definition need {S A : Type} (o : option A) : M S A :=
  match o with Some a => ret a | None => raise TypeError end.

(** A method of the object held in an attribute of [self]; the attribute
    holding [None] raises [AttributeError]. *)
Definition on_attr {S T A : Type} (proj : S -> option T)
    (upd : option T -> S -> S) (m : M T A) : M S A :=
  fun s =>
    match proj s with
    | None => (Raise AttributeError, s, [])
    | Some t => match m t with (r, t', out) => (r, upd (Some t') s, out) end
    end.

Declare Scope method_scope.
Delimit Scope method_scope with method.
Notation "x <- m ;; k" := (bind m (fun x => k))
  (at level 61, m at next level, right associativity) : method_scope.
Notation "' pat <- m ;; k" := (bind m (fun x => match x with pat => k end))
  (at level 61, pat pattern, m at next level, right associativity)
  : method_scope.
Notation "m ;;; k" := (bind m (fun _ => k))
  (at level 61, right associativity) : method_scope.
Local Open Scope method_scope.

(** Pure code that raises: the same monad without a state. *)
Definition rbind {A B : Type} (r : result A) (f : A -> result B) : result B :=
  match r with Return a => f a | Raise e => Raise e end.
Notation "x <~ r ;; k" := (rbind r (fun x => k))
  (at level 61, r at next level, right associativity) : method_scope.
Notation "' pat <~ r ;; k" := (rbind r (fun x => match x with pat => k end))
  (at level 61, pat pattern, r at next level, right associativity)
  : method_scope.

Definition as_bytes (v : cbor) : result bytes :=
  match v with CBytes b => Return b | _ => Raise TypeError end.

(** The argument of [cbor2.loads], which reads it through [BytesIO]: a
    byte string, or [None], which is read as the empty byte string; any
    other value raises [TypeError]. *)
Definition loads_argument (v : cbor) : result bytes :=
  match v with
  | CBytes b => Return b
  | CNull => Return []
  | _ => Raise TypeError
  end.

Definition as_int (v : cbor) : result Z :=
  match v with
  | CInt z => Return z
  | CBool b => Return (if b then 1 else 0)
  | _ => Raise TypeError
  end.

Definition unpack3 (v : cbor) : result (cbor * cbor * cbor) :=
  l <~ py_iter v ;;
  match l with
  | [a; b; c] => Return (a, b, c)
  | _ => Raise ValueError
  end.

Definition unpack4 (v : cbor) : result (cbor * cbor * cbor * cbor) :=
  l <~ py_iter v ;;
  match l with
  | [a; b; c; d] => Return (a, b, c, d)
  | _ => Raise ValueError
  end.

Definition unpack6 (v : cbor)
  : result (cbor * cbor * cbor * cbor * cbor * cbor) :=
  l <~ py_iter v ;;
  match l with
  | [a; b; c; d; e; f] => Return (a, b, c, d, e, f)
  | _ => Raise ValueError
  end.

(** ** The external libraries *)

(** [cbor2]: [loads] raises on input that is not CBOR. *)
Class Cbor2 : Type := {
  loads : bytes -> result cbor;
  dumps : cbor -> bytes
}.

Class Cbor2Laws `{Cbor2} : Prop := {
  loads_dumps : forall v, loads (dumps v) = Return v
}.

(** [cryptography]'s [EllipticCurvePublicNumbers(x, y, curve)]; a public
    key object is determined by its numbers. *)
Record EllipticCurvePublicNumbers : Type := {
  pn_x : Z;
  pn_y : Z;
  pn_curve : string
}.

(** [cryptography.hazmat]: HKDF over SHA-256 without salt, the SHA-256
    digest, ECDH on [SECP256R1] private keys and the AES-CCM AEAD. *)
Class Cryptography : Type := {
  EllipticCurvePrivateKey : Type;
  HKDF : nat -> bytes -> bytes -> bytes;
  SHA256 : bytes -> bytes;
  public_numbers : EllipticCurvePrivateKey -> EllipticCurvePublicNumbers;
  on_curve : EllipticCurvePublicNumbers -> bool;
  exchange : EllipticCurvePrivateKey -> EllipticCurvePublicNumbers
             -> result bytes;
  AESCCM_encrypt : bytes -> bytes -> bytes -> bytes -> bytes;
  AESCCM_decrypt : bytes -> bytes -> bytes -> bytes -> option bytes
}.

Class CryptographyLaws `{Cryptography} : Prop := {
  HKDF_length : forall n info key, List.length (HKDF n info key) = n;
  SHA256_length : forall m, List.length (SHA256 m) = 32%nat;
  generated_curve : forall k, pn_curve (public_numbers k) = "secp256r1";
  generated_on_curve : forall k, on_curve (public_numbers k) = true;
  exchange_agree : forall a b,
    exists z, exchange a (public_numbers b) = Return z
           /\ exchange b (public_numbers a) = Return z;
  AESCCM_correct : forall key nonce data aad,
    List.length key = 16%nat ->
    (7 <= List.length nonce <= 13)%nat ->
    AESCCM_decrypt key nonce (AESCCM_encrypt key nonce data aad) aad
    = Some data
}.

(** [ecdsa]: signing draws a fresh nonce, passed here as [k]. *)
Class Ecdsa : Type := {
  SigningKey : Type;
  VerifyingKey : Type;
  get_verifying_key : SigningKey -> VerifyingKey;
  ecdsa_sign : SigningKey -> bytes -> bytes -> bytes;
  ecdsa_verify : VerifyingKey -> bytes -> bytes -> bool
}.

Class EcdsaLaws `{Ecdsa} : Prop := {
  ecdsa_correct : forall sk k data,
    ecdsa_verify (get_verifying_key sk) (ecdsa_sign sk k data) data = true
}.

Definition string_bytes (s : string) : bytes := list_byte_of_string s.

Fixpoint assoc_string {A : Type} (d : list (string * A)) (k : string)
  : option A :=
  match d with
  | [] => None
  | (k', v) :: d' => if String.eqb k' k then Some v else assoc_string d' k
  end.

Definition lookup_string {A : Type} (d : list (string * A)) (k : string)
  : result A :=
  match assoc_string d k with Some v => Return v | None => Raise KeyError end.

(** [d[k]] on a dict display with integer keys, [k] any value: lists and
    dicts are unhashable. *)
Definition lookup_int {A : Type} (d : list (Z * A)) (k : cbor) : result A :=
  match k with
  | CArray _ | CMap _ => Raise TypeError
  | _ =>
      match find (fun e => py_eq_int k (fst e)) d with
      | Some e => Return (snd e)
      | None => Raise KeyError
      end
  end.

(** ** [lib/cose/constants.py] (not among the sources) *)

(** Modelled from the spec: the constants of [lib.cose.constants], whose
    file is missing; the COSE-Key labels are those of section 6
    ([{1: 2 (kty=EC2), -1: crv, -2: x, -3: y}]), the curve identifiers and
    header labels are the COSE registrations for P-256, P-384, P-521,
    [alg], [kid] and ES256. *)
Module CoseKey.
Definition KTY : Z := 1.
Definition CRV : Z := -1.
Definition X : Z := -2.
Definition Y : Z := -3.
Module Type_.
Definition EC2 : Z := 2.
End Type_.
Module Curve.
Definition P_256 : Z := 1.
Definition P_384 : Z := 2.
Definition P_521 : Z := 3.
End Curve.
End CoseKey.

Module Header.
Definition ALG : Z := 1.
Definition KID : Z := 4.
End Header.

Module Algorithm.
Definition ES256 : Z := -7.
End Algorithm.

(** ** [lib/edhoc/util.py] *)

Definition _ecdh_curves : list (Z * string) :=
  [ (CoseKey.Curve.P_256, "secp256r1");
    (CoseKey.Curve.P_384, "secp384r1");
    (CoseKey.Curve.P_521, "secp521r1") ].

Definition _ecdh_names : list (string * Z) :=
  [ ("secp256r1", CoseKey.Curve.P_256);
    ("secp384r1", CoseKey.Curve.P_384);
    ("secp521r1", CoseKey.Curve.P_521) ].

Section Util.
Context `{Cbor2} `{Cryptography}.

Definition ecdh_key_to_cose (key : EllipticCurvePublicNumbers)
    (encode : bool) : result cbor :=
  let params := key in
  curve <~ lookup_string _ecdh_names (pn_curve params) ;;
  let x := pn_x params in
  let y := pn_y params in
  let cbor := dict_of [ (CoseKey.KTY, CInt CoseKey.Type_.EC2);
                        (CoseKey.CRV, CInt curve);
                        (CoseKey.X, CInt x);
                        (CoseKey.Y, CInt y) ] in
  if encode then Return (CBytes (dumps (CMap cbor)))
  else Return (CMap cbor).

Definition ecdh_cose_to_key (ckey : cbor)
  : result EllipticCurvePublicNumbers :=
  ckey <~ loads_argument ckey ;;
  decoded <~ loads ckey ;;
  kty <~ py_getitem decoded CoseKey.KTY ;;
  crv <~ py_getitem decoded CoseKey.CRV ;;
  curve <~ lookup_int _ecdh_curves crv ;;
  x <~ py_getitem decoded CoseKey.X ;;
  y <~ py_getitem decoded CoseKey.Y ;;
  x <~ as_int x ;;
  y <~ as_int y ;;
  let numbers := {| pn_x := x; pn_y := y; pn_curve := curve |} in
  if on_curve numbers then Return numbers else Raise ValueError.

End Util.

(** The tables and conversions for ECDSA keys.  A curve object of
    [ecdsa.curves] is kept as its name. *)
Definition _ecdsa_curves : list (Z * string) :=
  [ (CoseKey.Curve.P_256, "NIST256p");
    (CoseKey.Curve.P_384, "NIST384p");
    (CoseKey.Curve.P_521, "NIST521p") ].

Definition _ecdsa_names : list (string * Z) :=
  [ ("NIST256p", CoseKey.Curve.P_256);
    ("NIST384p", CoseKey.Curve.P_384);
    ("NIST521p", CoseKey.Curve.P_521) ].

(** [ecdsa]: what [util.py] reads of a verifying key ([key.curve.name],
    [key.pubkey.point.x()], [key.pubkey.point.y()]) and how it builds one,
    [VerifyingKey.from_public_point(Point(curve.curve, x, y), curve)],
    which raises on a point that is not on the curve.  A key is
    determined by its curve and its point. *)
Class EcdsaPoints `{Ecdsa} : Type := {
  vk_curve_name : VerifyingKey -> string;
  vk_point_x : VerifyingKey -> Z;
  vk_point_y : VerifyingKey -> Z;
  from_public_point : Z -> Z -> string -> result VerifyingKey
}.

Class EcdsaPointsLaws `{EcdsaPoints} : Prop := {
  from_public_point_of_key : forall vk,
    from_public_point (vk_point_x vk) (vk_point_y vk) (vk_curve_name vk)
    = Return vk
}.

Section UtilEcdsa.
Context `{Cbor2} `{EcdsaPoints}.

Definition ecdsa_key_to_cose (key : VerifyingKey) (encode : bool)
  : result cbor :=
  curve <~ lookup_string _ecdsa_names (vk_curve_name key) ;;
  let x := vk_point_x key in
  let y := vk_point_y key in
  let cbor := dict_of [ (CoseKey.KTY, CInt CoseKey.Type_.EC2);
                        (CoseKey.CRV, CInt curve);
                        (CoseKey.X, CInt x);
                        (CoseKey.Y, CInt y) ] in
  if encode then Return (CBytes (dumps (CMap cbor)))
  else Return (CMap cbor).

Definition ecdsa_cose_to_key (encoded : cbor) : result VerifyingKey :=
  encoded <~ loads_argument encoded ;;
  decoded <~ loads encoded ;;
  kty <~ py_getitem decoded CoseKey.KTY ;;
  crv <~ py_getitem decoded CoseKey.CRV ;;
  curve <~ lookup_int _ecdsa_curves crv ;;
  x <~ py_getitem decoded CoseKey.X ;;
  y <~ py_getitem decoded CoseKey.Y ;;
  x <~ as_int x ;;
  y <~ as_int y ;;
  from_public_point x y curve.

End UtilEcdsa.

(** ** [lib/edhoc/protocol.py]: key derivation *)

Section Derivation.
Context `{Cbor2} `{Cryptography}.

Definition derive_key (input_key : bytes) (length : nat)
    (context_info : bytes) : bytes :=
  HKDF length context_info input_key.

Definition cose_kdf_context (algorithm_id : string) (key_length : Z)
    (other : bytes) : bytes :=
  dumps (CArray [
    CText algorithm_id;
    CArray [CNull; CNull; CNull];
    CArray [CNull; CNull; CNull];
    CArray [CInt key_length; CBytes []; CBytes other]
  ]).

Definition message_digest (message : bytes) : bytes := SHA256 message.

End Derivation.

Record OscoreContext : Type := {
  master_secret : bytes;
  master_salt : bytes
}.

(** The sizes AES-CCM takes the derived context in: a 16-byte key and a
    7-byte nonce. *)
Definition well_sized (ctx : OscoreContext) : Prop :=
  List.length (master_secret ctx) = 16%nat
  /\ List.length (master_salt ctx) = 7%nat.

(** ** [lib/cose] (not among the sources) *)

(** Modelled from the spec: [Encrypt0Message] of [lib.cose], whose file is
    missing.  Section 4.3: the AEAD's additional data is the encoding of
    [Enc_structure = ["Encrypt0", protected, external_aad]], the serialized
    message is [[protected, unprotected, ciphertext]], and decryption
    fails on a tag mismatch.  The headers of a message built from a
    payload alone are empty, and [external_aad] defaults to [b'']. *)
Module Encrypt0Message.
Section Encrypt0.
Context `{Cbor2} `{Cryptography}.

Definition enc_structure (protected external_aad : bytes) : bytes :=
  dumps (CArray [CText "Encrypt0"; CBytes protected; CBytes external_aad]).

Definition serialize (payload iv key external_aad : bytes) : bytes :=
  let protected := [] in
  let ciphertext :=
    AESCCM_encrypt key iv payload (enc_structure protected external_aad) in
  dumps (CArray [CBytes protected; CMap []; CBytes ciphertext]).

Definition decrypt (serialized : cbor) (key iv external_aad : bytes)
  : result bytes :=
  serialized <~ as_bytes serialized ;;
  decoded <~ loads serialized ;;
  '(protected, unprotected, ciphertext) <~ unpack3 decoded ;;
  protected <~ as_bytes protected ;;
  ciphertext <~ as_bytes ciphertext ;;
  match AESCCM_decrypt key iv ciphertext
          (enc_structure protected external_aad) with
  | Some plaintext => Return plaintext
  | None => Raise InvalidTag
  end.

End Encrypt0.
End Encrypt0Message.

(** Modelled from the spec: [Signature1Message] of [lib.cose], whose file
    is missing.  Section 4.2: the signature is over the SHA-256 digest of
    [Sig_structure = ["Signature1", protected, external_aad, payload]], the
    serialized message is [[protected, unprotected, payload, signature]],
    and verification rebuilds [Sig_structure] from the protected header
    as received and returns the payload.  The failure is the
    [SignatureVerificationFailed] that [protocol.py] imports. *)
Module Signature1Message.
Section Sign1.
Context `{Cbor2} `{Cryptography} `{Ecdsa}.

Definition sig_structure (protected external_aad payload : bytes)
  : bytes :=
  dumps (CArray [CText "Signature1"; CBytes protected;
                 CBytes external_aad; CBytes payload]).

Definition serialize_signed (payload protected_header : bytes)
    (unprotected_header : cbor) (key : SigningKey) (k : bytes)
    (external_aad : bytes) : bytes :=
  let signature :=
    ecdsa_sign key k
      (SHA256 (sig_structure protected_header external_aad payload)) in
  dumps (CArray [CBytes protected_header; unprotected_header;
                 CBytes payload; CBytes signature]).

Definition verify (encoded : bytes) (key : VerifyingKey)
    (external_aad : bytes) : result bytes :=
  decoded <~ loads encoded ;;
  '(protected, unprotected, payload, signature) <~ unpack4 decoded ;;
  protected <~ as_bytes protected ;;
  payload <~ as_bytes payload ;;
  signature <~ as_bytes signature ;;
  if ecdsa_verify key signature
       (SHA256 (sig_structure protected external_aad payload))
  then Return payload
  else Raise SignatureVerificationFailed.

End Sign1.
End Signature1Message.

(** ** [ace/cose/cwt.py] *)

(** [encode] and [decode] of [cwt.py], over the [Signature1Message]
    above.  [k] is the nonce the signature draws.  Both headers are
    handed to the message encoded, as [cwt.py] does, and
    [serialize_signed(key)] signs with the empty external data that
    [decode] verifies with. *)
Module cwt.
Section Cwt.
Context `{Cbor2} `{Cryptography} `{Ecdsa}.

Definition encode (claims : cbor) (key : SigningKey) (kid : bytes)
    (k : bytes) : bytes :=
  let protected := dict_of [(Header.ALG, CInt Algorithm.ES256)] in
  let unprotected := dict_of [(Header.KID, CBytes kid)] in
  Signature1Message.serialize_signed (dumps claims)
    (dumps (CMap protected)) (CBytes (dumps (CMap unprotected))) key k [].

Definition decode (encoded : bytes) (key : VerifyingKey) : result cbor :=
  payload <~ Signature1Message.verify encoded key [] ;;
  loads payload.

End Cwt.
End cwt.

(** ** [lib/edhoc/messages.py] (not among the sources) *)

Definition EDHOC_MSG_1 : Z := 1.
Definition EDHOC_MSG_2 : Z := 2.
Definition EDHOC_MSG_3 : Z := 3.

(** Modelled from the spec: [Message1] of [lib.edhoc.messages], whose file
    is missing.  Section 4.4: MSG1 is the CBOR array
    [[1, session_id_u, nonce_u, G_X]]; section 9: a parsed message keeps
    the bytes it was received as and is never encoded again.  The
    ephemeral key travels as the encoded COSE key that
    [ecdh_cose_to_key] reads. *)
Module Message1.
Section Message1.
Context `{Cbor2} `{Cryptography}.

Record t : Type := {
  session_id : cbor;
  nonce : cbor;
  ephemeral_key : EllipticCurvePublicNumbers;
  bytes_object : option bytes
}.

Definition new (session_id nonce : cbor)
    (ephemeral_key : EllipticCurvePublicNumbers) : t :=
  {| session_id := session_id; nonce := nonce;
     ephemeral_key := ephemeral_key; bytes_object := None |}.

Definition to_bytes (self : t) : result bytes :=
  match bytes_object self with
  | Some b => Return b
  | None =>
      g_x <~ ecdh_key_to_cose (ephemeral_key self) true ;;
      Return (dumps (CArray [CInt EDHOC_MSG_1; session_id self;
                             nonce self; g_x]))
  end.

Definition from_bytes (message : bytes) : result t :=
  decoded <~ loads message ;;
  '(tag, session_id, nonce, g_x) <~ unpack4 decoded ;;
  ephemeral_key <~ ecdh_cose_to_key g_x ;;
  Return {| session_id := session_id; nonce := nonce;
            ephemeral_key := ephemeral_key;
            bytes_object := Some message |}.

End Message1.
End Message1.

(** The protected header of the inner Sign1 structures. *)
Definition sign1_protected `{Cbor2} : bytes :=
  dumps (CMap (dict_of [(Header.ALG, CInt Algorithm.ES256)])).

(** Modelled from the spec: [Message2] of [lib.edhoc.messages], whose file
    is missing.  Section 4.4: MSG2 is the CBOR array
    [[2, session_id_u, session_id_v, nonce_v, G_Y, ciphertext_2]], where
    [ciphertext_2] is an Encrypt0 of an inner Sign1 with empty payload
    signed by V's long-term key.  Section 4.5:
    [TH_2 = SHA-256(MSG1 || data_2)], [data_2] being the fields of MSG2
    before [ciphertext_2], and [TH_2] is the external data of both the
    Sign1 and the Encrypt0.  A message built from received bytes keeps
    them (section 9). *)
Module Message2.
Section Message2.
Context `{Cbor2} `{Cryptography} `{Ecdsa}.

Record t : Type := {
  session_id : cbor;
  peer_session_id : cbor;
  peer_nonce : cbor;
  peer_ephemeral_key : EllipticCurvePublicNumbers;
  bytes_object : option bytes;
  _aad_2 : option bytes;
  signature : option bytes;
  ciphertext : option bytes
}.

Definition new (session_id peer_session_id peer_nonce : cbor)
    (peer_ephemeral_key : EllipticCurvePublicNumbers)
    (bytes_object : option bytes) : t :=
  {| session_id := session_id; peer_session_id := peer_session_id;
     peer_nonce := peer_nonce; peer_ephemeral_key := peer_ephemeral_key;
     bytes_object := bytes_object;
     _aad_2 := None; signature := None; ciphertext := None |}.

Definition set__aad_2 (v : option bytes) (self : t) : t :=
  {| session_id := session_id self;
     peer_session_id := peer_session_id self;
     peer_nonce := peer_nonce self;
     peer_ephemeral_key := peer_ephemeral_key self;
     bytes_object := bytes_object self;
     _aad_2 := v; signature := signature self;
     ciphertext := ciphertext self |}.

Definition set_signature (v : option bytes) (self : t) : t :=
  {| session_id := session_id self;
     peer_session_id := peer_session_id self;
     peer_nonce := peer_nonce self;
     peer_ephemeral_key := peer_ephemeral_key self;
     bytes_object := bytes_object self;
     _aad_2 := _aad_2 self; signature := v;
     ciphertext := ciphertext self |}.

Definition set_ciphertext (v : option bytes) (self : t) : t :=
  {| session_id := session_id self;
     peer_session_id := peer_session_id self;
     peer_nonce := peer_nonce self;
     peer_ephemeral_key := peer_ephemeral_key self;
     bytes_object := bytes_object self;
     _aad_2 := _aad_2 self; signature := signature self;
     ciphertext := v |}.

Definition data_2 (self : t) : result bytes :=
  g_y <~ ecdh_key_to_cose (peer_ephemeral_key self) true ;;
  Return (dumps (CArray [CInt EDHOC_MSG_2; session_id self;
                         peer_session_id self; peer_nonce self; g_y])).

(** [ciphertext_2]: the last field of the bytes received, or the
    ciphertext this endpoint computed. *)
Definition ciphertext_2 (self : t) : result bytes :=
  match bytes_object self with
  | Some b =>
      decoded <~ loads b ;;
      '(_, _, _, _, _, enc_2) <~ unpack6 decoded ;;
      as_bytes enc_2
  | None =>
      match ciphertext self with
      | Some c => Return c
      | None => Raise TypeError
      end
  end.

Definition to_bytes (self : t) : result bytes :=
  match bytes_object self with
  | Some b => Return b
  | None =>
      g_y <~ ecdh_key_to_cose (peer_ephemeral_key self) true ;;
      enc_2 <~ ciphertext_2 self ;;
      Return (dumps (CArray [CInt EDHOC_MSG_2; session_id self;
                             peer_session_id self; peer_nonce self;
                             g_y; CBytes enc_2]))
  end.

Definition th_2 (digest : bytes -> bytes) (message1 : option Message1.t)
    (self : t) : result bytes :=
  match message1 with
  | None => Raise TypeError
  | Some message1 =>
      msg_1 <~ Message1.to_bytes message1 ;;
      data <~ data_2 self ;;
      Return (digest (msg_1 ++ data))
  end.

Definition aad_2 (digest : bytes -> bytes) (message1 : option Message1.t)
  : M t bytes :=
  self <- get ;;
  aad <- lift (th_2 digest message1 self) ;;
  put (set__aad_2 (Some aad) self) ;;;
  ret aad.

Definition sign (sk : SigningKey) (k : bytes) (aad : bytes) : M t unit :=
  self <- get ;;
  put (set_signature
         (Some (Signature1Message.serialize_signed
                  [] sign1_protected (CMap []) sk k aad)) self).

Definition encrypt (key iv : bytes) : M t unit :=
  self <- get ;;
  sig <- need (signature self) ;;
  aad <- need (_aad_2 self) ;;
  put (set_ciphertext
         (Some (Encrypt0Message.serialize sig iv key aad)) self).

End Message2.
End Message2.

(** Modelled from the spec: [Message3] and [MessageOk] of
    [lib.edhoc.messages], whose file is missing.  Section 4.4: MSG3 is the
    CBOR array [[3, session_id_v, ciphertext_3]], where [ciphertext_3] is
    an Encrypt0 of an inner Sign1 signed by U's long-term key.  Section
    4.5: [TH_3 = SHA-256(TH_2 || ciphertext_2)] is the external data of
    both.  A message built from received bytes keeps them (section 9). *)
Module Message3.
Section Message3.
Context `{Cbor2} `{Cryptography} `{Ecdsa}.

Record t : Type := {
  peer_session_id : cbor;
  bytes_object : option bytes;
  _aad_3 : option bytes;
  signature : option bytes;
  ciphertext : option bytes
}.

Definition new (peer_session_id : cbor) (bytes_object : option bytes)
  : t :=
  {| peer_session_id := peer_session_id; bytes_object := bytes_object;
     _aad_3 := None; signature := None; ciphertext := None |}.

Definition set__aad_3 (v : option bytes) (self : t) : t :=
  {| peer_session_id := peer_session_id self;
     bytes_object := bytes_object self;
     _aad_3 := v; signature := signature self;
     ciphertext := ciphertext self |}.

Definition set_signature (v : option bytes) (self : t) : t :=
  {| peer_session_id := peer_session_id self;
     bytes_object := bytes_object self;
     _aad_3 := _aad_3 self; signature := v;
     ciphertext := ciphertext self |}.

Definition set_ciphertext (v : option bytes) (self : t) : t :=
  {| peer_session_id := peer_session_id self;
     bytes_object := bytes_object self;
     _aad_3 := _aad_3 self; signature := signature self;
     ciphertext := v |}.

Definition to_bytes (self : t) : result bytes :=
  match bytes_object self with
  | Some b => Return b
  | None =>
      match ciphertext self with
      | Some enc_3 =>
          Return (dumps (CArray [CInt EDHOC_MSG_3; peer_session_id self;
                                 CBytes enc_3]))
      | None => Raise TypeError
      end
  end.

Definition th_3 (digest : bytes -> bytes) (message1 : option Message1.t)
    (message2 : option Message2.t) : result bytes :=
  match message2 with
  | None => Raise TypeError
  | Some message2 =>
      th2 <~ Message2.th_2 digest message1 message2 ;;
      enc_2 <~ Message2.ciphertext_2 message2 ;;
      Return (digest (th2 ++ enc_2))
  end.

Definition aad_3 (digest : bytes -> bytes) (message1 : option Message1.t)
    (message2 : option Message2.t) : M t bytes :=
  self <- get ;;
  aad <- lift (th_3 digest message1 message2) ;;
  put (set__aad_3 (Some aad) self) ;;;
  ret aad.

Definition sign (sk : SigningKey) (k : bytes) (aad : bytes) : M t unit :=
  self <- get ;;
  put (set_signature
         (Some (Signature1Message.serialize_signed
                  [] sign1_protected (CMap []) sk k aad)) self).

Definition encrypt (key iv : bytes) : M t unit :=
  self <- get ;;
  sig <- need (signature self) ;;
  aad <- need (_aad_3 self) ;;
  put (set_ciphertext
         (Some (Encrypt0Message.serialize sig iv key aad)) self).

End Message3.
End Message3.

(** What [Server.on_receive] returns: a [Message2], a [MessageOk], or
    [None] when no branch is taken. *)
Inductive reply : Type :=
| ReplyMessage2 (m : Message2.t)
| MessageOk
| ReplyNone.

(** The entropy a method draws: [os.urandom(2)], [os.urandom(8)],
    [ec.generate_private_key(ec.SECP256R1, backend)] and the nonce of the
    signature. *)
Record Entropy `{Cryptography} : Type := {
  urandom_2 : bytes;
  urandom_8 : bytes;
  generate_private_key : EllipticCurvePrivateKey;
  sign_nonce : bytes
}.

(** ** [lib/edhoc/protocol.py]: the session *)

Section Protocol.
Context `{Cbor2} `{Cryptography} `{Ecdsa}.

(** [EdhocSession.Session] *)
Record Session : Type := {
  id : option bytes;
  shared_secret : option bytes;
  private_key : option EllipticCurvePrivateKey;
  public_key : option EllipticCurvePublicNumbers
}.

Definition Session__init__ (session_id shared_secret : option bytes)
  : Session :=
  {| id := session_id; shared_secret := shared_secret;
     private_key := None; public_key := None |}.

Record EdhocSession : Type := {
  session : Session;
  message1 : option Message1.t;
  message2 : option Message2.t;
  message3 : option Message3.t;
  _oscore_context : option OscoreContext
}.

Definition EdhocSession__init__ : EdhocSession :=
  {| session := Session__init__ None None;
     message1 := None; message2 := None; message3 := None;
     _oscore_context := None |}.

Definition set_id (v : option bytes) (s : Session) : Session :=
  {| id := v; shared_secret := shared_secret s;
     private_key := private_key s; public_key := public_key s |}.

Definition set_shared_secret (v : option bytes) (s : Session) : Session :=
  {| id := id s; shared_secret := v;
     private_key := private_key s; public_key := public_key s |}.

Definition set_private_key (v : option EllipticCurvePrivateKey)
    (s : Session) : Session :=
  {| id := id s; shared_secret := shared_secret s;
     private_key := v; public_key := public_key s |}.

Definition set_public_key (v : option EllipticCurvePublicNumbers)
    (s : Session) : Session :=
  {| id := id s; shared_secret := shared_secret s;
     private_key := private_key s; public_key := v |}.

Definition set_session (v : Session) (e : EdhocSession) : EdhocSession :=
  {| session := v; message1 := message1 e; message2 := message2 e;
     message3 := message3 e; _oscore_context := _oscore_context e |}.

Definition set_message1 (v : option Message1.t) (e : EdhocSession)
  : EdhocSession :=
  {| session := session e; message1 := v; message2 := message2 e;
     message3 := message3 e; _oscore_context := _oscore_context e |}.

Definition set_message2 (v : option Message2.t) (e : EdhocSession)
  : EdhocSession :=
  {| session := session e; message1 := message1 e; message2 := v;
     message3 := message3 e; _oscore_context := _oscore_context e |}.

Definition set_message3 (v : option Message3.t) (e : EdhocSession)
  : EdhocSession :=
  {| session := session e; message1 := message1 e; message2 := message2 e;
     message3 := v; _oscore_context := _oscore_context e |}.

Definition set__oscore_context (v : option OscoreContext)
    (e : EdhocSession) : EdhocSession :=
  {| session := session e; message1 := message1 e; message2 := message2 e;
     message3 := message3 e; _oscore_context := v |}.

(** [self.attr = v] *)
Definition assign {S A : Type} (set : A -> S -> S) (v : A) : M S unit :=
  fun s => (Return tt, set v s, []).

(** [self.session.attr = v] *)
Definition assign_session {A : Type} (set : A -> Session -> Session)
    (v : A) : M EdhocSession unit :=
  fun e => (Return tt, set_session (set v (session e)) e, []).

(** [bytes(m)] for a message attribute, [None] raising [TypeError]. *)
Definition bytes_of {T : Type} (to_bytes : T -> result bytes)
    (m : option T) : result bytes :=
  match m with Some m => to_bytes m | None => Raise TypeError end.

(** The property [EdhocSession.oscore_context]. *)
Definition oscore_context : M EdhocSession OscoreContext :=
  self <- get ;;
  match _oscore_context self with
  | None =>
      msg_1 <- lift (bytes_of Message1.to_bytes (message1 self)) ;;
      msg_2 <- lift (bytes_of Message2.to_bytes (message2 self)) ;;
      msg_3 <- lift (bytes_of Message3.to_bytes (message3 self)) ;;
      let exchange_hash :=
        message_digest (message_digest (msg_1 ++ msg_2) ++ msg_3) in
      secret <- need (shared_secret (session self)) ;;
      let master_secret :=
        derive_key secret (128 / 8)
          (cose_kdf_context "EDHOC OSCORE Master Secret" (128 / 8)
                            exchange_hash) in
      let master_salt :=
        derive_key secret (56 / 8)
          (cose_kdf_context "EDHOC OSCORE Master Salt" (56 / 8)
                            exchange_hash) in
      assign set__oscore_context
        (Some {| master_secret := master_secret;
                 master_salt := master_salt |})
  | Some _ => ret tt
  end ;;;
  self <- get ;;
  need (_oscore_context self).

Definition encrypt (payload : bytes) : M EdhocSession bytes :=
  ctx_iv <- oscore_context ;;
  ctx_key <- oscore_context ;;
  ret (Encrypt0Message.serialize payload
         (master_salt ctx_iv) (master_secret ctx_key) []).

Definition decrypt (ciphertext : bytes) : M EdhocSession bytes :=
  ctx_iv <- oscore_context ;;
  ctx_key <- oscore_context ;;
  lift (Encrypt0Message.decrypt (CBytes ciphertext)
          (master_secret ctx_key) (master_salt ctx_iv) []).

End Protocol.

(** ** [lib/edhoc/protocol.py]: [Server] and [Client] *)

Section Endpoints.
Context `{Cbor2} `{Cryptography} `{Ecdsa}.

(** [class Server(EdhocSession)]: the attributes of the base class are
    kept in [s_base]. *)
Record Server : Type := {
  s_sk : SigningKey;
  s_vk : VerifyingKey;
  client_id : VerifyingKey;
  s_base : EdhocSession
}.

Definition Server__init__ (sk : SigningKey) (client_id : VerifyingKey)
  : Server :=
  {| s_sk := sk; s_vk := get_verifying_key sk; client_id := client_id;
     s_base := EdhocSession__init__ |}.

Definition set_s_base (b : EdhocSession) (s : Server) : Server :=
  {| s_sk := s_sk s; s_vk := s_vk s; client_id := client_id s;
     s_base := b |}.

(** A method or attribute inherited from [EdhocSession]. *)
Definition s_super {A : Type} (m : M EdhocSession A) : M Server A :=
  fun s => match m (s_base s) with
           | (r, b, out) => (r, set_s_base b s, out)
           end.

Definition on_msg_1 (rnd : Entropy) (message : bytes) : M Server reply :=
  m1 <- lift (Message1.from_bytes message) ;;
  s_super (assign set_message1 (Some m1)) ;;;

  let session_id := urandom_2 rnd in
  let nonce := urandom_8 rnd in

  let session_key := generate_private_key rnd in
  let public_session_key := public_numbers session_key in

  let peer_session_key := Message1.ephemeral_key m1 in
  let peer_session_id := Message1.session_id m1 in

  ecdh_shared_secret <- lift (exchange session_key peer_session_key) ;;

  s_super (assign_session set_id (Some session_id)) ;;;
  s_super (assign_session set_private_key (Some session_key)) ;;;
  s_super (assign_session set_public_key (Some public_session_key)) ;;;
  s_super (assign_session set_shared_secret (Some ecdh_shared_secret)) ;;;

  s_super (assign set_message2
             (Some (Message2.new peer_session_id (CBytes session_id)
                      (CBytes nonce) public_session_key None))) ;;;

  self <- get ;;
  aad2 <- s_super (on_attr message2 set_message2
                     (Message2.aad_2 message_digest
                        (message1 (s_base self)))) ;;

  s_super (on_attr message2 set_message2
             (Message2.sign (s_sk self) (sign_nonce rnd) aad2)) ;;;

  let k_2 := derive_key ecdh_shared_secret 16
               (cose_kdf_context "AES-CCM-64-64-128" 16 aad2) in
  let iv_2 := derive_key ecdh_shared_secret 7
                (cose_kdf_context "IV-Generation" 7 aad2) in

  s_super (on_attr message2 set_message2 (Message2.encrypt k_2 iv_2)) ;;;

  print "Server AAD2 =" aad2 ;;;
  print "Server K2 =" k_2 ;;;
  print "Server IV2 =" iv_2 ;;;

  self <- get ;;
  m2 <- need (message2 (s_base self)) ;;
  ret (ReplyMessage2 m2).

Definition on_msg_3 (message : bytes) : M Server reply :=
  decoded <- lift (loads message) ;;
  '(tag, p_sess_id, enc_3) <- lift (unpack3 decoded) ;;

  s_super (assign set_message3
             (Some (Message3.new p_sess_id (Some message)))) ;;;
  self <- get ;;
  aad3 <- s_super (on_attr message3 set_message3
                     (Message3.aad_3 message_digest
                        (message1 (s_base self))
                        (message2 (s_base self)))) ;;

  secret <- need (shared_secret (session (s_base self))) ;;
  let k_3 := derive_key secret 16
               (cose_kdf_context "AES-CCM-64-64-128" 16 aad3) in
  let iv_3 := derive_key secret 7
                (cose_kdf_context "IV-Generation" 7 aad3) in

  sig_u <- lift (Encrypt0Message.decrypt enc_3 k_3 iv_3 aad3) ;;

  payload <- lift (Signature1Message.verify sig_u (client_id self) aad3) ;;

  ret MessageOk.

Definition on_receive (rnd : Entropy) (message : bytes) : M Server reply :=
  print "Server Received: " message ;;;

  decoded <- lift (loads message) ;;

  tag <- lift (py_getitem decoded 0) ;;
  if py_eq_int tag EDHOC_MSG_1 then
    on_msg_1 rnd message
  else
    tag <- lift (py_getitem decoded 0) ;;
    if py_eq_int tag EDHOC_MSG_3 then
      on_msg_3 message
    else
      ret ReplyNone.

(** [class Client(EdhocSession)] *)
Record Client : Type := {
  c_sk : SigningKey;
  c_vk : VerifyingKey;
  server_id : VerifyingKey;
  c_base : EdhocSession
}.

Definition Client__init__ (sk : SigningKey) (server_id : VerifyingKey)
  : Client :=
  {| c_sk := sk; c_vk := get_verifying_key sk; server_id := server_id;
     c_base := EdhocSession__init__ |}.

Definition set_c_base (b : EdhocSession) (c : Client) : Client :=
  {| c_sk := c_sk c; c_vk := c_vk c; server_id := server_id c;
     c_base := b |}.

Definition c_super {A : Type} (m : M EdhocSession A) : M Client A :=
  fun c => match m (c_base c) with
           | (r, b, out) => (r, set_c_base b c, out)
           end.

Definition initiate_edhoc (rnd : Entropy) : M Client Message1.t :=
  let session_id := urandom_2 rnd in
  let nonce := urandom_8 rnd in

  let session_key := generate_private_key rnd in
  let public_session_key := public_numbers session_key in

  c_super (assign_session set_id (Some session_id)) ;;;
  c_super (assign_session set_private_key (Some session_key)) ;;;
  c_super (assign_session set_public_key (Some public_session_key)) ;;;

  c_super (assign set_message1
             (Some (Message1.new (CBytes session_id) (CBytes nonce)
                      public_session_key))) ;;;

  self <- get ;;
  need (message1 (c_base self)).

Definition continue_edhoc (rnd : Entropy) (message2_ : bytes)
  : M Client Message3.t :=
  decoded <- lift (loads message2_) ;;
  '(tag, sess_id, p_sess_id, p_nonce, p_eph_key, enc_2)
    <- lift (unpack6 decoded) ;;

  p_eph_key <- lift (ecdh_cose_to_key p_eph_key) ;;
  self <- get ;;
  ecdh_shared_secret <-
    match private_key (session (c_base self)) with
    | Some key => lift (exchange key p_eph_key)
    | None => raise AttributeError
    end ;;
  c_super (assign_session set_shared_secret (Some ecdh_shared_secret)) ;;;

  c_super (assign set_message2
             (Some (Message2.new sess_id p_sess_id p_nonce p_eph_key
                      (Some message2_)))) ;;;
  aad2 <- c_super (on_attr message2 set_message2
                     (Message2.aad_2 message_digest
                        (message1 (c_base self)))) ;;

  let k_2 := derive_key ecdh_shared_secret 16
               (cose_kdf_context "AES-CCM-64-64-128" 16 aad2) in
  let iv_2 := derive_key ecdh_shared_secret 7
                (cose_kdf_context "IV-Generation" 7 aad2) in

  print "Client AAD2 =" aad2 ;;;
  print "Client K2 =" k_2 ;;;
  print "Client IV2 =" iv_2 ;;;

  sig_v <- lift (Encrypt0Message.decrypt enc_2 k_2 iv_2 aad2) ;;

  payload <- lift (Signature1Message.verify sig_v (server_id self) aad2) ;;

  c_super (assign set_message3 (Some (Message3.new p_sess_id None))) ;;;
  self <- get ;;
  aad3 <- c_super (on_attr message3 set_message3
                     (Message3.aad_3 message_digest
                        (message1 (c_base self))
                        (message2 (c_base self)))) ;;

  c_super (on_attr message3 set_message3
             (Message3.sign (c_sk self) (sign_nonce rnd) aad3)) ;;;

  let k_3 := derive_key ecdh_shared_secret 16
               (cose_kdf_context "AES-CCM-64-64-128" 16 aad3) in
  let iv_3 := derive_key ecdh_shared_secret 7
                (cose_kdf_context "IV-Generation" 7 aad3) in

  c_super (on_attr message3 set_message3 (Message3.encrypt k_3 iv_3)) ;;;

  self <- get ;;
  m3 <- need (message3 (c_base self)) ;;
  aad3_ <- need (Message3._aad_3 m3) ;;
  print "Client AAD3 =" aad3_ ;;;
  print "Client K3 =" k_3 ;;;
  print "Client IV3 =" iv_3 ;;;

  ret m3.

End Endpoints.

(** ** [as/__init__.py]: the Authorization Server *)

(** [b.hex()] *)
Definition hex_digit (n : N) : ascii :=
  match n with
  | 0%N => "0" | 1%N => "1" | 2%N => "2" | 3%N => "3"
  | 4%N => "4" | 5%N => "5" | 6%N => "6" | 7%N => "7"
  | 8%N => "8" | 9%N => "9" | 10%N => "a" | 11%N => "b"
  | 12%N => "c" | 13%N => "d" | 14%N => "e" | _ => "f"
  end%char.

Fixpoint hex (b : bytes) : string :=
  match b with
  | [] => EmptyString
  | x :: b' =>
      String (hex_digit (Byte.to_N x / 16))
        (String (hex_digit (Byte.to_N x mod 16)) (hex b'))
  end.

(** Reading [hex] back: the value of a hexadecimal digit. *)
Definition hex_value (c : ascii) : N :=
  match c with
  | "0" => 0 | "1" => 1 | "2" => 2 | "3" => 3 | "4" => 4
  | "5" => 5 | "6" => 6 | "7" => 7 | "8" => 8 | "9" => 9
  | "a" => 10 | "b" => 11 | "c" => 12 | "d" => 13 | "e" => 14
  | _ => 15
  end%char%N.

Definition is_hex_digit (c : ascii) : bool :=
  existsb (Ascii.eqb c) (list_ascii_of_string "0123456789abcdef").

(** [OscoreContext.__str__] of [lib/edhoc/protocol.py]. *)
Definition OscoreContext__str__ (self : OscoreContext) : string :=
  String.append "OSCORE context (master_secret="
    (String.append (hex (master_secret self))
       (String.append ", master_salt="
          (String.append (hex (master_salt self)) ")"))).

(** The labels of [lib.cbor.constants.Keys] and [lib.cose.constants.Key]
    that the server uses; the files are missing, the labels are
    integers. *)
Class Keys : Type := {
  GRANT_TYPE : Z;
  CLIENT_ID : Z;
  CLIENT_SECRET : Z;
  AUD : Z;
  SCOPE : Z;
  CNF : Z;
  ISS : Z;
  IAT : Z;
  EXP : Z;
  CTI : Z;
  ACCESS_TOKEN : Z;
  TOKEN_TYPE : Z;
  PROFILE : Z;
  RS_CNF : Z;
  TOKEN : Z;
  TOKEN_TYPE_HINT : Z;
  ACTIVE : Z;
  COSE_KEY : Z
}.

(** What [TokenRegistry.get_token] returns. *)
Record AccessContext (K : Type) : Type := {
  scope : cbor;
  audience : cbor;
  issuer : cbor;
  expires : cbor;
  issued_at : cbor;
  bound_key : K
}.
Arguments scope {K} _.
Arguments audience {K} _.
Arguments issuer {K} _.
Arguments expires {K} _.
Arguments issued_at {K} _.
Arguments bound_key {K} _.

(** [AccessToken(claims=claims)] followed by [bind_key]. *)
Record AccessToken (K : Type) : Type := {
  claims : list (cbor * cbor);
  token_key : option K
}.
Arguments claims {K} _.
Arguments token_key {K} _.

(** The collaborators of the server whose files are missing: the
    registries, [lib.cose.CoseKey] and the export of an access token. *)
Class Collaborators `{Ecdsa} : Type := {
  CoseKey_t : Type;
  CoseKey_from_cose : cbor -> result CoseKey_t;
  CoseKey_encode : CoseKey_t -> cbor;
  rs_public_cose_key : CoseKey_t;
  ClientRegistry : Type;
  ClientRegistry__init__ : ClientRegistry;
  register_client : ClientRegistry -> string -> bytes -> ClientRegistry;
  check_secret : ClientRegistry -> cbor -> cbor -> bool;
  KeyRegistry : Type;
  KeyRegistry__init__ : KeyRegistry;
  add_key : KeyRegistry -> cbor -> CoseKey_t -> KeyRegistry;
  TokenRegistry : Type;
  TokenRegistry__init__ : TokenRegistry;
  add_token : TokenRegistry -> AccessToken CoseKey_t -> bool -> TokenRegistry;
  get_token : TokenRegistry -> cbor -> result (AccessContext CoseKey_t);
  sign_and_export_self_contained :
    AccessToken CoseKey_t -> SigningKey -> bytes -> cbor
}.

Record Response : Type := {
  status : Z;
  body : bytes
}.

(** [int(x)] of a float [x]: the integer part of [x], rounded towards
    zero; [ValueError] for a NaN and [OverflowError] for an infinity.  A
    finite float other than zero is [m * 2 ^ e], negated when [s]. *)
Definition py_int (x : float) : result Z :=
  match FloatOps.Prim2SF x with
  | SpecFloat.S754_zero _ => Return 0
  | SpecFloat.S754_infinity _ => Raise OverflowError
  | SpecFloat.S754_nan => Raise ValueError
  | SpecFloat.S754_finite s m e =>
      let magnitude := Z.shiftl (Z.pos m) e in
      Return (if s then - magnitude else magnitude)
  end.

(** What a request handler draws from its environment: [time.time()]
    twice, each a float of seconds, [os.urandom(2)], and the nonce of the
    token's signature. *)
Record Clock : Type := {
  time_1 : float;
  time_2 : float;
  cti_urandom_2 : bytes;
  token_sign_nonce : bytes
}.

Definition quote : string := String (ascii_of_nat 34) EmptyString.

Section AuthorizationServer.
Context `{Cbor2} `{Ecdsa} `{!Collaborators} `{Keys}.

Record AuthorizationServer : Type := {
  signature_key : SigningKey;
  client_registry : ClientRegistry;
  key_registry : KeyRegistry;
  token_registry : TokenRegistry
}.

Definition AuthorizationServer__init__ (signature_key : SigningKey)
  : AuthorizationServer :=
  {| signature_key := signature_key;
     client_registry :=
       register_client ClientRegistry__init__ "ace_client_1"
         (string_bytes "ace_client_1_secret_123456");
     key_registry := KeyRegistry__init__;
     token_registry := TokenRegistry__init__ |}.

Definition set_key_registry (v : KeyRegistry) (a : AuthorizationServer)
  : AuthorizationServer :=
  {| signature_key := signature_key a;
     client_registry := client_registry a;
     key_registry := v; token_registry := token_registry a |}.

Definition set_token_registry (v : TokenRegistry)
    (a : AuthorizationServer) : AuthorizationServer :=
  {| signature_key := signature_key a;
     client_registry := client_registry a;
     key_registry := key_registry a; token_registry := v |}.

Definition verify_client (client_id client_secret : cbor)
  : M AuthorizationServer bool :=
  self <- get ;;
  ret (check_secret (client_registry self) client_id client_secret).

(** [all(key in request_data for key in expected_keys)] *)
Fixpoint all_in (request_data : cbor) (keys : list Z) : result bool :=
  match keys with
  | [] => Return true
  | key :: keys' =>
      b <~ py_contains request_data key ;;
      if b then all_in request_data keys' else Return false
  end.

Definition _verify_token_request (request_data : cbor) : result bool :=
  let expected_keys := [GRANT_TYPE; CLIENT_ID; CLIENT_SECRET; AUD] in
  match request_data with
  | CNull => Return false
  | _ => all_in request_data expected_keys
  end.

(** [client_claims] is a dict with integer keys, kept as its items.  The
    values of the dict display are evaluated in their order: [int] of the
    first reading of the clock, then [int] of the float sum of the second
    reading and [7200.0]. *)
Definition _bind_token (clock : Clock)
    (client_claims : list (Z * cbor)) (session_key : CoseKey_t)
  : result (AccessToken CoseKey_t) :=
  let cti := cti_urandom_2 clock in
  iat <~ py_int (time_1 clock) ;;
  exp <~ py_int (time_2 clock + 7200.0)%float ;;
  let claims := dict_of [ (ISS, CText "ace.as-server.com");
                          (IAT, CInt iat);
                          (EXP, CInt exp);
                          (CTI, CText (hex cti)) ] in
  (* claims.update(client_claims) *)
  let claims :=
    fold_left (fun d kv => dict_set d (fst kv) (snd kv))
      client_claims claims in
  Return {| claims := claims; token_key := Some session_key |}.

Definition error_body (code : string) : bytes :=
  dumps (CMap [(CText "error", CText code)]).

Definition token (clock : Clock) (request_body : bytes)
  : M AuthorizationServer Response :=
  params <- lift (loads request_body) ;;

  ok <- lift (_verify_token_request params) ;;
  if negb ok then
    ret {| status := 400; body := error_body "invalid_request" |}
  else

  client_id <- lift (py_getitem params CLIENT_ID) ;;
  client_secret <- lift (py_getitem params CLIENT_SECRET) ;;

  known <- verify_client client_id client_secret ;;
  if negb known then
    ret {| status := 400; body := error_body "unauthorized_client" |}
  else

  cnf <- lift (py_getitem params CNF) ;;
  cose_key <- lift (py_getitem cnf COSE_KEY) ;;
  client_pop_key <- lift (CoseKey_from_cose cose_key) ;;

  scope_ <- lift (py_getitem params SCOPE) ;;
  aud_ <- lift (py_getitem params AUD) ;;
  let client_claims := [(SCOPE, scope_); (AUD, aud_)] in

  token <- lift (_bind_token clock client_claims client_pop_key) ;;

  self <- get ;;
  put (set_key_registry
         (add_key (key_registry self) client_id client_pop_key) self) ;;;
  self <- get ;;
  put (set_token_registry
         (add_token (token_registry self) token true) self) ;;;

  self <- get ;;
  let token_sent :=
    sign_and_export_self_contained token (signature_key self)
      (token_sign_nonce clock) in

  let response := dict_of [ (ACCESS_TOKEN, token_sent);
                            (TOKEN_TYPE, CText "pop");
                            (PROFILE, CText "coap_oscore");
                            (RS_CNF, CoseKey_encode rs_public_cose_key) ] in

  ret {| status := 200; body := dumps (CMap response) |}.

Definition introspect (request_body : bytes)
  : M AuthorizationServer Response :=
  params <- lift (loads request_body) ;;

  has_token <- lift (py_contains params TOKEN) ;;
  if negb has_token then
    ret {| status := 400;
           body := error_body
                     (String.append "missing "
                        (String.append quote
                           (String.append "token"
                              (String.append quote " parameter")))) |}
  else

  token <- lift (py_getitem params TOKEN) ;;
  token_type_hint <- lift (py_getitem params TOKEN_TYPE_HINT) ;;

  self <- get ;;
  access_context <- lift (get_token (token_registry self) token) ;;

  let response :=
    dict_of [ (ACTIVE, CBool true);
              (SCOPE, scope access_context);
              (AUD, audience access_context);
              (ISS, issuer access_context);
              (EXP, expires access_context);
              (IAT, issued_at access_context);
              (CNF, CMap (dict_of
                 [(COSE_KEY, CoseKey_encode (bound_key access_context))]))
            ] in

  ret {| status := 201; body := dumps (CMap response) |}.

End AuthorizationServer.

(** ** [rs/__init__.py]: the temperature resource *)

(** [f"{n}"] for an integer [n]. *)
Definition decimal (n : Z) : string := NilZero.string_of_int (Z.to_int n).

Section TemperatureServer.
Context `{Cbor2} {S : Type}.

(** The [oscore_context] a handler is called with: an object with an
    [encrypt] method, as [EdhocSession] is. *)
Variable oscore_context_encrypt : bytes -> M S bytes.

(** [TemperatureServer.get_temperature]; [temperature] is the draw of
    [random.randint(22, 26)]. *)
Definition get_temperature (temperature : Z) : M S Response :=
  response <- oscore_context_encrypt
                (dumps (CMap [(CText "temperature",
                               CText (String.append (decimal temperature)
                                        "C"))])) ;;
  ret {| status := 200; body := response |}.

End TemperatureServer.

(** ** The handshake of [tests/test_edhoc.py]

    [test_context] and [test_encrypt] run
    [initiate_edhoc], [on_receive], [continue_edhoc], [on_receive], each
    message passed on as [bytes(message)]. *)

Section Handshake.
Context `{Cbor2} `{Cryptography} `{Ecdsa}.

Definition handshake (rnd_c rnd_s : Entropy) (client : Client)
    (server : Server) : result (reply * Client * Server) :=
  match initiate_edhoc rnd_c client with
  | (r, client, _) =>
      message1 <~ r ;;
      msg_1 <~ Message1.to_bytes message1 ;;
      match on_receive rnd_s msg_1 server with
      | (r, server, _) =>
          rep <~ r ;;
          match rep with
          | ReplyMessage2 message2 =>
              msg_2 <~ Message2.to_bytes message2 ;;
              match continue_edhoc rnd_c msg_2 client with
              | (r, client, _) =>
                  message3 <~ r ;;
                  msg_3 <~ Message3.to_bytes message3 ;;
                  match on_receive rnd_s msg_3 server with
                  | (r, server, _) =>
                      rep <~ r ;;
                      Return (rep, client, server)
                  end
              end
          | MessageOk | ReplyNone => Raise TypeError
          end
      end
  end.

End Handshake.

(** ** The key schedule in the words of the specification

    Section 4.5 of the specification names the labels and lengths below;
    they are compared with what [protocol.py] derives. *)

Section SpecKeySchedule.
Context `{Cbor2} `{Cryptography}.

Definition spec_K (Z th : bytes) : bytes :=
  HKDF 16 (cose_kdf_context "AES-CCM-16-64-128" 16 th) Z.

Definition spec_IV (Z th : bytes) : bytes :=
  HKDF 13 (cose_kdf_context "IV-GENERATION" 13 th) Z.

Definition spec_TH_4 (th_3 ciphertext_3 : bytes) : bytes :=
  SHA256 (th_3 ++ ciphertext_3).

Definition spec_master_secret (Z th_4 : bytes) : bytes :=
  HKDF 16 (cose_kdf_context "OSCORE Master Secret" 16 th_4) Z.

Definition spec_master_salt (Z th_4 : bytes) : bytes :=
  HKDF 8 (cose_kdf_context "OSCORE Master Salt" 8 th_4) Z.

End SpecKeySchedule.

(** ** The transcript of an honest run

    The bytes on the wire and the objects both endpoints hold when a
    client with signing key [sk_c] and a server with signing key [sk_s],
    each knowing the other's verifying key, run the handshake with the
    entropy [rnd_c] and [rnd_s].  [unprotected] is the unprotected header
    the client puts in the inner Sign1 of MSG3; [Message3.sign] puts the
    empty map. *)

Section Transcript.
Context `{Cbor2} `{Cryptography} `{Ecdsa}.
Variables (sk_c sk_s : SigningKey) (rnd_c rnd_s : Entropy).

Definition cose_map (key : EllipticCurvePublicNumbers) : cbor :=
  CMap [ (CInt 1, CInt 2); (CInt (-1), CInt 1);
         (CInt (-2), CInt (pn_x key)); (CInt (-3), CInt (pn_y key)) ].

Definition G_X : EllipticCurvePublicNumbers :=
  public_numbers (generate_private_key rnd_c).

Definition G_Y : EllipticCurvePublicNumbers :=
  public_numbers (generate_private_key rnd_s).

(** The ECDH shared secret. *)
Definition shared_Z : bytes :=
  match exchange (generate_private_key rnd_s) G_X with
  | Return z => z
  | Raise _ => []
  end.

Definition MSG1 : bytes :=
  dumps (CArray [CInt 1; CBytes (urandom_2 rnd_c); CBytes (urandom_8 rnd_c);
                 CBytes (dumps (cose_map G_X))]).

Definition DATA_2 : bytes :=
  dumps (CArray [CInt 2; CBytes (urandom_2 rnd_c); CBytes (urandom_2 rnd_s);
                 CBytes (urandom_8 rnd_s); CBytes (dumps (cose_map G_Y))]).

Definition TH_2 : bytes := message_digest (MSG1 ++ DATA_2).

Definition K_ (th : bytes) : bytes :=
  derive_key shared_Z 16 (cose_kdf_context "AES-CCM-64-64-128" 16 th).

Definition IV_ (th : bytes) : bytes :=
  derive_key shared_Z 7 (cose_kdf_context "IV-Generation" 7 th).

Definition SIG_V : bytes :=
  Signature1Message.serialize_signed [] sign1_protected (CMap []) sk_s
    (sign_nonce rnd_s) TH_2.

Definition CIPHERTEXT_2 : bytes :=
  Encrypt0Message.serialize SIG_V (IV_ TH_2) (K_ TH_2) TH_2.

Definition MSG2 : bytes :=
  dumps (CArray [CInt 2; CBytes (urandom_2 rnd_c); CBytes (urandom_2 rnd_s);
                 CBytes (urandom_8 rnd_s); CBytes (dumps (cose_map G_Y));
                 CBytes CIPHERTEXT_2]).

Definition TH_3 : bytes := message_digest (TH_2 ++ CIPHERTEXT_2).

Definition SIG_U (unprotected : cbor) : bytes :=
  Signature1Message.serialize_signed [] sign1_protected unprotected sk_c
    (sign_nonce rnd_c) TH_3.

Definition CIPHERTEXT_3 (unprotected : cbor) : bytes :=
  Encrypt0Message.serialize (SIG_U unprotected) (IV_ TH_3) (K_ TH_3) TH_3.

Definition MSG3 (unprotected : cbor) : bytes :=
  dumps (CArray [CInt 3; CBytes (urandom_2 rnd_s);
                 CBytes (CIPHERTEXT_3 unprotected)]).

Definition EXCHANGE_HASH : bytes :=
  message_digest (message_digest (MSG1 ++ MSG2) ++ MSG3 (CMap [])).

Definition CONTEXT : OscoreContext :=
  {| master_secret :=
       derive_key shared_Z 16
         (cose_kdf_context "EDHOC OSCORE Master Secret" 16 EXCHANGE_HASH);
     master_salt :=
       derive_key shared_Z 7
         (cose_kdf_context "EDHOC OSCORE Master Salt" 7 EXCHANGE_HASH) |}.

Definition message1_c : Message1.t :=
  Message1.new (CBytes (urandom_2 rnd_c)) (CBytes (urandom_8 rnd_c)) G_X.

Definition message1_s : Message1.t :=
  {| Message1.session_id := CBytes (urandom_2 rnd_c);
     Message1.nonce := CBytes (urandom_8 rnd_c);
     Message1.ephemeral_key := G_X;
     Message1.bytes_object := Some MSG1 |}.

Definition message2_s : Message2.t :=
  {| Message2.session_id := CBytes (urandom_2 rnd_c);
     Message2.peer_session_id := CBytes (urandom_2 rnd_s);
     Message2.peer_nonce := CBytes (urandom_8 rnd_s);
     Message2.peer_ephemeral_key := G_Y;
     Message2.bytes_object := None;
     Message2._aad_2 := Some TH_2;
     Message2.signature := Some SIG_V;
     Message2.ciphertext := Some CIPHERTEXT_2 |}.

Definition message2_c : Message2.t :=
  {| Message2.session_id := CBytes (urandom_2 rnd_c);
     Message2.peer_session_id := CBytes (urandom_2 rnd_s);
     Message2.peer_nonce := CBytes (urandom_8 rnd_s);
     Message2.peer_ephemeral_key := G_Y;
     Message2.bytes_object := Some MSG2;
     Message2._aad_2 := Some TH_2;
     Message2.signature := None;
     Message2.ciphertext := None |}.

Definition message3_c : Message3.t :=
  {| Message3.peer_session_id := CBytes (urandom_2 rnd_s);
     Message3.bytes_object := None;
     Message3._aad_3 := Some TH_3;
     Message3.signature := Some (SIG_U (CMap []));
     Message3.ciphertext := Some (CIPHERTEXT_3 (CMap [])) |}.

Definition message3_s (unprotected : cbor) : Message3.t :=
  {| Message3.peer_session_id := CBytes (urandom_2 rnd_s);
     Message3.bytes_object := Some (MSG3 unprotected);
     Message3._aad_3 := Some TH_3;
     Message3.signature := None;
     Message3.ciphertext := None |}.

Definition client_session (secret : option bytes) : Session :=
  {| id := Some (urandom_2 rnd_c); shared_secret := secret;
     private_key := Some (generate_private_key rnd_c);
     public_key := Some G_X |}.

Definition server_session : Session :=
  {| id := Some (urandom_2 rnd_s); shared_secret := Some shared_Z;
     private_key := Some (generate_private_key rnd_s);
     public_key := Some G_Y |}.

Definition client_0 : Client :=
  Client__init__ sk_c (get_verifying_key sk_s).

Definition server_0 : Server :=
  Server__init__ sk_s (get_verifying_key sk_c).

(** The client after [initiate_edhoc]. *)
Definition client_1 : Client :=
  set_c_base
    {| session := client_session None;
       message1 := Some message1_c; message2 := None; message3 := None;
       _oscore_context := None |} client_0.

(** The server after MSG1. *)
Definition server_1 : Server :=
  set_s_base
    {| session := server_session;
       message1 := Some message1_s; message2 := Some message2_s;
       message3 := None; _oscore_context := None |} server_0.

(** The client after [continue_edhoc]. *)
Definition client_2 : Client :=
  set_c_base
    {| session := client_session (Some shared_Z);
       message1 := Some message1_c; message2 := Some message2_c;
       message3 := Some message3_c; _oscore_context := None |} client_0.

(** The server after MSG3. *)
Definition server_2 (unprotected : cbor) : Server :=
  set_s_base
    {| session := server_session;
       message1 := Some message1_s; message2 := Some message2_s;
       message3 := Some (message3_s unprotected);
       _oscore_context := None |} server_0.

End Transcript.

(** ** Messages that depart from the honest run *)

Section Departures.
Context `{Cbor2} `{Cryptography} `{Ecdsa}.
Variables (sk_c sk_s : SigningKey) (rnd_c rnd_s : Entropy).

(** MSG2 of the honest server with [enc_2] in the place of
    [ciphertext_2]. *)
Definition MSG2_with (enc_2 : cbor) : bytes :=
  dumps (CArray [CInt 2; CBytes (urandom_2 rnd_c); CBytes (urandom_2 rnd_s);
                 CBytes (urandom_8 rnd_s);
                 CBytes (dumps (cose_map (G_Y rnd_s))); enc_2]).

(** MSG3 of the honest client with [p_sess_id] in the place of the
    server's session id. *)
Definition MSG3_with (p_sess_id : cbor) : bytes :=
  dumps (CArray [CInt 3; p_sess_id;
                 CBytes (CIPHERTEXT_3 sk_c sk_s rnd_c rnd_s (CMap []))]).

(** The context [oscore_context] derives on the server of the honest run
    when its third message is [msg_3]. *)
Definition CONTEXT_with (msg_3 : bytes) : OscoreContext :=
  let exchange_hash :=
    message_digest
      (message_digest (MSG1 rnd_c ++ MSG2 sk_s rnd_c rnd_s) ++ msg_3) in
  {| master_secret :=
       derive_key (shared_Z rnd_c rnd_s) 16
         (cose_kdf_context "EDHOC OSCORE Master Secret" 16 exchange_hash);
     master_salt :=
       derive_key (shared_Z rnd_c rnd_s) 7
         (cose_kdf_context "EDHOC OSCORE Master Salt" 7 exchange_hash) |}.

End Departures.

(** *** Runs of endpoints that are not new

    [initiate_edhoc] and [on_msg_1] start a run in whatever state the
    endpoint is. *)

Section Reentry.
Context `{Cbor2} `{Cryptography} `{Ecdsa}.
Variables (rnd_c rnd_s : Entropy).



End Reentry.

(** ** A concrete instance of the libraries

    The model runs on a codec for the part of CBOR this program uses and on
    small stand-ins for the cryptographic primitives.  The stand-ins keep
    the shape of the real ones (lengths, agreement of the two ECDH
    computations, an authentication tag, a signature checked against the
    verifying key) and nothing of their strength. *)

Module Sample.

Definition byte_of_N (n : N) : byte :=
  match Byte.of_N (n mod 256) with Some b => b | None => x00 end.

(** The [k] bytes of [n], most significant first. *)
Fixpoint be_bytes (k : nat) (n : N) : bytes :=
  match k with
  | O => []
  | S k' => be_bytes k' (n / 256) ++ [byte_of_N n]
  end.

Definition be_value (b : bytes) : N :=
  fold_left (fun acc x => (acc * 256 + Byte.to_N x)%N) b 0%N.

(** *** CBOR

    Major types 0 to 5 with definite lengths and the simple values
    [false], [true] and [null].  Arguments of [2^64] and more (integers
    that [cbor2] writes as bignums, and lengths no Python object
    reaches) are outside CBOR's heads; to keep [dumps] one-to-one they
    are written with additional information 31 and a unary count. *)

Definition head (major : N) (n : N) : bytes :=
  if (n <? 24)%N then [byte_of_N (major * 32 + n)]
  else if (n <? 256)%N then byte_of_N (major * 32 + 24) :: be_bytes 1 n
  else if (n <? 65536)%N then byte_of_N (major * 32 + 25) :: be_bytes 2 n
  else if (n <? 4294967296)%N
       then byte_of_N (major * 32 + 26) :: be_bytes 4 n
  else if (n <? 18446744073709551616)%N
       then byte_of_N (major * 32 + 27) :: be_bytes 8 n
  else byte_of_N (major * 32 + 31) :: repeat x01 (N.to_nat n) ++ [x00].

Fixpoint encode (v : cbor) : bytes :=
  match v with
  | CInt z =>
      if 0 <=? z then head 0 (Z.to_N z) else head 1 (Z.to_N (- 1 - z))
  | CBytes b => head 2 (N.of_nat (List.length b)) ++ b
  | CText s =>
      head 3 (N.of_nat (List.length (list_byte_of_string s)))
        ++ list_byte_of_string s
  | CArray l =>
      head 4 (N.of_nat (List.length l)) ++ flat_map encode l
  | CMap d =>
      head 5 (N.of_nat (List.length d))
        ++ flat_map (fun kv => encode (fst kv) ++ encode (snd kv)) d
  | CNull => [xf6]
  | CBool false => [xf4]
  | CBool true => [xf5]
  end.

Fixpoint unary (bs : bytes) : option (N * bytes) :=
  match bs with
  | x00 :: rest => Some (0%N, rest)
  | x01 :: rest =>
      match unary rest with
      | Some (n, rest') => Some (N.succ n, rest')
      | None => None
      end
  | _ => None
  end.

Definition take (n : nat) (bs : bytes) : option (bytes * bytes) :=
  if (List.length bs <? n)%nat then None
  else Some (firstn n bs, skipn n bs).

Definition fixed (k : nat) (bs : bytes) : option (N * bytes) :=
  match take k bs with
  | Some (b, rest) => Some (be_value b, rest)
  | None => None
  end.

(** The argument that follows an initial byte with additional
    information [info]. *)
Definition argument (info : N) (bs : bytes) : option (N * bytes) :=
  if (info <? 24)%N then Some (info, bs)
  else match info with
       | 24%N => fixed 1 bs
       | 25%N => fixed 2 bs
       | 26%N => fixed 4 bs
       | 27%N => fixed 8 bs
       | 31%N => unary bs
       | _ => None
       end.

Fixpoint items (dec : bytes -> option (cbor * bytes)) (n : nat)
    (bs : bytes) : option (list cbor * bytes) :=
  match n with
  | O => Some ([], bs)
  | S n' =>
      match dec bs with
      | Some (v, bs) =>
          match items dec n' bs with
          | Some (l, bs) => Some (v :: l, bs)
          | None => None
          end
      | None => None
      end
  end.

Fixpoint pairs (dec : bytes -> option (cbor * bytes)) (n : nat)
    (bs : bytes) : option (list (cbor * cbor) * bytes) :=
  match n with
  | O => Some ([], bs)
  | S n' =>
      match dec bs with
      | Some (k, bs) =>
          match dec bs with
          | Some (v, bs) =>
              match pairs dec n' bs with
              | Some (d, bs) => Some ((k, v) :: d, bs)
              | None => None
              end
          | None => None
          end
      | None => None
      end
  end.

Definition simple (info : N) (rest : bytes) : option (cbor * bytes) :=
  match info with
  | 20%N => Some (CBool false, rest)
  | 21%N => Some (CBool true, rest)
  | 22%N => Some (CNull, rest)
  | _ => None
  end.

(** One data item from the front of [bs]; [fuel] bounds the nesting. *)
Fixpoint decode (fuel : nat) (bs : bytes) : option (cbor * bytes) :=
  match fuel with
  | O => None
  | S fuel' =>
      match bs with
      | [] => None
      | b :: rest =>
          let major := (Byte.to_N b / 32)%N in
          let info := (Byte.to_N b mod 32)%N in
          if (major =? 7)%N then simple info rest
          else
            match argument info rest with
            | None => None
            | Some (n, rest) =>
                match major with
                | 0%N => Some (CInt (Z.of_N n), rest)
                | 1%N => Some (CInt (- 1 - Z.of_N n), rest)
                | 2%N =>
                    match take (N.to_nat n) rest with
                    | Some (b, rest) => Some (CBytes b, rest)
                    | None => None
                    end
                | 3%N =>
                    match take (N.to_nat n) rest with
                    | Some (b, rest) =>
                        Some (CText (string_of_list_byte b), rest)
                    | None => None
                    end
                | 4%N =>
                    match items (decode fuel') (N.to_nat n) rest with
                    | Some (l, rest) => Some (CArray l, rest)
                    | None => None
                    end
                | 5%N =>
                    match pairs (decode fuel') (N.to_nat n) rest with
                    | Some (d, rest) => Some (CMap d, rest)
                    | None => None
                    end
                | _ => None
                end
            end
      end
  end.

Definition sample_loads (bs : bytes) : result cbor :=
  match decode (S (List.length bs)) bs with
  | Some (v, _) => Return v
  | None => Raise CBORDecodeError
  end.

#[export] Instance cbor2 : Cbor2 :=
  {| loads := sample_loads; dumps := encode |}.

(** *** Stand-ins for [cryptography] and [ecdsa] *)

Definition modulus : Z := 65521.

Definition checksum (b : bytes) : N :=
  fold_left
    (fun h x => ((h * 31 + Byte.to_N x + 1) mod 4294967291)%N) b 7%N.

(** [n] bytes spread from the number [h]. *)
Definition stream (n : nat) (h : N) : bytes :=
  map (fun i => byte_of_N ((h + 1) * (2 * N.of_nat i + 3) / 7)) (seq 0 n).

Definition sample_SHA256 (m : bytes) : bytes := stream 32 (checksum m).

Definition sample_HKDF (n : nat) (info key : bytes) : bytes :=
  stream n (checksum (key ++ [xff] ++ info)).

Definition sample_public_numbers (k : Z) : EllipticCurvePublicNumbers :=
  {| pn_x := (5 * k) mod modulus;
     pn_y := (3 * ((5 * k) mod modulus)) mod modulus;
     pn_curve := "secp256r1" |}.

Definition sample_on_curve (p : EllipticCurvePublicNumbers) : bool :=
  pn_y p =? (3 * pn_x p) mod modulus.

Definition sample_exchange (k : Z) (p : EllipticCurvePublicNumbers)
  : result bytes :=
  if String.eqb (pn_curve p) "secp256r1"
  then Return (stream 32 (Z.to_N ((k * pn_x p) mod modulus)))
  else Raise ValueError.

Definition tag_length : nat := 8.

Definition sample_tag (key nonce data aad : bytes) : bytes :=
  stream tag_length
    (checksum (key ++ [xff] ++ nonce ++ [xff] ++ aad ++ [xff] ++ data)).

Fixpoint bytes_eqb (a b : bytes) : bool :=
  match a, b with
  | [], [] => true
  | x :: a', y :: b' => Byte.eqb x y && bytes_eqb a' b'
  | _, _ => false
  end.

Definition sample_encrypt (key nonce data aad : bytes) : bytes :=
  data ++ sample_tag key nonce data aad.

Definition sample_decrypt (key nonce ct aad : bytes) : option bytes :=
  if (List.length ct <? tag_length)%nat then None
  else
    let n := (List.length ct - tag_length)%nat in
    let data := firstn n ct in
    if bytes_eqb (skipn n ct) (sample_tag key nonce data aad)
    then Some data else None.

#[export] Instance cryptography : Cryptography :=
  {| EllipticCurvePrivateKey := Z;
     HKDF := sample_HKDF;
     SHA256 := sample_SHA256;
     public_numbers := sample_public_numbers;
     on_curve := sample_on_curve;
     exchange := sample_exchange;
     AESCCM_encrypt := sample_encrypt;
     AESCCM_decrypt := sample_decrypt |}.

Definition sample_verifying_key (sk : Z) : Z := (5 * sk) mod modulus.

Definition sample_signature (vk : Z) (data : bytes) : bytes :=
  stream 64 (checksum (be_bytes 2 (Z.to_N vk) ++ data)).

#[export] Instance ecdsa : Ecdsa :=
  {| SigningKey := Z;
     VerifyingKey := Z;
     get_verifying_key := sample_verifying_key;
     ecdsa_sign := fun sk k data =>
                     sample_signature (sample_verifying_key sk) data;
     ecdsa_verify := fun vk sig data =>
                       bytes_eqb sig (sample_signature vk data) |}.

(** *** A client and a server *)

Definition client_sk : SigningKey := 1234.
Definition server_sk : SigningKey := 4321.

Definition client : Client :=
  Client__init__ client_sk (get_verifying_key server_sk).

Definition server : Server :=
  Server__init__ server_sk (get_verifying_key client_sk).

Definition rnd_c : Entropy :=
  {| urandom_2 := [xc1; xc2];
     urandom_8 := [x01; x02; x03; x04; x05; x06; x07; x08];
     generate_private_key := 1111 : EllipticCurvePrivateKey;
     sign_nonce := [x0a] |}.

Definition rnd_s : Entropy :=
  {| urandom_2 := [x51; x52];
     urandom_8 := [x11; x12; x13; x14; x15; x16; x17; x18];
     generate_private_key := 2222 : EllipticCurvePrivateKey;
     sign_nonce := [x0b] |}.

(** *** The Authorization Server *)

(** Sample labels: the claims are numbered as in section 6 of the
    specification, the parameters of the requests have labels of their
    own. *)
#[export] Instance keys : Keys :=
  {| GRANT_TYPE := 33; CLIENT_ID := 24; CLIENT_SECRET := 25; AUD := 3;
     SCOPE := 9; CNF := 8; ISS := 1; IAT := 6; EXP := 4; CTI := 7;
     ACCESS_TOKEN := 19; TOKEN_TYPE := 34; PROFILE := 38; RS_CNF := 41;
     TOKEN := 11; TOKEN_TYPE_HINT := 13; ACTIVE := 10; COSE_KEY := 1 |}.

Definition sample_from_cose (v : cbor) : result Z :=
  x <~ py_getitem v CoseKey.X ;;
  as_int x.

Definition sample_encode (k : Z) : cbor :=
  CMap (dict_of [ (CoseKey.KTY, CInt CoseKey.Type_.EC2);
                  (CoseKey.CRV, CInt CoseKey.Curve.P_256);
                  (CoseKey.X, CInt k) ]).

Definition sample_check_secret (reg : list (string * bytes))
    (client_id client_secret : cbor) : bool :=
  match client_id, client_secret with
  | CText i, CBytes s =>
      existsb (fun e => String.eqb (fst e) i && bytes_eqb (snd e) s) reg
  | _, _ => false
  end.

Definition claim (t : AccessToken Z) (k : Z) : cbor :=
  match dict_get (claims t) k with Some v => v | None => CNull end.

Definition sample_get_token (reg : list (AccessToken Z)) (reference : cbor)
  : result (AccessContext Z) :=
  match find (fun t => match reference, claim t CTI with
                       | CText a, CText b => String.eqb a b
                       | _, _ => false
                       end) reg with
  | Some t =>
      match token_key t with
      | Some k =>
          Return {| scope := claim t SCOPE; audience := claim t AUD;
                    issuer := claim t ISS; expires := claim t EXP;
                    issued_at := claim t IAT; bound_key := k |}
      | None => Raise AttributeError
      end
  | None => Raise KeyError
  end.

Definition sample_export (t : AccessToken Z) (sk : Z) (k : bytes) : cbor :=
  let cnf := match token_key t with
             | Some key => CMap (dict_of [(COSE_KEY, sample_encode key)])
             | None => CNull
             end in
  CBytes (Signature1Message.serialize_signed
            (encode (CMap (dict_set (claims t) CNF cnf)))
            sign1_protected
            (CMap (dict_of [(Header.KID, CBytes (string_bytes "as"))]))
            sk k []).

#[export] Instance collaborators : Collaborators :=
  {| CoseKey_t := Z;
     CoseKey_from_cose := sample_from_cose;
     CoseKey_encode := sample_encode;
     rs_public_cose_key := 777;
     ClientRegistry := list (string * bytes);
     ClientRegistry__init__ := [];
     register_client := fun reg i s => (i, s) :: reg;
     check_secret := sample_check_secret;
     KeyRegistry := list (cbor * Z);
     KeyRegistry__init__ := [];
     add_key := fun reg i k => (i, k) :: reg;
     TokenRegistry := list (AccessToken Z);
     TokenRegistry__init__ := [];
     add_token := fun reg t _ => t :: reg;
     get_token := sample_get_token;
     sign_and_export_self_contained := sample_export |}.

Definition authorization_server : AuthorizationServer :=
  AuthorizationServer__init__ (9999 : SigningKey).

Definition clock : Clock :=
  {| time_1 := 1541203200.25; time_2 := 1541203200.5;
     cti_urandom_2 := [xab; xcd]; token_sign_nonce := [x0c] |}.

(** Readings just below [2 ^ 31]: adding [7200.0] rounds the sum up to a
    whole number. *)
Definition late_clock : Clock :=
  {| time_1 := 0x1.fffffffffffffp+30; time_2 := 0x1.fffffffffffffp+30;
     cti_urandom_2 := [xab; xcd]; token_sign_nonce := [x0c] |}.

(** A token request of the registered client with the given
    [grant_type]. *)
Definition token_request (grant_type : cbor) : bytes :=
  dumps (CMap (dict_of
    [ (GRANT_TYPE, grant_type);
      (CLIENT_ID, CText "ace_client_1");
      (CLIENT_SECRET, CBytes (string_bytes "ace_client_1_secret_123456"));
      (AUD, CText "tempSensor0");
      (SCOPE, CText "read_temperature");
      (CNF, CMap (dict_of [(COSE_KEY, sample_encode 6170)])) ])).

(** *** The run of the sample

    The client and the server of the sample after the handshake, the
    server between MSG1 and MSG3, and the values of the run. *)

Definition client_done : Client := client_2 client_sk server_sk rnd_c rnd_s.
Definition server_done : Server :=
  server_2 client_sk server_sk rnd_c rnd_s (CMap []).
Definition server_sent2 : Server :=
  server_1 client_sk server_sk rnd_c rnd_s.

Definition sample_Z : bytes := shared_Z rnd_c rnd_s.
Definition sample_TH_2 : bytes := TH_2 rnd_c rnd_s.
Definition sample_TH_3 : bytes := TH_3 server_sk rnd_c rnd_s.
Definition sample_K (th : bytes) : bytes := K_ rnd_c rnd_s th.
Definition sample_IV (th : bytes) : bytes := IV_ rnd_c rnd_s th.
Definition sample_MSG1 : bytes := MSG1 rnd_c.
Definition sample_MSG2 : bytes := MSG2 server_sk rnd_c rnd_s.
Definition sample_MSG3 (unprotected : cbor) : bytes :=
  MSG3 client_sk server_sk rnd_c rnd_s unprotected.
Definition sample_CIPHERTEXT_3 : bytes :=
  CIPHERTEXT_3 client_sk server_sk rnd_c rnd_s (CMap []).
Definition sample_CONTEXT : OscoreContext :=
  CONTEXT client_sk server_sk rnd_c rnd_s.

(** An unprotected header naming a key the server has never heard of. *)
Definition unknown_kid : cbor :=
  CMap (dict_of [(Header.KID, CBytes (string_bytes "unknown-kid"))]).

(** A message with tag 2 and one with tag 0. *)
Definition tag_2_message : bytes := [x82; x02; x40].
Definition tag_0_message : bytes := [x83; x00; x42; xc1; xc2; x60].

(** The parameters of the sample token request. *)
Definition sample_params (grant_type : cbor) : cbor :=
  CMap (dict_of
    [ (GRANT_TYPE, grant_type);
      (CLIENT_ID, CText "ace_client_1");
      (CLIENT_SECRET, CBytes (string_bytes "ace_client_1_secret_123456"));
      (AUD, CText "tempSensor0");
      (SCOPE, CText "read_temperature");
      (CNF, CMap (dict_of [(COSE_KEY, sample_encode 6170)])) ]).

(** The token of the sample request, and the server after it has granted
    the request. *)
Definition sample_token : AccessToken CoseKey_t :=
  {| claims := dict_of [ (ISS, CText "ace.as-server.com");
                         (IAT, CInt 1541203200);
                         (EXP, CInt 1541210400);
                         (CTI, CText "abcd");
                         (SCOPE, CText "read_temperature");
                         (AUD, CText "tempSensor0") ];
     token_key := Some (6170 : Z) |}.

Definition authorization_server_granted : AuthorizationServer :=
  set_token_registry
    (add_token (token_registry authorization_server) sample_token true)
    (set_key_registry
       (add_key (key_registry authorization_server) (CText "ace_client_1")
          (6170 : Z))
       authorization_server).

Definition sample_token_response : Response :=
  {| status := 200;
     body := dumps (CMap (dict_of
       [ (ACCESS_TOKEN,
          sign_and_export_self_contained sample_token
            (signature_key authorization_server) (token_sign_nonce clock));
         (TOKEN_TYPE, CText "pop");
         (PROFILE, CText "coap_oscore");
         (RS_CNF, CoseKey_encode rs_public_cose_key) ])) |}.

(** An introspection request for the token just granted, without and
    with [token_type_hint]. *)
Definition introspect_params : list (cbor * cbor) :=
  dict_of [(TOKEN, CText "abcd")].

Definition introspect_params_hint : list (cbor * cbor) :=
  dict_of [(TOKEN, CText "abcd"); (TOKEN_TYPE_HINT, CText "pop")].

(** *** Inputs of the further properties *)

(** The verifying keys of the sample are on [NIST256p]. *)
Definition sample_from_public_point (x y : Z) (curve : string)
  : result Z :=
  if String.eqb curve "NIST256p" && (y =? (3 * x) mod modulus)
  then Return x else Raise ValueError.

#[export] Instance ecdsa_points : EcdsaPoints :=
  {| vk_curve_name := fun _ => "NIST256p";
     vk_point_x := fun vk => vk;
     vk_point_y := fun vk => (3 * vk) mod modulus;
     from_public_point := sample_from_public_point |}.

(** The empty array, and [[3, b'', b'']]: a third message whose
    ciphertext is no Encrypt0 message. *)
Definition empty_message : bytes := [x80].
Definition undecryptable_MSG3 : bytes := [x83; x03; x40; x40].

(** The entropy of another client. *)
Definition rnd_2 : Entropy :=
  {| urandom_2 := [xd1; xd2];
     urandom_8 := [x21; x22; x23; x24; x25; x26; x27; x28];
     generate_private_key := 3333 : EllipticCurvePrivateKey;
     sign_nonce := [x0d] |}.


(** The endpoints after the handshake, once [oscore_context] was read. *)
Definition server_keyed : Server :=
  set_s_base (set__oscore_context (Some sample_CONTEXT) (s_base server_done))
    server_done.

Definition client_keyed : Client :=
  set_c_base (set__oscore_context (Some sample_CONTEXT) (c_base client_done))
    client_done.




(** The key of the conversions is the client's ephemeral key;
    [cose_items] are the items of its COSE map. *)
Definition sample_public_key : EllipticCurvePublicNumbers :=
  public_numbers (generate_private_key rnd_c).

Definition cose_items (key : EllipticCurvePublicNumbers)
  : list (cbor * cbor) :=
  dict_of [ (CoseKey.KTY, CInt CoseKey.Type_.EC2);
            (CoseKey.CRV, CInt CoseKey.Curve.P_256);
            (CoseKey.X, CInt (pn_x key));
            (CoseKey.Y, CInt (pn_y key)) ].

(** Token requests: without [aud], with a wrong secret, without [cnf]. *)
Definition params_without_aud : list (cbor * cbor) :=
  dict_of
    [ (GRANT_TYPE, CText "client_credentials");
      (CLIENT_ID, CText "ace_client_1");
      (CLIENT_SECRET, CBytes (string_bytes "ace_client_1_secret_123456")) ].

Definition params_wrong_secret : list (cbor * cbor) :=
  dict_of
    [ (GRANT_TYPE, CText "client_credentials");
      (CLIENT_ID, CText "ace_client_1");
      (CLIENT_SECRET, CBytes (string_bytes "guess"));
      (AUD, CText "tempSensor0") ].

Definition params_without_cnf : list (cbor * cbor) :=
  dict_of
    [ (GRANT_TYPE, CText "client_credentials");
      (CLIENT_ID, CText "ace_client_1");
      (CLIENT_SECRET, CBytes (string_bytes "ace_client_1_secret_123456"));
      (AUD, CText "tempSensor0");
      (SCOPE, CText "read_temperature") ].

(** The claims of a token. *)
Definition sample_claims : cbor :=
  CMap (dict_of [ (ISS, CText "ace.as-server.com");
                  (AUD, CText "tempSensor0") ]).

End Sample.


(** * Properties *)

(** ** The sample instance satisfies the laws *)

Module SampleFacts.
Import Sample.

Lemma to_N_byte_of_N (n : N) : Byte.to_N (byte_of_N n) = (n mod 256)%N.
Proof.
  unfold byte_of_N.
  destruct (Byte.of_N (n mod 256)) as [b|] eqn:E.
  - now apply Byte.to_of_N in E.
  - apply Byte.of_N_None_iff in E.
    pose proof (N.mod_upper_bound n 256). lia.
Qed.

Lemma be_value_snoc (b : bytes) (x : byte) :
  be_value (b ++ [x]) = (be_value b * 256 + Byte.to_N x)%N.
Proof. unfold be_value. now rewrite fold_left_app. Qed.

Lemma length_be_bytes (k : nat) : forall n, List.length (be_bytes k n) = k.
Proof.
  induction k as [|k IH]; intros n; simpl; [reflexivity|].
  rewrite length_app, IH. simpl. lia.
Qed.

Lemma be_value_be_bytes (k : nat) :
  forall n, (n < 256 ^ N.of_nat k)%N -> be_value (be_bytes k n) = n.
Proof.
  induction k as [|k IH]; intros n Hn.
  - simpl in *. unfold be_value. simpl. lia.
  - cbn [be_bytes]. rewrite be_value_snoc, to_N_byte_of_N, IH.
    + pose proof (N.div_mod n 256). lia.
    + rewrite Nat2N.inj_succ, N.pow_succ_r' in Hn.
      apply N.Div0.div_lt_upper_bound. lia.
Qed.

Lemma take_app (b rest : bytes) :
  take (List.length b) (b ++ rest) = Some (b, rest).
Proof.
  unfold take. rewrite length_app.
  destruct (Nat.ltb_spec (List.length b + List.length rest) (List.length b)); [lia|].
  rewrite firstn_app, skipn_app, Nat.sub_diag, firstn_all, skipn_all.
  cbn. now rewrite app_nil_r.
Qed.

Lemma fixed_be_bytes (k : nat) (n : N) (rest : bytes) :
  (n < 256 ^ N.of_nat k)%N -> fixed k (be_bytes k n ++ rest) = Some (n, rest).
Proof.
  intros Hn. unfold fixed.
  rewrite <- (length_be_bytes k n) at 1.
  now rewrite take_app, be_value_be_bytes.
Qed.

Lemma unary_repeat (k : nat) (rest : bytes) :
  unary (repeat x01 k ++ x00 :: rest) = Some (N.of_nat k, rest).
Proof.
  induction k as [|k IH]; [reflexivity|].
  cbn [repeat app unary]. rewrite IH. now rewrite Nat2N.inj_succ.
Qed.

(** The initial byte of a head, and the argument read back. *)
Lemma head_spec (major n : N) (rest : bytes) :
  (major < 7)%N ->
  exists b info tail,
    head major n ++ rest = b :: tail
    /\ (Byte.to_N b / 32 = major)%N
    /\ (Byte.to_N b mod 32 = info)%N
    /\ argument info tail = Some (n, rest).
Proof.
  intros Hm. unfold head.
  assert (Hb : forall i, (i < 32)%N ->
             (Byte.to_N (byte_of_N (major * 32 + i)) / 32 = major
             /\ Byte.to_N (byte_of_N (major * 32 + i)) mod 32 = i)%N).
  { intros i Hi. rewrite to_N_byte_of_N.
    rewrite (N.mod_small (major * 32 + i) 256) by lia.
    split.
    - rewrite N.div_add_l by lia. rewrite N.div_small by lia. lia.
    - rewrite N.add_comm, N.Div0.mod_add. now apply N.mod_small. }
  destruct (N.ltb_spec n 24) as [L0|L0].
  { destruct (Hb n) as [H1 H2]; [lia|].
    eexists _, _, _. repeat split; [exact H1|].
    rewrite H2. unfold argument.
    destruct (N.ltb_spec n 24) as [L|L]; [reflexivity|lia]. }
  destruct (N.ltb_spec n 256) as [L1|L1].
  { destruct (Hb 24%N) as [H1 H2]; [lia|].
    eexists _, _, _. repeat split; [exact H1|].
    rewrite H2. change (argument 24) with (fixed 1).
    apply fixed_be_bytes. simpl. lia. }
  destruct (N.ltb_spec n 65536) as [L2|L2].
  { destruct (Hb 25%N) as [H1 H2]; [lia|].
    eexists _, _, _. repeat split; [exact H1|].
    rewrite H2. change (argument 25) with (fixed 2).
    apply fixed_be_bytes. simpl. lia. }
  destruct (N.ltb_spec n 4294967296) as [L3|L3].
  { destruct (Hb 26%N) as [H1 H2]; [lia|].
    eexists _, _, _. repeat split; [exact H1|].
    rewrite H2. change (argument 26) with (fixed 4).
    apply fixed_be_bytes. simpl. lia. }
  destruct (N.ltb_spec n 18446744073709551616) as [L4|L4].
  { destruct (Hb 27%N) as [H1 H2]; [lia|].
    eexists _, _, _. repeat split; [exact H1|].
    rewrite H2. change (argument 27) with (fixed 8).
    apply fixed_be_bytes. simpl. lia. }
  destruct (Hb 31%N) as [H1 H2]; [lia|].
  eexists _, _, _. repeat split; [exact H1|].
  rewrite H2. change (argument 31) with unary.
  change (unary ((repeat x01 (N.to_nat n) ++ [x00]) ++ rest) = Some (n, rest)).
  rewrite <- app_assoc. cbn [app].
  rewrite unary_repeat. now rewrite N2Nat.id.
Qed.

Lemma length_head (major n : N) : (1 <= List.length (head major n))%nat.
Proof.
  unfold head.
  repeat match goal with |- context [if ?c then _ else _] => destruct c end;
    simpl; lia.
Qed.

Lemma length_encode (v : cbor) : (1 <= List.length (encode v))%nat.
Proof.
  destruct v as [z|b|s|l|d| |[|]]; cbn [encode]; try (simpl; lia).
  - destruct (0 <=? z); apply length_head.
  - pose proof (length_head 2 (N.of_nat (List.length b))). rewrite length_app. lia.
  - pose proof (length_head 3 (N.of_nat (List.length (list_byte_of_string s)))). rewrite length_app. lia.
  - pose proof (length_head 4 (N.of_nat (List.length l))). rewrite length_app. lia.
  - pose proof (length_head 5 (N.of_nat (List.length d))). rewrite length_app. lia.
Qed.

Lemma decode_head (fuel : nat) (major n : N) (rest : bytes) :
  (major < 7)%N ->
  decode (S fuel) (head major n ++ rest) =
  match major with
  | 0%N => Some (CInt (Z.of_N n), rest)
  | 1%N => Some (CInt (- 1 - Z.of_N n), rest)
  | 2%N =>
      match take (N.to_nat n) rest with
      | Some (b, rest) => Some (CBytes b, rest)
      | None => None
      end
  | 3%N =>
      match take (N.to_nat n) rest with
      | Some (b, rest) => Some (CText (string_of_list_byte b), rest)
      | None => None
      end
  | 4%N =>
      match items (decode fuel) (N.to_nat n) rest with
      | Some (l, rest) => Some (CArray l, rest)
      | None => None
      end
  | 5%N =>
      match pairs (decode fuel) (N.to_nat n) rest with
      | Some (d, rest) => Some (CMap d, rest)
      | None => None
      end
  | _ => None
  end.
Proof.
  intros Hm.
  destruct (head_spec major n rest Hm) as (b & info & tail & E & H1 & H2 & H3).
  rewrite E. cbn [decode]. rewrite H1, H2, H3.
  destruct (N.eqb_spec major 7); [lia|]. reflexivity.
Qed.

Lemma decode_encode (fuel : nat) :
  forall v rest,
    (List.length (encode v) <= fuel)%nat ->
    decode fuel (encode v ++ rest) = Some (v, rest).
Proof.
  induction fuel as [|fuel IH]; intros v rest Hlen.
  { pose proof (length_encode v). lia. }
  destruct v as [z|b|s|l|d| |[|]]; cbn [encode] in *; try reflexivity.
  - destruct (Z.leb_spec 0 z).
    + rewrite decode_head by lia. now rewrite Z2N.id.
    + rewrite decode_head by lia. rewrite Z2N.id by lia. f_equal. f_equal. f_equal. lia.
  - rewrite <- app_assoc, decode_head by lia.
    now rewrite Nat2N.id, take_app.
  - rewrite <- app_assoc, decode_head by lia.
    rewrite Nat2N.id, take_app. now rewrite string_of_list_byte_of_string.
  - rewrite <- app_assoc, decode_head by lia. rewrite Nat2N.id.
    rewrite length_app in Hlen.
    pose proof (length_head 4 (N.of_nat (List.length l))) as Hh.
    assert (Hl : (List.length (flat_map encode l) <= fuel)%nat) by lia.
    clear Hlen Hh.
    assert (G : items (decode fuel) (List.length l) (flat_map encode l ++ rest)
                = Some (l, rest)).
    { induction l as [|x l IHl]; [reflexivity|].
      cbn [flat_map List.length items] in *. rewrite length_app in Hl.
      rewrite <- app_assoc, IH by lia. rewrite IHl by lia. reflexivity. }
    now rewrite G.
  - rewrite <- app_assoc, decode_head by lia. rewrite Nat2N.id.
    rewrite length_app in Hlen.
    pose proof (length_head 5 (N.of_nat (List.length d))) as Hh.
    assert (Hl : (List.length
                    (flat_map (fun kv => encode (fst kv) ++ encode (snd kv)) d)
                  <= fuel)%nat) by lia.
    clear Hlen Hh.
    assert (G : pairs (decode fuel) (List.length d)
                  (flat_map (fun kv => encode (fst kv) ++ encode (snd kv)) d
                     ++ rest)
                = Some (d, rest)).
    { induction d as [|[k v] d IHd]; [reflexivity|].
      cbn [flat_map List.length pairs fst snd] in *.
      rewrite !length_app in Hl.
      rewrite <- !app_assoc, IH by lia. rewrite IH by lia.
      rewrite IHd by lia. reflexivity. }
    now rewrite G.
Qed.

Lemma sample_loads_dumps (v : cbor) : sample_loads (encode v) = Return v.
Proof.
  unfold sample_loads.
  rewrite <- (app_nil_r (encode v)) at 2.
  rewrite decode_encode by lia. reflexivity.
Qed.

#[export] Instance cbor2_laws : Cbor2Laws.
Proof. constructor. exact sample_loads_dumps. Qed.

Lemma length_stream (n : nat) (h : N) : List.length (stream n h) = n.
Proof. unfold stream. now rewrite length_map, length_seq. Qed.

Lemma bytes_eqb_refl (b : bytes) : bytes_eqb b b = true.
Proof.
  induction b as [|x b IH]; [reflexivity|].
  cbn [bytes_eqb]. rewrite IH, andb_true_r.
  apply Byte.byte_dec_lb. reflexivity.
Qed.

Lemma bytes_eqb_neq (a b : bytes) : bytes_eqb a b = false -> a <> b.
Proof. intros E <-. now rewrite bytes_eqb_refl in E. Qed.

Lemma sample_exchange_agree (a b : Z) :
  exists z, sample_exchange a (sample_public_numbers b) = Return z
         /\ sample_exchange b (sample_public_numbers a) = Return z.
Proof.
  assert (E : (a * ((5 * b) mod modulus)) mod modulus
              = (b * ((5 * a) mod modulus)) mod modulus).
  { rewrite !Z.mul_mod_idemp_r by (unfold modulus; lia). f_equal. lia. }
  unfold sample_exchange, sample_public_numbers. cbn [pn_x pn_curve].
  rewrite String.eqb_refl.
  eexists. split; [reflexivity|]. now rewrite E.
Qed.

Lemma sample_decrypt_encrypt (key nonce data aad : bytes) :
  sample_decrypt key nonce (sample_encrypt key nonce data aad) aad
  = Some data.
Proof.
  unfold sample_decrypt, sample_encrypt.
  assert (Ht : List.length (sample_tag key nonce data aad) = tag_length)
    by apply length_stream.
  rewrite length_app, Ht.
  destruct (Nat.ltb_spec (List.length data + tag_length) tag_length) as [L|L].
  { unfold tag_length in L. destruct data; simpl in L; lia. }
  replace (List.length data + tag_length - tag_length)%nat
    with (List.length data) by lia.
  rewrite firstn_app, skipn_app, Nat.sub_diag, firstn_all, skipn_all.
  cbn [firstn skipn app]. rewrite app_nil_r.
  now rewrite bytes_eqb_refl.
Qed.

#[export] Instance cryptography_laws : CryptographyLaws.
Proof.
  constructor.
  - intros. apply length_stream.
  - intros. apply length_stream.
  - reflexivity.
  - intros k. apply Z.eqb_refl.
  - exact sample_exchange_agree.
  - intros. apply sample_decrypt_encrypt.
Qed.

#[export] Instance ecdsa_laws : EcdsaLaws.
Proof. constructor. intros. apply bytes_eqb_refl. Qed.

#[export] Instance ecdsa_points_laws : EcdsaPointsLaws.
Proof.
  constructor. intros vk.
  change (sample_from_public_point vk ((3 * vk) mod modulus) "NIST256p"
          = Return vk).
  unfold sample_from_public_point. rewrite Z.eqb_refl. reflexivity.
Qed.

End SampleFacts.

(** ** Running the model symbolically *)

(** Evaluate a method as far as the primitives of the libraries allow. *)
Ltac run :=
  cbv -[loads dumps HKDF SHA256 public_numbers on_curve exchange
        AESCCM_encrypt AESCCM_decrypt get_verifying_key ecdsa_sign
        ecdsa_verify EllipticCurvePrivateKey SigningKey VerifyingKey
        app ecdh_cose_to_key ecdh_key_to_cose cose_kdf_context derive_key
        message_digest Encrypt0Message.serialize Encrypt0Message.decrypt
        Signature1Message.serialize_signed Signature1Message.verify
        sign1_protected cose_map Byte.to_N shared_Z
        generate_private_key urandom_2 urandom_8 sign_nonce].

Ltac run_in Hyp :=
  cbv -[loads dumps HKDF SHA256 public_numbers on_curve exchange
        AESCCM_encrypt AESCCM_decrypt get_verifying_key ecdsa_sign
        ecdsa_verify EllipticCurvePrivateKey SigningKey VerifyingKey
        app ecdh_cose_to_key ecdh_key_to_cose cose_kdf_context derive_key
        message_digest Encrypt0Message.serialize Encrypt0Message.decrypt
        Signature1Message.serialize_signed Signature1Message.verify
        sign1_protected cose_map Byte.to_N shared_Z
        generate_private_key urandom_2 urandom_8 sign_nonce
        Message1.from_bytes Message2.th_2 Message3.th_3 unpack3 unpack6
        CoseKey_from_cose CoseKey_encode check_secret add_key add_token
        get_token sign_and_export_self_contained py_getitem py_contains
        _verify_token_request _bind_token py_int dict_of hex error_body]
    in Hyp.

(** Case analysis on the innermost scrutinee an evaluation is stuck on. *)
Ltac invert_run Hyp :=
  repeat match type of Hyp with
         | context [match ?x with _ => _ end] =>
             lazymatch x with
             | context [match _ with _ => _ end] => fail
             | _ => destruct x eqn:?; cbn iota beta in Hyp;
                    try discriminate Hyp
             end
         end.

(** ** The COSE structures and the key conversions *)

Section Cose.
Context `{Cbor2Laws} `{CryptographyLaws} `{EcdsaLaws}.

Lemma ecdh_key_to_cose_generated (k : EllipticCurvePrivateKey) :
  ecdh_key_to_cose (public_numbers k) true
  = Return (CBytes (dumps (cose_map (public_numbers k)))).
Proof.
  unfold ecdh_key_to_cose. rewrite generated_curve. reflexivity.
Qed.

Lemma ecdh_cose_to_key_generated (k : EllipticCurvePrivateKey) :
  ecdh_cose_to_key (CBytes (dumps (cose_map (public_numbers k))))
  = Return (public_numbers k).
Proof.
  unfold ecdh_cose_to_key. cbn [loads_argument rbind]. rewrite loads_dumps.
  cbn.
  pose proof (generated_curve k) as Hc.
  pose proof (generated_on_curve k) as Ho.
  destruct (public_numbers k) as [x y c]. cbn in *. subst c.
  rewrite Ho. reflexivity.
Qed.

Lemma decrypt_serialize (payload iv key aad : bytes) :
  List.length key = 16%nat ->
  (7 <= List.length iv <= 13)%nat ->
  Encrypt0Message.decrypt
    (CBytes (Encrypt0Message.serialize payload iv key aad)) key iv aad
  = Return payload.
Proof.
  intros Hk Hiv.
  unfold Encrypt0Message.decrypt, Encrypt0Message.serialize.
  cbn [as_bytes rbind]. rewrite loads_dumps. cbn.
  now rewrite AESCCM_correct.
Qed.

Lemma verify_serialize_signed (payload protected : bytes)
    (unprotected : cbor) (sk : SigningKey) (k aad : bytes) :
  Signature1Message.verify
    (Signature1Message.serialize_signed payload protected unprotected
       sk k aad)
    (get_verifying_key sk) aad
  = Return payload.
Proof.
  unfold Signature1Message.verify, Signature1Message.serialize_signed.
  rewrite loads_dumps. cbn. now rewrite ecdsa_correct.
Qed.

End Cose.

(** ** The honest run follows the transcript *)

Section HonestRun.
Context `{Cbor2Laws} `{CryptographyLaws} `{EcdsaLaws}.
Variables (sk_c sk_s : SigningKey) (rnd_c rnd_s : Entropy).

Lemma shared_Z_agree :
  exchange (generate_private_key rnd_s) (G_X rnd_c)
  = Return (shared_Z rnd_c rnd_s)
  /\ exchange (generate_private_key rnd_c) (G_Y rnd_s)
     = Return (shared_Z rnd_c rnd_s).
Proof.
  unfold shared_Z, G_X, G_Y.
  destruct (exchange_agree (generate_private_key rnd_s)
              (generate_private_key rnd_c)) as (z & E1 & E2).
  rewrite E1, E2. now split.
Qed.

Lemma K_length (th : bytes) : List.length (K_ rnd_c rnd_s th) = 16%nat.
Proof. apply HKDF_length. Qed.

Lemma IV_length (th : bytes) :
  (7 <= List.length (IV_ rnd_c rnd_s th) <= 13)%nat.
Proof. unfold IV_, derive_key. rewrite HKDF_length. lia. Qed.

Lemma initiate_edhoc_run :
  initiate_edhoc rnd_c (client_0 sk_c sk_s)
  = (Return (message1_c rnd_c), client_1 sk_c sk_s rnd_c, []).
Proof. reflexivity. Qed.

Lemma message1_c_bytes :
  Message1.to_bytes (message1_c rnd_c) = Return (MSG1 rnd_c).
Proof.
  unfold Message1.to_bytes, message1_c.
  cbn [Message1.new Message1.bytes_object Message1.ephemeral_key].
  unfold G_X. rewrite ecdh_key_to_cose_generated. reflexivity.
Qed.

(** The server processes MSG1 in whatever state it is: the session and
    the first two messages are replaced, the third message and a cached
    context stay. *)
Lemma on_receive_MSG1_any (s : Server) :
  on_receive rnd_s (MSG1 rnd_c) s
  = (Return (ReplyMessage2 (message2_s (s_sk s) rnd_c rnd_s)),
     set_s_base
       {| session := server_session rnd_c rnd_s;
          message1 := Some (message1_s rnd_c);
          message2 := Some (message2_s (s_sk s) rnd_c rnd_s);
          message3 := message3 (s_base s);
          _oscore_context := _oscore_context (s_base s) |} s,
     [ ("Server Received: ", MSG1 rnd_c);
       ("Server AAD2 =", TH_2 rnd_c rnd_s);
       ("Server K2 =", K_ rnd_c rnd_s (TH_2 rnd_c rnd_s));
       ("Server IV2 =", IV_ rnd_c rnd_s (TH_2 rnd_c rnd_s)) ]).
Proof.
  destruct s as [sk vk cid [ses m1 m2 m3 ctx]].
  destruct shared_Z_agree as [Ez _].
  pose proof (ecdh_key_to_cose_generated (generate_private_key rnd_s))
    as KS.
  pose proof (ecdh_cose_to_key_generated (generate_private_key rnd_c))
    as CK.
  revert Ez KS CK. run. intros Ez KS CK.
  repeat (first [ rewrite !loads_dumps | rewrite CK | rewrite Ez
                | rewrite !KS ]; run).
  reflexivity.
Qed.

Lemma on_receive_MSG1_run :
  on_receive rnd_s (MSG1 rnd_c) (server_0 sk_c sk_s)
  = (Return (ReplyMessage2 (message2_s sk_s rnd_c rnd_s)),
     server_1 sk_c sk_s rnd_c rnd_s,
     [ ("Server Received: ", MSG1 rnd_c);
       ("Server AAD2 =", TH_2 rnd_c rnd_s);
       ("Server K2 =", K_ rnd_c rnd_s (TH_2 rnd_c rnd_s));
       ("Server IV2 =", IV_ rnd_c rnd_s (TH_2 rnd_c rnd_s)) ]).
Proof. exact (on_receive_MSG1_any (server_0 sk_c sk_s)). Qed.

Lemma message2_s_bytes :
  Message2.to_bytes (message2_s sk_s rnd_c rnd_s)
  = Return (MSG2 sk_s rnd_c rnd_s).
Proof.
  unfold Message2.to_bytes, Message2.ciphertext_2, message2_s.
  cbn [Message2.bytes_object Message2.peer_ephemeral_key
       Message2.ciphertext].
  unfold G_Y. rewrite ecdh_key_to_cose_generated. reflexivity.
Qed.

Lemma continue_edhoc_run :
  continue_edhoc rnd_c (MSG2 sk_s rnd_c rnd_s) (client_1 sk_c sk_s rnd_c)
  = (Return (message3_c sk_c sk_s rnd_c rnd_s),
     client_2 sk_c sk_s rnd_c rnd_s,
     [ ("Client AAD2 =", TH_2 rnd_c rnd_s);
       ("Client K2 =", K_ rnd_c rnd_s (TH_2 rnd_c rnd_s));
       ("Client IV2 =", IV_ rnd_c rnd_s (TH_2 rnd_c rnd_s));
       ("Client AAD3 =", TH_3 sk_s rnd_c rnd_s);
       ("Client K3 =", K_ rnd_c rnd_s (TH_3 sk_s rnd_c rnd_s));
       ("Client IV3 =", IV_ rnd_c rnd_s (TH_3 sk_s rnd_c rnd_s)) ]).
Proof.
  destruct shared_Z_agree as [_ Ez].
  pose proof (decrypt_serialize (SIG_V sk_s rnd_c rnd_s) _ _
                (TH_2 rnd_c rnd_s)
                (K_length (TH_2 rnd_c rnd_s))
                (IV_length (TH_2 rnd_c rnd_s))) as D2.
  pose proof (verify_serialize_signed [] sign1_protected (CMap []) sk_s
                (sign_nonce rnd_s) (TH_2 rnd_c rnd_s)) as V2.
  pose proof (ecdh_key_to_cose_generated (generate_private_key rnd_c))
    as KC.
  pose proof (ecdh_key_to_cose_generated (generate_private_key rnd_s))
    as KS.
  pose proof (ecdh_cose_to_key_generated (generate_private_key rnd_s))
    as SK.
  revert Ez D2 V2 KC KS SK. run. intros Ez D2 V2 KC KS SK.
  repeat (first [ rewrite !loads_dumps | rewrite SK | rewrite Ez
                | rewrite !KC | rewrite !KS | rewrite D2 | rewrite V2 ];
          run).
  reflexivity.
Qed.

Lemma message3_c_bytes :
  Message3.to_bytes (message3_c sk_c sk_s rnd_c rnd_s)
  = Return (MSG3 sk_c sk_s rnd_c rnd_s (CMap [])).
Proof. reflexivity. Qed.

(** The server accepts MSG3 whatever unprotected header the inner Sign1
    of the client carries. *)
Lemma on_receive_MSG3_run (rnd : Entropy) (unprotected : cbor) :
  on_receive rnd (MSG3 sk_c sk_s rnd_c rnd_s unprotected)
    (server_1 sk_c sk_s rnd_c rnd_s)
  = (Return MessageOk, server_2 sk_c sk_s rnd_c rnd_s unprotected,
     [("Server Received: ", MSG3 sk_c sk_s rnd_c rnd_s unprotected)]).
Proof.
  pose proof (decrypt_serialize (SIG_U sk_c sk_s rnd_c rnd_s unprotected)
                _ _ (TH_3 sk_s rnd_c rnd_s)
                (K_length (TH_3 sk_s rnd_c rnd_s))
                (IV_length (TH_3 sk_s rnd_c rnd_s))) as D3.
  pose proof (verify_serialize_signed [] sign1_protected unprotected sk_c
                (sign_nonce rnd_c) (TH_3 sk_s rnd_c rnd_s)) as V3.
  pose proof (ecdh_key_to_cose_generated (generate_private_key rnd_s))
    as KS.
  revert D3 V3 KS. run. intros D3 V3 KS.
  repeat (first [ rewrite !loads_dumps | rewrite !KS | rewrite D3
                | rewrite V3 ]; run).
  reflexivity.
Qed.

Lemma handshake_run :
  handshake rnd_c rnd_s (client_0 sk_c sk_s) (server_0 sk_c sk_s)
  = Return (MessageOk, client_2 sk_c sk_s rnd_c rnd_s,
            server_2 sk_c sk_s rnd_c rnd_s (CMap [])).
Proof.
  unfold handshake.
  rewrite initiate_edhoc_run. cbn [rbind]. rewrite message1_c_bytes.
  cbn [rbind]. rewrite on_receive_MSG1_run. cbn [rbind].
  rewrite message2_s_bytes. cbn [rbind]. rewrite continue_edhoc_run.
  cbn [rbind]. rewrite message3_c_bytes. cbn [rbind].
  rewrite on_receive_MSG3_run. reflexivity.
Qed.

Lemma client_context_run :
  oscore_context (c_base (client_2 sk_c sk_s rnd_c rnd_s))
  = (Return (CONTEXT sk_c sk_s rnd_c rnd_s),
     set__oscore_context (Some (CONTEXT sk_c sk_s rnd_c rnd_s))
       (c_base (client_2 sk_c sk_s rnd_c rnd_s)), []).
Proof.
  pose proof (ecdh_key_to_cose_generated (generate_private_key rnd_c))
    as KC.
  revert KC. run. intros KC. rewrite KC. reflexivity.
Qed.

Lemma server_context_run :
  oscore_context (s_base (server_2 sk_c sk_s rnd_c rnd_s (CMap [])))
  = (Return (CONTEXT sk_c sk_s rnd_c rnd_s),
     set__oscore_context (Some (CONTEXT sk_c sk_s rnd_c rnd_s))
       (s_base (server_2 sk_c sk_s rnd_c rnd_s (CMap []))), []).
Proof.
  pose proof (ecdh_key_to_cose_generated (generate_private_key rnd_s))
    as KS.
  revert KS. run. intros KS. rewrite KS. reflexivity.
Qed.

End HonestRun.

(** ** The honest run of endpoints in any state *)

Section AnyEndpoints.
Context `{Cbor2Laws} `{CryptographyLaws} `{EcdsaLaws}.
Variables (rnd_c rnd_s : Entropy).







End AnyEndpoints.

(** ** The OSCORE context of a session *)

Section ContextProperties.
Context `{Cbor2Laws} `{CryptographyLaws} `{EcdsaLaws}.

(** Once the property has returned a context the session has it cached
    and returns it again. *)
Lemma oscore_context_cached (e e' : EdhocSession) ctx out :
  oscore_context e = (Return ctx, e', out) ->
  _oscore_context e' = Some ctx /\ out = []
  /\ oscore_context e' = (Return ctx, e', []).
Proof.
  unfold oscore_context, bind, get, need, lift, assign, ret, raise.
  destruct (_oscore_context e) as [c|] eqn:E.
  - cbn. rewrite E. cbn. intros [= <- <- <-]. rewrite E. cbn.
    rewrite E. auto.
  - destruct (bytes_of Message1.to_bytes (message1 e)); [|discriminate].
    destruct (bytes_of Message2.to_bytes (message2 e)); [|discriminate].
    destruct (bytes_of Message3.to_bytes (message3 e)); [|discriminate].
    destruct (shared_secret (session e)); [|discriminate].
    cbn. intros [= <- <- <-]. cbn. auto.
Qed.

Lemma encrypt_spec (e e' : EdhocSession) ctx out payload :
  oscore_context e = (Return ctx, e', out) ->
  encrypt payload e
  = (Return (Encrypt0Message.serialize payload (master_salt ctx)
               (master_secret ctx) []), e', []).
Proof.
  intros E. destruct (oscore_context_cached _ _ _ _ E) as (_ & -> & E').
  unfold encrypt, bind. rewrite E, E'. reflexivity.
Qed.

Lemma decrypt_spec (e e' : EdhocSession) ctx out ciphertext :
  oscore_context e = (Return ctx, e', out) ->
  decrypt ciphertext e
  = (Encrypt0Message.decrypt (CBytes ciphertext) (master_secret ctx)
       (master_salt ctx) [], e', []).
Proof.
  intros E. destruct (oscore_context_cached _ _ _ _ E) as (_ & -> & E').
  unfold decrypt, bind, lift. rewrite E, E'. reflexivity.
Qed.


(** C2 (amended).  On a session that has not derived its context yet,
    holds the three messages and the shared secret [Z], the property
    [oscore_context] returns
    [master_secret = HKDF(Z, 16, ctx("EDHOC OSCORE Master Secret", 16, H))]
    and
    [master_salt = HKDF(Z, 7, ctx("EDHOC OSCORE Master Salt", 7, H))]
    with [H = SHA-256(SHA-256(MSG1 || MSG2) || MSG3)], 16 and 7 bytes
    long, and caches them. *)
Theorem oscore_context_derivation (e : EdhocSession)
    (msg_1 msg_2 msg_3 Z : bytes) :
  _oscore_context e = None ->
  bytes_of Message1.to_bytes (message1 e) = Return msg_1 ->
  bytes_of Message2.to_bytes (message2 e) = Return msg_2 ->
  bytes_of Message3.to_bytes (message3 e) = Return msg_3 ->
  shared_secret (session e) = Some Z ->
  let exchange_hash := SHA256 (SHA256 (msg_1 ++ msg_2) ++ msg_3) in
  let ctx :=
    {| master_secret :=
         HKDF 16 (cose_kdf_context "EDHOC OSCORE Master Secret" 16
                    exchange_hash) Z;
       master_salt :=
         HKDF 7 (cose_kdf_context "EDHOC OSCORE Master Salt" 7
                   exchange_hash) Z |} in
  oscore_context e = (Return ctx, set__oscore_context (Some ctx) e, [])
  /\ List.length (master_secret ctx) = 16%nat
  /\ List.length (master_salt ctx) = 7%nat.
Proof.
  intros Hc H1' H2' H3' Hz. cbn zeta.
  split; [|split; apply HKDF_length].
  unfold oscore_context, bind, get, lift, need, assign, ret.
  rewrite Hc, H1', H2', H3', Hz. reflexivity.
Qed.

(** C4.  For two sessions whose [oscore_context] is the same context,
    of the derived sizes, and every plaintext [m]: what one encrypts
    the other decrypts to [m], in both directions. *)
Theorem encrypt_decrypt_swap (A B A' B' : EdhocSession) ctx oa ob
    (m : bytes) :
  oscore_context A = (Return ctx, A', oa) ->
  oscore_context B = (Return ctx, B', ob) ->
  well_sized ctx ->
  (exists c, encrypt m A = (Return c, A', [])
             /\ decrypt c B = (Return m, B', []))
  /\ (exists c, encrypt m B = (Return c, B', [])
                /\ decrypt c A = (Return m, A', [])).
Proof.
  intros CA CB [Hs Hi].
  split; eexists; (split; [eapply encrypt_spec; eassumption|]).
  - erewrite decrypt_spec by eassumption.
    rewrite decrypt_serialize; [reflexivity|assumption|lia].
  - erewrite decrypt_spec by eassumption.
    rewrite decrypt_serialize; [reflexivity|assumption|lia].
Qed.

(** C10.  When [encrypt] returns a ciphertext, a second call with the
    same payload on the session as the first left it returns the same
    bytes: the Encrypt0 message under the cached [master_secret] as key
    and the cached [master_salt] as IV. *)
Theorem encrypt_deterministic (e e1 : EdhocSession) payload c out :
  encrypt payload e = (Return c, e1, out) ->
  encrypt payload e1 = (Return c, e1, [])
  /\ exists ctx, _oscore_context e1 = Some ctx
       /\ c = Encrypt0Message.serialize payload (master_salt ctx)
                (master_secret ctx) [].
Proof.
  intros E.
  destruct (oscore_context e) as [[[ctx|x] e'] o] eqn:C.
  - rewrite (encrypt_spec _ _ _ _ payload C) in E.
    injection E as <- <- <-.
    destruct (oscore_context_cached _ _ _ _ C) as (Hc & _ & C').
    split; [now apply (encrypt_spec _ _ _ _ payload C')|]. now exists ctx.
  - unfold encrypt, bind in E. rewrite C in E. discriminate.
Qed.

End ContextProperties.


(** ** The server and the client, in any state *)

Section EndpointProperties.
Context `{Cbor2} `{Cryptography} `{Ecdsa}.

(** [on_msg_3] touches nothing of [self.session] and prints nothing. *)
Lemma on_msg_3_frame message s r s' out :
  on_msg_3 message s = (r, s', out) ->
  session (s_base s') = session (s_base s) /\ out = [].
Proof.
  intros E. run_in E. invert_run E; injection E as <- <- <-; cbn; auto.
Qed.

Lemma on_msg_1_keys rnd message s m2 s' out :
  on_msg_1 rnd message s = (Return (ReplyMessage2 m2), s', out) ->
  exists Z aad2 sig,
    shared_secret (session (s_base s')) = Some Z
    /\ Message2.th_2 message_digest (message1 (s_base s')) m2 = Return aad2
    /\ Message2.ciphertext m2
       = Some (Encrypt0Message.serialize sig
                 (HKDF 7 (cose_kdf_context "IV-Generation" 7 aad2) Z)
                 (HKDF 16 (cose_kdf_context "AES-CCM-64-64-128" 16 aad2) Z)
                 aad2)
    /\ out = [ ("Server AAD2 =", aad2);
               ("Server K2 =",
                HKDF 16 (cose_kdf_context "AES-CCM-64-64-128" 16 aad2) Z);
               ("Server IV2 =",
                HKDF 7 (cose_kdf_context "IV-Generation" 7 aad2) Z) ].
Proof.
  intros E. run_in E. invert_run E.
  injection E as E1 E2 E3. subst. cbn.
  eexists _, _, _. repeat split. assumption.
Qed.

Lemma continue_edhoc_keys rnd message c m3 c' out :
  continue_edhoc rnd message c = (Return m3, c', out) ->
  exists Z aad2 aad3 enc_2 sig_v sig_u,
    shared_secret (session (c_base c')) = Some Z
    /\ (exists m2, message2 (c_base c') = Some m2
                   /\ Message2.th_2 message_digest (message1 (c_base c')) m2
                      = Return aad2)
    /\ Message3.th_3 message_digest (message1 (c_base c'))
         (message2 (c_base c')) = Return aad3
    /\ Encrypt0Message.decrypt enc_2
         (HKDF 16 (cose_kdf_context "AES-CCM-64-64-128" 16 aad2) Z)
         (HKDF 7 (cose_kdf_context "IV-Generation" 7 aad2) Z) aad2
       = Return sig_v
    /\ Message3.ciphertext m3
       = Some (Encrypt0Message.serialize sig_u
                 (HKDF 7 (cose_kdf_context "IV-Generation" 7 aad3) Z)
                 (HKDF 16 (cose_kdf_context "AES-CCM-64-64-128" 16 aad3) Z)
                 aad3)
    /\ out = [ ("Client AAD2 =", aad2);
               ("Client K2 =",
                HKDF 16 (cose_kdf_context "AES-CCM-64-64-128" 16 aad2) Z);
               ("Client IV2 =",
                HKDF 7 (cose_kdf_context "IV-Generation" 7 aad2) Z);
               ("Client AAD3 =", aad3);
               ("Client K3 =",
                HKDF 16 (cose_kdf_context "AES-CCM-64-64-128" 16 aad3) Z);
               ("Client IV3 =",
                HKDF 7 (cose_kdf_context "IV-Generation" 7 aad3) Z) ].
Proof.
  intros E. run_in E. invert_run E.
  injection E as E1 E2 E3. subst. cbn.
  eexists _, _, _, _, _, _. repeat split; try eassumption.
  eexists. split; [reflexivity|]. assumption.
Qed.

Lemma on_msg_3_keys message s s' out :
  on_msg_3 message s = (Return MessageOk, s', out) ->
  exists Z aad3 enc_3 sig_u,
    shared_secret (session (s_base s')) = Some Z
    /\ Message3.th_3 message_digest (message1 (s_base s'))
         (message2 (s_base s')) = Return aad3
    /\ Encrypt0Message.decrypt enc_3
         (HKDF 16 (cose_kdf_context "AES-CCM-64-64-128" 16 aad3) Z)
         (HKDF 7 (cose_kdf_context "IV-Generation" 7 aad3) Z) aad3
       = Return sig_u.
Proof.
  intros E. run_in E. invert_run E.
  injection E as E2 E3. subst. cbn.
  eexists _, _, _, _. repeat split; try eassumption.
Qed.

(** C3 (amended).  Whenever [on_msg_1] returns MSG2, [continue_edhoc]
    returns MSG3 or [on_msg_3] returns [MessageOk], the AEAD key and IV of
    the message are
    [K_i = HKDF(Z, 16, ctx("AES-CCM-64-64-128", 16, TH_i))] and
    [IV_i = HKDF(Z, 7, ctx("IV-Generation", 7, TH_i))], [Z] the shared
    secret and [TH_i] the transcript hash of the message: the server
    encrypts [ciphertext_2] under [K_2], [IV_2] and prints them, the
    client decrypts under [K_2], [IV_2], encrypts [ciphertext_3] under
    [K_3], [IV_3] and prints all four, and the server decrypts under
    [K_3], [IV_3]. *)
Theorem message_keys_derivation :
  (forall rnd message s m2 s' out,
      on_msg_1 rnd message s = (Return (ReplyMessage2 m2), s', out) ->
      exists Z aad2 sig,
        shared_secret (session (s_base s')) = Some Z
        /\ Message2.th_2 message_digest (message1 (s_base s')) m2
           = Return aad2
        /\ Message2.ciphertext m2
           = Some (Encrypt0Message.serialize sig
                     (HKDF 7 (cose_kdf_context "IV-Generation" 7 aad2) Z)
                     (HKDF 16
                        (cose_kdf_context "AES-CCM-64-64-128" 16 aad2) Z)
                     aad2)
        /\ out = [ ("Server AAD2 =", aad2);
                   ("Server K2 =",
                    HKDF 16
                      (cose_kdf_context "AES-CCM-64-64-128" 16 aad2) Z);
                   ("Server IV2 =",
                    HKDF 7 (cose_kdf_context "IV-Generation" 7 aad2) Z) ])
  /\ (forall rnd message c m3 c' out,
      continue_edhoc rnd message c = (Return m3, c', out) ->
      exists Z aad2 aad3 enc_2 sig_v sig_u,
        shared_secret (session (c_base c')) = Some Z
        /\ (exists m2, message2 (c_base c') = Some m2
                       /\ Message2.th_2 message_digest
                            (message1 (c_base c')) m2 = Return aad2)
        /\ Message3.th_3 message_digest (message1 (c_base c'))
             (message2 (c_base c')) = Return aad3
        /\ Encrypt0Message.decrypt enc_2
             (HKDF 16 (cose_kdf_context "AES-CCM-64-64-128" 16 aad2) Z)
             (HKDF 7 (cose_kdf_context "IV-Generation" 7 aad2) Z) aad2
           = Return sig_v
        /\ Message3.ciphertext m3
           = Some (Encrypt0Message.serialize sig_u
                     (HKDF 7 (cose_kdf_context "IV-Generation" 7 aad3) Z)
                     (HKDF 16
                        (cose_kdf_context "AES-CCM-64-64-128" 16 aad3) Z)
                     aad3)
        /\ out = [ ("Client AAD2 =", aad2);
                   ("Client K2 =",
                    HKDF 16
                      (cose_kdf_context "AES-CCM-64-64-128" 16 aad2) Z);
                   ("Client IV2 =",
                    HKDF 7 (cose_kdf_context "IV-Generation" 7 aad2) Z);
                   ("Client AAD3 =", aad3);
                   ("Client K3 =",
                    HKDF 16
                      (cose_kdf_context "AES-CCM-64-64-128" 16 aad3) Z);
                   ("Client IV3 =",
                    HKDF 7 (cose_kdf_context "IV-Generation" 7 aad3) Z) ])
  /\ (forall message s s' out,
      on_msg_3 message s = (Return MessageOk, s', out) ->
      exists Z aad3 enc_3 sig_u,
        shared_secret (session (s_base s')) = Some Z
        /\ Message3.th_3 message_digest (message1 (s_base s'))
             (message2 (s_base s')) = Return aad3
        /\ Encrypt0Message.decrypt enc_3
             (HKDF 16 (cose_kdf_context "AES-CCM-64-64-128" 16 aad3) Z)
             (HKDF 7 (cose_kdf_context "IV-Generation" 7 aad3) Z) aad3
           = Return sig_u).
Proof.
  split; [|split].
  - exact on_msg_1_keys.
  - exact continue_edhoc_keys.
  - exact on_msg_3_keys.
Qed.

(** C5 (amended).  When [on_receive] returns [MessageOk], the session
    holds the same ephemeral private key as before the call: completing
    the handshake leaves [self.session.private_key] as [on_msg_1] set
    it. *)
Theorem on_receive_ok_keeps_private_key rnd message s s' out :
  on_receive rnd message s = (Return MessageOk, s', out) ->
  private_key (session (s_base s')) = private_key (session (s_base s)).
Proof.
  unfold on_receive, bind, print, lift.
  destruct (loads message) as [decoded|]; [|discriminate].
  destruct (py_getitem decoded 0) as [tag|]; [|discriminate].
  destruct (py_eq_int tag EDHOC_MSG_1).
  - destruct (on_msg_1 rnd message s) as [[r1 s1] o1] eqn:E1.
    cbn. intros [= -> <- <-].
    run_in E1. invert_run E1; discriminate.
  - destruct (py_eq_int tag EDHOC_MSG_3).
    + destruct (on_msg_3 message s) as [[r3 s3] o3] eqn:E3.
      cbn. intros [= -> <- <-].
      destruct (on_msg_3_frame _ _ _ _ _ E3) as [-> _]. reflexivity.
    + discriminate.
Qed.

(** C6 (amended).  [on_receive] dispatches on the tag of the message
    alone, whatever the session holds: a message whose first element
    equals 1 is handled by [on_msg_1] (also when a MSG1 was processed
    before), one whose first element equals 3 by [on_msg_3], and for any
    other tag [on_receive] returns [None], having printed the message and
    left the session as it was. *)
Theorem on_receive_dispatch rnd message s decoded tag :
  loads message = Return decoded ->
  py_getitem decoded 0 = Return tag ->
  on_receive rnd message s =
  if py_eq_int tag EDHOC_MSG_1 then
    match on_msg_1 rnd message s with
    | (r, s', out) => (r, s', ("Server Received: ", message) :: out)
    end
  else if py_eq_int tag EDHOC_MSG_3 then
    match on_msg_3 message s with
    | (r, s', out) => (r, s', ("Server Received: ", message) :: out)
    end
  else (Return ReplyNone, s, [("Server Received: ", message)]).
Proof.
  intros L G. unfold on_receive, bind, print, lift. rewrite L, G.
  destruct (py_eq_int tag EDHOC_MSG_1).
  - destruct (on_msg_1 rnd message s) as [[? ?] ?]. reflexivity.
  - destruct (py_eq_int tag EDHOC_MSG_3).
    + destruct (on_msg_3 message s) as [[? ?] ?]. reflexivity.
    + reflexivity.
Qed.

End EndpointProperties.


Section Identity.
Context `{Cbor2Laws} `{CryptographyLaws} `{EcdsaLaws}.

(** C7 (amended).  The server verifies the inner Sign1 of MSG3 against
    the one verifying key [client_id] it was constructed with and does
    not read the unprotected header: after an honest MSG1, a MSG3 whose
    inner Sign1 is signed by that client is accepted with [MessageOk]
    whatever unprotected header (and so whatever KID) it carries. *)
Theorem on_msg_3_ignores_unprotected_header (sk_c sk_s : SigningKey)
    (rnd_c rnd_s rnd : Entropy) (unprotected : cbor) :
  exists m2 server_1 out_1 server_2 out_2,
    on_receive rnd_s (MSG1 rnd_c)
      (Server__init__ sk_s (get_verifying_key sk_c))
    = (Return (ReplyMessage2 m2), server_1, out_1)
    /\ on_receive rnd (MSG3 sk_c sk_s rnd_c rnd_s unprotected) server_1
       = (Return MessageOk, server_2, out_2)
    /\ client_id server_2 = get_verifying_key sk_c.
Proof.
  eexists _, _, _, _, _.
  split; [apply on_receive_MSG1_run|].
  split; [apply on_receive_MSG3_run|]. reflexivity.
Qed.

End Identity.


(** ** The Authorization Server *)

Section AuthorizationServerProperties.
Context `{Cbor2} `{Ecdsa} `{!Collaborators} `{Keys}.

Lemma dict_get_contains d n v :
  dict_get d n = Some v ->
  existsb (fun kv : cbor * cbor => py_eq_int (fst kv) n) d = true.
Proof.
  induction d as [|[k w] d IH]; [discriminate|].
  cbn. destruct (py_eq_int k n); [reflexivity|]. exact IH.
Qed.

(** A 400 response of [token] carries one of two error codes. *)
Lemma token_400 clock request_body a r a' out :
  token clock request_body a = (Return r, a', out) ->
  status r = 400 ->
  body r = error_body "invalid_request"
  \/ body r = error_body "unauthorized_client".
Proof.
  intros E. run_in E. invert_run E; injection E as <- <- <-; cbn;
    auto; discriminate.
Qed.

Lemma token_granted clock request_body params a
    client_id client_secret cnf cose_key client_pop_key scope_ aud_ token_ :
  loads request_body = Return params ->
  _verify_token_request params = Return true ->
  py_getitem params CLIENT_ID = Return client_id ->
  py_getitem params CLIENT_SECRET = Return client_secret ->
  check_secret (client_registry a) client_id client_secret = true ->
  py_getitem params CNF = Return cnf ->
  py_getitem cnf COSE_KEY = Return cose_key ->
  CoseKey_from_cose cose_key = Return client_pop_key ->
  py_getitem params SCOPE = Return scope_ ->
  py_getitem params AUD = Return aud_ ->
  _bind_token clock [(SCOPE, scope_); (AUD, aud_)] client_pop_key
  = Return token_ ->
  token clock request_body a
  = (Return {| status := 200;
               body := dumps (CMap (dict_of
                 [ (ACCESS_TOKEN,
                    sign_and_export_self_contained token_
                      (signature_key a) (token_sign_nonce clock));
                   (TOKEN_TYPE, CText "pop");
                   (PROFILE, CText "coap_oscore");
                   (RS_CNF, CoseKey_encode rs_public_cose_key) ])) |},
     set_token_registry
       (add_token (token_registry a) token_ true)
       (set_key_registry
          (add_key (key_registry a) client_id client_pop_key) a),
     []).
Proof.
  intros L V I S C N K F P A B.
  unfold token, verify_client, bind, lift, get, put, ret.
  rewrite L, V. cbn [negb]. rewrite I, S. cbn beta iota. rewrite C.
  cbn [negb]. rewrite N, K, F, P, A, B. reflexivity.
Qed.

(** C8 (amended).  A token request that holds the parameters the handler
    reads and the credentials of a registered client is granted, whatever
    value its [grant_type] has.  When [_bind_token] returns a token for
    the scope, the audience and the PoP key of the request, the response
    is 200 with the four fields, [access_token] being that token signed
    with the key of the server and exported; the PoP key is registered
    under the client id and the token is added to the token registry.
    Every 400 response of [token] carries [invalid_request] or
    [unauthorized_client]. *)
Theorem token_grant_type_unchecked clock request_body params a
    grant_type client_id client_secret cnf cose_key client_pop_key scope_
    aud_ token_ :
  loads request_body = Return params ->
  _verify_token_request params = Return true ->
  py_getitem params GRANT_TYPE = Return grant_type ->
  py_getitem params CLIENT_ID = Return client_id ->
  py_getitem params CLIENT_SECRET = Return client_secret ->
  check_secret (client_registry a) client_id client_secret = true ->
  py_getitem params CNF = Return cnf ->
  py_getitem cnf COSE_KEY = Return cose_key ->
  CoseKey_from_cose cose_key = Return client_pop_key ->
  py_getitem params SCOPE = Return scope_ ->
  py_getitem params AUD = Return aud_ ->
  _bind_token clock [(SCOPE, scope_); (AUD, aud_)] client_pop_key
  = Return token_ ->
  token clock request_body a
  = (Return {| status := 200;
               body := dumps (CMap (dict_of
                 [ (ACCESS_TOKEN,
                    sign_and_export_self_contained token_
                      (signature_key a) (token_sign_nonce clock));
                   (TOKEN_TYPE, CText "pop");
                   (PROFILE, CText "coap_oscore");
                   (RS_CNF, CoseKey_encode rs_public_cose_key) ])) |},
     set_token_registry
       (add_token (token_registry a) token_ true)
       (set_key_registry
          (add_key (key_registry a) client_id client_pop_key) a),
     [])
  /\ (forall clock' body' a0 r a1 out,
        token clock' body' a0 = (Return r, a1, out) ->
        status r = 400 ->
        body r = error_body "invalid_request"
        \/ body r = error_body "unauthorized_client").
Proof.
  intros L V G I S C N K F P A B.
  split; [|exact token_400].
  eapply token_granted; eassumption.
Qed.

(** C9 (the code at the failing input).  An introspection request whose
    map holds [token] and no [token_type_hint] raises [KeyError]: the
    handler reads [params[CK.TOKEN_TYPE_HINT]] although its comment calls
    the parameter optional. *)
Theorem introspect_requires_token_type_hint request_body d token_ a :
  loads request_body = Return (CMap d) ->
  dict_get d TOKEN = Some token_ ->
  dict_get d TOKEN_TYPE_HINT = None ->
  introspect request_body a = (Raise KeyError, a, []).
Proof.
  intros L T Hh. unfold introspect, bind, lift.
  rewrite L. cbn [py_contains]. rewrite (dict_get_contains _ _ _ T).
  cbn [negb py_getitem]. rewrite T, Hh. reflexivity.
Qed.

(** With both parameters and a registered token the answer is 201 with
    the seven fields. *)
Lemma introspect_with_hint request_body d token_ hint a ctx :
  loads request_body = Return (CMap d) ->
  dict_get d TOKEN = Some token_ ->
  dict_get d TOKEN_TYPE_HINT = Some hint ->
  get_token (token_registry a) token_ = Return ctx ->
  introspect request_body a
  = (Return {| status := 201;
               body := dumps (CMap (dict_of
                 [ (ACTIVE, CBool true);
                   (SCOPE, scope ctx);
                   (AUD, audience ctx);
                   (ISS, issuer ctx);
                   (EXP, expires ctx);
                   (IAT, issued_at ctx);
                   (CNF, CMap (dict_of
                      [(COSE_KEY, CoseKey_encode (bound_key ctx))])) ])) |},
     a, []).
Proof.
  intros L T Hh G. unfold introspect, bind, lift, get, ret.
  rewrite L. cbn [py_contains]. rewrite (dict_get_contains _ _ _ T).
  cbn [negb py_getitem]. rewrite T, Hh, G. reflexivity.
Qed.

End AuthorizationServerProperties.


(** * Further properties of the code *)

(** ** Dicts *)

Lemma py_eq_int_unique k n m :
  py_eq_int k n = true -> py_eq_int k m = true -> n = m.
Proof.
  destruct k; cbn; try discriminate; intros A B;
    apply Z.eqb_eq in A, B; congruence.
Qed.

Lemma dict_get_set_same d n v : dict_get (dict_set d n v) n = Some v.
Proof.
  induction d as [|[k w] d IH]; cbn.
  - now rewrite Z.eqb_refl.
  - destruct (py_eq_int k n) eqn:E; cbn; rewrite E; auto.
Qed.

Lemma dict_get_set_other d n m v :
  n <> m -> dict_get (dict_set d n v) m = dict_get d m.
Proof.
  intros N. induction d as [|[k w] d IH]; cbn.
  - destruct (n =? m) eqn:E; [apply Z.eqb_eq in E; contradiction|reflexivity].
  - destruct (py_eq_int k n) eqn:E; cbn.
    + destruct (py_eq_int k m) eqn:F; [|reflexivity].
      destruct N. eapply py_eq_int_unique; eassumption.
    + destruct (py_eq_int k m); auto.
Qed.

Lemma dict_get_missing d n :
  dict_get d n = None ->
  existsb (fun kv : cbor * cbor => py_eq_int (fst kv) n) d = false.
Proof.
  induction d as [|[k w] d IH]; [reflexivity|].
  cbn. destruct (py_eq_int k n); [discriminate|]. exact IH.
Qed.

Lemma dict_get_update_other (l : list (Z * cbor)) d k :
  ~ In k (map fst l) ->
  dict_get (fold_left (fun d kv => dict_set d (fst kv) (snd kv)) l d) k
  = dict_get d k.
Proof.
  revert d. induction l as [|[n v] l IH]; intros d N; [reflexivity|].
  cbn [fold_left fst snd]. rewrite IH by (intros I; apply N; now right).
  apply dict_get_set_other. intros ->. apply N. now left.
Qed.

(** The first item of a dict display whose key does not come again. *)
Lemma dict_get_dict_of_head (l : list (Z * cbor)) k v :
  ~ In k (map fst l) -> dict_get (dict_of ((k, v) :: l)) k = Some v.
Proof.
  intros N. unfold dict_of. cbn [fold_left fst snd].
  rewrite dict_get_update_other by assumption. cbn.
  now rewrite Z.eqb_refl.
Qed.

(** ** Key derivation *)

Section KdfContext.
Context `{Cbor2Laws}.

Lemma dumps_injective (v w : cbor) : dumps v = dumps w -> v = w.
Proof.
  intros E. pose proof (loads_dumps v) as L. rewrite E, loads_dumps in L.
  now injection L.
Qed.

(** X1.  [cose_kdf_context] is one-to-one: two contexts are the same
    bytes only if the algorithm identifier, the key length and the
    [other] field are the same, so the four labels of [protocol.py] and
    different transcript hashes never give HKDF the same [info]. *)
Theorem cose_kdf_context_injective (a1 a2 : string) (n1 n2 : Z)
    (o1 o2 : bytes) :
  cose_kdf_context a1 n1 o1 = cose_kdf_context a2 n2 o2 ->
  a1 = a2 /\ n1 = n2 /\ o1 = o2.
Proof.
  intros E. apply dumps_injective in E. injection E. auto.
Qed.

End KdfContext.

(** ** The session before and after the handshake *)

Section SessionStates.
Context `{Cbor2} `{Cryptography} `{Ecdsa}.

(** X2.  As long as the session lacks one of the three messages or the
    shared secret, and no context is cached, [oscore_context], [encrypt]
    and [decrypt] raise, print nothing and leave the session as it was;
    without a first message the exception is [TypeError]. *)
Theorem oscore_context_requires_handshake (e : EdhocSession)
    (payload : bytes) :
  _oscore_context e = None ->
  message1 e = None \/ message2 e = None \/ message3 e = None
  \/ shared_secret (session e) = None ->
  exists x,
    oscore_context e = (Raise x, e, [])
    /\ encrypt payload e = (Raise x, e, [])
    /\ decrypt payload e = (Raise x, e, [])
    /\ (message1 e = None -> x = TypeError).
Proof.
  intros C Hm.
  assert (exists x, oscore_context e = (Raise x, e, [])
                    /\ (message1 e = None -> x = TypeError)) as (x & E & T).
  { unfold oscore_context, bind, get, lift, need, assign, ret, raise.
    rewrite C.
    destruct (message1 e) as [m1|]; cbn [bytes_of];
      [|eexists; split; [reflexivity|reflexivity]].
    destruct (Message1.to_bytes m1);
      [|eexists; split; [reflexivity|discriminate]].
    destruct (message2 e) as [m2|]; cbn [bytes_of];
      [|eexists; split; [reflexivity|discriminate]].
    destruct (Message2.to_bytes m2);
      [|eexists; split; [reflexivity|discriminate]].
    destruct (message3 e) as [m3|]; cbn [bytes_of];
      [|eexists; split; [reflexivity|discriminate]].
    destruct (Message3.to_bytes m3);
      [|eexists; split; [reflexivity|discriminate]].
    destruct (shared_secret (session e));
      [|eexists; split; [reflexivity|discriminate]].
    destruct Hm as [Hm|[Hm|[Hm|Hm]]]; discriminate. }
  exists x. repeat split; try assumption.
  - unfold encrypt, bind. now rewrite E.
  - unfold decrypt, bind. now rewrite E.
Qed.

Lemma on_msg_1_frame rnd message s r s' out :
  on_msg_1 rnd message s = (r, s', out) ->
  _oscore_context (s_base s') = _oscore_context (s_base s)
  /\ message3 (s_base s') = message3 (s_base s)
  /\ s_sk s' = s_sk s /\ s_vk s' = s_vk s /\ client_id s' = client_id s.
Proof.
  intros E. run_in E. invert_run E; injection E as <- <- <-; cbn; auto.
Qed.

Lemma on_msg_3_frame_keys message s r s' out :
  on_msg_3 message s = (r, s', out) ->
  _oscore_context (s_base s') = _oscore_context (s_base s)
  /\ message1 (s_base s') = message1 (s_base s)
  /\ message2 (s_base s') = message2 (s_base s)
  /\ s_sk s' = s_sk s /\ s_vk s' = s_vk s /\ client_id s' = client_id s.
Proof.
  intros E. run_in E. invert_run E; injection E as <- <- <-; cbn; auto 10.
Qed.

Lemma on_receive_frame rnd message s r s' out :
  on_receive rnd message s = (r, s', out) ->
  _oscore_context (s_base s') = _oscore_context (s_base s)
  /\ s_sk s' = s_sk s /\ s_vk s' = s_vk s /\ client_id s' = client_id s.
Proof.
  unfold on_receive, bind, print, lift.
  destruct (loads message) as [decoded|]; [|intros [= <- <- <-]; auto].
  destruct (py_getitem decoded 0) as [tag|]; [|intros [= <- <- <-]; auto].
  destruct (py_eq_int tag EDHOC_MSG_1).
  - destruct (on_msg_1 rnd message s) as [[r1 s1] o1] eqn:E1.
    cbn. intros [= <- <- <-].
    destruct (on_msg_1_frame _ _ _ _ _ _ E1) as (? & ? & ? & ? & ?). auto.
  - destruct (py_eq_int tag EDHOC_MSG_3).
    + destruct (on_msg_3 message s) as [[r3 s3] o3] eqn:E3.
      cbn. intros [= <- <- <-].
      destruct (on_msg_3_frame_keys _ _ _ _ _ E3)
        as (? & ? & ? & ? & ? & ?).
      auto.
    + cbn. intros [= <- <- <-]. auto.
Qed.

Lemma oscore_context_of_cache (e : EdhocSession) ctx :
  _oscore_context e = Some ctx -> oscore_context e = (Return ctx, e, []).
Proof.
  intros C. unfold oscore_context, bind, get, need, ret. rewrite C. cbn.
  rewrite C. reflexivity.
Qed.

(** X3.  A server that has a context cached keeps it through every
    [on_receive], whatever the message and whatever the outcome: also
    after a new MSG1 has replaced the session's keys, [oscore_context]
    returns the context of the earlier handshake. *)
Theorem cached_context_survives_on_receive rnd message (s : Server) ctx
    r s' out :
  _oscore_context (s_base s) = Some ctx ->
  on_receive rnd message s = (r, s', out) ->
  s_super oscore_context s' = (Return ctx, s', []).
Proof.
  intros C E. destruct (on_receive_frame _ _ _ _ _ _ E) as (F & _).
  rewrite C in F. unfold s_super. rewrite (oscore_context_of_cache _ _ F).
  destruct s'. reflexivity.
Qed.

Lemma initiate_edhoc_frame rnd c r c' out :
  initiate_edhoc rnd c = (r, c', out) ->
  _oscore_context (c_base c') = _oscore_context (c_base c).
Proof. intros E. run_in E. injection E as <- <- <-. reflexivity. Qed.

Lemma continue_edhoc_frame rnd message c r c' out :
  continue_edhoc rnd message c = (r, c', out) ->
  _oscore_context (c_base c') = _oscore_context (c_base c).
Proof.
  intros E. run_in E. invert_run E; injection E as <- <- <-; cbn; auto.
Qed.

(** X4.  A client that has a context cached keeps it through
    [initiate_edhoc] and through [continue_edhoc], whatever their
    outcome: starting or completing another handshake on the same object
    does not change what [oscore_context] returns. *)
Theorem cached_context_survives_client rnd message (c c' : Client) ctx
    out :
  _oscore_context (c_base c) = Some ctx ->
  (exists r, initiate_edhoc rnd c = (r, c', out))
  \/ (exists r, continue_edhoc rnd message c = (r, c', out)) ->
  c_super oscore_context c' = (Return ctx, c', []).
Proof.
  intros C [[r E]|[r E]].
  - pose proof (initiate_edhoc_frame _ _ _ _ _ E) as F.
    rewrite C in F. unfold c_super. rewrite (oscore_context_of_cache _ _ F).
    destruct c'. reflexivity.
  - pose proof (continue_edhoc_frame _ _ _ _ _ _ E) as F.
    rewrite C in F. unfold c_super. rewrite (oscore_context_of_cache _ _ F).
    destruct c'. reflexivity.
Qed.

(** ** What the endpoints do with a message *)

(** X5.  A message that [cbor2] cannot decode, or whose decoded value has
    no element [0] (an empty array, a map without the key 0, a number),
    makes [on_receive] raise the exception of the decoder or of the
    subscription; the server has printed the message and is otherwise as
    before. *)
Theorem on_receive_malformed rnd message (s : Server) x :
  loads message = Raise x
  \/ (exists decoded, loads message = Return decoded
                      /\ py_getitem decoded 0 = Raise x) ->
  on_receive rnd message s = (Raise x, s, [("Server Received: ", message)]).
Proof.
  unfold on_receive, bind, print, lift.
  intros [L|(d & L & G)]; rewrite L; [reflexivity|]. rewrite G. reflexivity.
Qed.

(** X6.  [on_msg_3] stores the message it was given as [self.message3]
    before it derives a key or verifies anything: whenever the message
    decodes to three elements the server ends up holding it, with the
    session id it names, whether the call returns [MessageOk] or
    raises. *)
Theorem on_msg_3_stores_before_verifying message s decoded tag p enc
    r s' out :
  loads message = Return decoded ->
  unpack3 decoded = Return (tag, p, enc) ->
  on_msg_3 message s = (r, s', out) ->
  exists m3,
    message3 (s_base s') = Some m3
    /\ Message3.bytes_object m3 = Some message
    /\ Message3.peer_session_id m3 = p.
Proof.
  intros L U E. unfold on_msg_3 in E. unfold bind at 1, lift at 1 in E.
  rewrite L in E. unfold bind at 1, lift at 1 in E. rewrite U in E.
  run_in E. invert_run E; injection E as <- <- <-; cbn; eauto.
Qed.

Lemma verify_sound encoded key aad payload :
  Signature1Message.verify encoded key aad = Return payload ->
  exists decoded protected unprotected signature,
    loads encoded = Return decoded
    /\ unpack4 decoded
       = Return (CBytes protected, unprotected, CBytes payload,
                 CBytes signature)
    /\ ecdsa_verify key signature
         (SHA256 (Signature1Message.sig_structure protected aad payload))
       = true.
Proof.
  unfold Signature1Message.verify, rbind.
  destruct (loads encoded) as [d|]; [|discriminate].
  destruct (unpack4 d) as [[[[p u] pl] sg]|] eqn:U; [|discriminate].
  destruct p as [|pb| | | | |]; try discriminate.
  destruct pl as [|plb| | | | |]; try discriminate.
  destruct sg as [|sgb| | | | |]; try discriminate.
  cbn [as_bytes].
  destruct (ecdsa_verify key sgb _) eqn:V; [|discriminate].
  intros [= <-]. eexists _, _, _, _. split; [reflexivity|].
  split; [exact U|]. exact V.
Qed.

(** X7.  The server returns [MessageOk] only for a message that carries
    a signature of the client: the message decodes to an item whose
    element 0 equals 3 and that unpacks into three; its third part
    decrypts, under the key and the nonce derived from the shared secret
    of the session and the transcript hash of the first two messages, to
    a Sign1 whose ECDSA signature is valid under [client_id] over the
    [Sig_structure] of its protected header, that hash and its
    payload. *)
Theorem message_ok_requires_signature rnd message (s s' : Server) out :
  on_receive rnd message s = (Return MessageOk, s', out) ->
  exists decoded tag tag_ p_sess_id enc_3 aad3 secret sig_u sign1 protected
         unprotected payload signature,
    loads message = Return decoded
    /\ py_getitem decoded 0 = Return tag
    /\ py_eq_int tag EDHOC_MSG_3 = true
    /\ unpack3 decoded = Return (tag_, p_sess_id, enc_3)
    /\ Message3.th_3 message_digest (message1 (s_base s))
         (message2 (s_base s))
       = Return aad3
    /\ shared_secret (session (s_base s)) = Some secret
    /\ Encrypt0Message.decrypt enc_3
         (derive_key secret 16
            (cose_kdf_context "AES-CCM-64-64-128" 16 aad3))
         (derive_key secret 7 (cose_kdf_context "IV-Generation" 7 aad3))
         aad3
       = Return sig_u
    /\ loads sig_u = Return sign1
    /\ unpack4 sign1
       = Return (CBytes protected, unprotected, CBytes payload,
                 CBytes signature)
    /\ ecdsa_verify (client_id s) signature
         (SHA256 (Signature1Message.sig_structure protected aad3 payload))
       = true.
Proof.
  unfold on_receive, bind, print, lift.
  destruct (loads message) as [decoded|] eqn:L; [|discriminate].
  destruct (py_getitem decoded 0) as [tag|] eqn:T; [|discriminate].
  destruct (py_eq_int tag EDHOC_MSG_1).
  - destruct (on_msg_1 rnd message s) as [[r1 s1] o1] eqn:E1.
    cbn. intros [= -> <- <-].
    run_in E1. invert_run E1; discriminate.
  - destruct (py_eq_int tag EDHOC_MSG_3) eqn:T3; [|discriminate].
    destruct (on_msg_3 message s) as [[r3 s3] o3] eqn:E3.
    cbn. intros [= -> <- <-].
    run_in E3. rewrite L in E3. invert_run E3. injection E3 as <- <-.
    match goal with
    | V : Signature1Message.verify _ _ _ = Return _ |- _ =>
        destruct (verify_sound _ _ _ _ V) as (d & pr & un & sg & Ls & U & W)
    end.
    exists decoded, tag. eexists _, _, _, _, _, _, _, _, _, _, _.
    split; [reflexivity|]. split; [exact T|]. split; [exact T3|].
    split; [eassumption|]. split; [eassumption|]. split; [reflexivity|].
    split; [eassumption|]. split; [exact Ls|]. split; [exact U|]. exact W.
Qed.

(** X8.  The client returns a third message only for a second message
    that carries a signature of the server: the message unpacks into
    six; the shared secret is the exchange of the client's ephemeral key
    with the key the message carries; the last part decrypts, under the
    key and the nonce derived from that secret and the transcript hash
    [TH_2], to a Sign1 whose ECDSA signature is valid under [server_id]
    over the [Sig_structure] of its protected header, [TH_2] and its
    payload.  The session then holds the second message as it was
    received. *)
Theorem message_3_requires_signature rnd message (c c' : Client) m3 out :
  continue_edhoc rnd message c = (Return m3, c', out) ->
  exists decoded tag sess_id p_sess_id p_nonce p_eph_key enc_2 peer_key
         session_key secret m2 aad2 sig_v sign1 protected unprotected
         payload signature,
    loads message = Return decoded
    /\ unpack6 decoded
       = Return (tag, sess_id, p_sess_id, p_nonce, p_eph_key, enc_2)
    /\ ecdh_cose_to_key p_eph_key = Return peer_key
    /\ private_key (session (c_base c)) = Some session_key
    /\ exchange session_key peer_key = Return secret
    /\ message2 (c_base c') = Some m2
    /\ Message2.bytes_object m2 = Some message
    /\ Message2.th_2 message_digest (message1 (c_base c)) m2 = Return aad2
    /\ Encrypt0Message.decrypt enc_2
         (derive_key secret 16
            (cose_kdf_context "AES-CCM-64-64-128" 16 aad2))
         (derive_key secret 7 (cose_kdf_context "IV-Generation" 7 aad2))
         aad2
       = Return sig_v
    /\ loads sig_v = Return sign1
    /\ unpack4 sign1
       = Return (CBytes protected, unprotected, CBytes payload,
                 CBytes signature)
    /\ ecdsa_verify (server_id c) signature
         (SHA256 (Signature1Message.sig_structure protected aad2 payload))
       = true.
Proof.
  intros E. run_in E. invert_run E. injection E as E1 E2 E3. subst. cbn.
  match goal with
  | V : Signature1Message.verify _ _ _ = Return _ |- _ =>
      destruct (verify_sound _ _ _ _ V) as (d & pr & un & sg & Ls & U & W)
  end.
  eexists _, _, _, _, _, _, _, _, _, _, _, _, _, _, _, _, _, _.
  split; [reflexivity|]. split; [eassumption|]. split; [eassumption|].
  split; [reflexivity|]. split; [eassumption|]. split; [reflexivity|].
  split; [reflexivity|]. split; [eassumption|]. split; [eassumption|].
  split; [exact Ls|]. split; [exact U|]. exact W.
Qed.

(** X9.  A client that has not called [initiate_edhoc] has no ephemeral
    key: [continue_edhoc] on a well-formed second message raises
    [AttributeError] and changes nothing. *)
Theorem continue_edhoc_without_initiate rnd message (c : Client) decoded
    tag sess_id p_sess_id p_nonce p_eph_key enc_2 key :
  private_key (session (c_base c)) = None ->
  loads message = Return decoded ->
  unpack6 decoded
  = Return (tag, sess_id, p_sess_id, p_nonce, p_eph_key, enc_2) ->
  ecdh_cose_to_key p_eph_key = Return key ->
  continue_edhoc rnd message c = (Raise AttributeError, c, []).
Proof.
  intros P L U K. unfold continue_edhoc, bind, lift, get, raise.
  rewrite L, U, K, P. reflexivity.
Qed.

End SessionStates.

(** ** Departures from the honest run *)

Section DepartureProperties.
Context `{Cbor2Laws} `{CryptographyLaws} `{EcdsaLaws}.
Variables (sk_c sk_s : SigningKey) (rnd_c rnd_s : Entropy).

Lemma on_receive_rejected_MSG3 (rnd : Entropy) message p enc x :
  loads message = Return (CArray [CInt 3; p; enc]) ->
  Encrypt0Message.decrypt enc (K_ rnd_c rnd_s (TH_3 sk_s rnd_c rnd_s))
    (IV_ rnd_c rnd_s (TH_3 sk_s rnd_c rnd_s)) (TH_3 sk_s rnd_c rnd_s)
  = Raise x ->
  on_receive rnd message (server_1 sk_c sk_s rnd_c rnd_s)
  = (Raise x,
     set_s_base
       (set_message3
          (Some (Message3.set__aad_3 (Some (TH_3 sk_s rnd_c rnd_s))
                   (Message3.new p (Some message))))
          (s_base (server_1 sk_c sk_s rnd_c rnd_s)))
       (server_1 sk_c sk_s rnd_c rnd_s),
     [("Server Received: ", message)]).
Proof.
  intros L D.
  pose proof (ecdh_key_to_cose_generated (generate_private_key rnd_s))
    as KS.
  revert L D KS. run. intros L D KS.
  repeat (first [ rewrite !L | rewrite !KS | rewrite D ]; run).
  reflexivity.
Qed.

Lemma rejected_context_run message p :
  oscore_context
    (set_message3
       (Some (Message3.set__aad_3 (Some (TH_3 sk_s rnd_c rnd_s))
                (Message3.new p (Some message))))
       (s_base (server_1 sk_c sk_s rnd_c rnd_s)))
  = (Return (CONTEXT_with sk_s rnd_c rnd_s message),
     set__oscore_context (Some (CONTEXT_with sk_s rnd_c rnd_s message))
       (set_message3
          (Some (Message3.set__aad_3 (Some (TH_3 sk_s rnd_c rnd_s))
                   (Message3.new p (Some message))))
          (s_base (server_1 sk_c sk_s rnd_c rnd_s))), []).
Proof.
  pose proof (ecdh_key_to_cose_generated (generate_private_key rnd_s))
    as KS.
  revert KS. run. intros KS. rewrite KS. reflexivity.
Qed.

(** X10.  After an honest MSG1, a third message whose ciphertext does not
    decrypt makes [on_receive] raise, and yet the server can then read
    [oscore_context]: the property returns a context, derived from the
    shared secret and the hash of MSG1, MSG2 and the rejected message. *)
Theorem rejected_msg_3_yields_context (rnd : Entropy) message p enc x :
  loads message = Return (CArray [CInt 3; p; enc]) ->
  Encrypt0Message.decrypt enc (K_ rnd_c rnd_s (TH_3 sk_s rnd_c rnd_s))
    (IV_ rnd_c rnd_s (TH_3 sk_s rnd_c rnd_s)) (TH_3 sk_s rnd_c rnd_s)
  = Raise x ->
  exists m2 s1 out1 s2 s3,
    on_receive rnd_s (MSG1 rnd_c)
      (Server__init__ sk_s (get_verifying_key sk_c))
    = (Return (ReplyMessage2 m2), s1, out1)
    /\ on_receive rnd message s1
       = (Raise x, s2, [("Server Received: ", message)])
    /\ s_super oscore_context s2
       = (Return (CONTEXT_with sk_s rnd_c rnd_s message), s3, []).
Proof.
  intros L D. eexists _, _, _, _, _.
  split; [apply on_receive_MSG1_run|].
  split; [eapply on_receive_rejected_MSG3; eassumption|].
  unfold s_super. cbn [s_base set_s_base].
  rewrite rejected_context_run. reflexivity.
Qed.

(** X11.  The server never compares the session id of a third message
    with its own: after an honest MSG1, the client's third message is
    answered [MessageOk] whatever byte string stands in the place of the
    session id. *)
Theorem on_msg_3_ignores_session_id (rnd : Entropy) (sid : bytes) :
  exists m2 s1 out1 s2 out2,
    on_receive rnd_s (MSG1 rnd_c)
      (Server__init__ sk_s (get_verifying_key sk_c))
    = (Return (ReplyMessage2 m2), s1, out1)
    /\ id (session (s_base s1)) = Some (urandom_2 rnd_s)
    /\ on_receive rnd (MSG3_with sk_c sk_s rnd_c rnd_s (CBytes sid)) s1
       = (Return MessageOk, s2, out2).
Proof.
  eexists _, _, _, _, _.
  split; [apply on_receive_MSG1_run|]. split; [reflexivity|].
  pose proof (decrypt_serialize (SIG_U sk_c sk_s rnd_c rnd_s (CMap []))
                _ _ (TH_3 sk_s rnd_c rnd_s)
                (K_length rnd_c rnd_s (TH_3 sk_s rnd_c rnd_s))
                (IV_length rnd_c rnd_s (TH_3 sk_s rnd_c rnd_s))) as D3.
  pose proof (verify_serialize_signed [] sign1_protected (CMap []) sk_c
                (sign_nonce rnd_c) (TH_3 sk_s rnd_c rnd_s)) as V3.
  pose proof (ecdh_key_to_cose_generated (generate_private_key rnd_s))
    as KS.
  revert D3 V3 KS. run. intros D3 V3 KS.
  repeat (first [ rewrite !loads_dumps | rewrite !KS | rewrite D3
                | rewrite V3 ]; run).
  reflexivity.
Qed.

Lemma continue_edhoc_rejected_MSG2 (rnd : Entropy) (enc_2 : cbor) x :
  Encrypt0Message.decrypt enc_2 (K_ rnd_c rnd_s (TH_2 rnd_c rnd_s))
    (IV_ rnd_c rnd_s (TH_2 rnd_c rnd_s)) (TH_2 rnd_c rnd_s)
  = Raise x ->
  continue_edhoc rnd (MSG2_with rnd_c rnd_s enc_2) (client_1 sk_c sk_s rnd_c)
  = (Raise x,
     set_c_base
       (set_message2
          (Some (Message2.set__aad_2 (Some (TH_2 rnd_c rnd_s))
                   (Message2.new (CBytes (urandom_2 rnd_c))
                      (CBytes (urandom_2 rnd_s))
                      (CBytes (urandom_8 rnd_s)) (G_Y rnd_s)
                      (Some (MSG2_with rnd_c rnd_s enc_2)))))
          (set_session
             (set_shared_secret (Some (shared_Z rnd_c rnd_s))
                (session (c_base (client_1 sk_c sk_s rnd_c))))
             (c_base (client_1 sk_c sk_s rnd_c))))
       (client_1 sk_c sk_s rnd_c),
     [ ("Client AAD2 =", TH_2 rnd_c rnd_s);
       ("Client K2 =", K_ rnd_c rnd_s (TH_2 rnd_c rnd_s));
       ("Client IV2 =", IV_ rnd_c rnd_s (TH_2 rnd_c rnd_s)) ]).
Proof.
  intros D.
  destruct (shared_Z_agree rnd_c rnd_s) as [_ Ez].
  pose proof (ecdh_key_to_cose_generated (generate_private_key rnd_c))
    as KC.
  pose proof (ecdh_key_to_cose_generated (generate_private_key rnd_s))
    as KS.
  pose proof (ecdh_cose_to_key_generated (generate_private_key rnd_s))
    as SK.
  revert Ez D KC KS SK. run. intros Ez D KC KS SK.
  repeat (first [ rewrite !loads_dumps | rewrite SK | rewrite Ez
                | rewrite !KC | rewrite !KS | rewrite D ]; run).
  reflexivity.
Qed.

(** X12.  [continue_edhoc] does not undo anything when the second
    message is rejected: if the ciphertext of an otherwise honest MSG2
    does not decrypt, the call raises after it has printed [TH_2], [K_2]
    and [IV_2], and the client keeps the shared secret computed with the
    unauthenticated key and the rejected message as [message2]; no third
    message is built. *)
Theorem rejected_msg_2_keeps_secret (rnd : Entropy) (enc_2 : cbor) x :
  Encrypt0Message.decrypt enc_2 (K_ rnd_c rnd_s (TH_2 rnd_c rnd_s))
    (IV_ rnd_c rnd_s (TH_2 rnd_c rnd_s)) (TH_2 rnd_c rnd_s)
  = Raise x ->
  exists m1 c1 c2 m2,
    initiate_edhoc rnd_c (Client__init__ sk_c (get_verifying_key sk_s))
    = (Return m1, c1, [])
    /\ shared_secret (session (c_base c1)) = None
    /\ continue_edhoc rnd (MSG2_with rnd_c rnd_s enc_2) c1
       = (Raise x, c2,
          [ ("Client AAD2 =", TH_2 rnd_c rnd_s);
            ("Client K2 =", K_ rnd_c rnd_s (TH_2 rnd_c rnd_s));
            ("Client IV2 =", IV_ rnd_c rnd_s (TH_2 rnd_c rnd_s)) ])
    /\ shared_secret (session (c_base c2)) = Some (shared_Z rnd_c rnd_s)
    /\ message2 (c_base c2) = Some m2
    /\ Message2.bytes_object m2 = Some (MSG2_with rnd_c rnd_s enc_2)
    /\ message3 (c_base c2) = None.
Proof.
  intros D. eexists _, _, _, _.
  split; [apply initiate_edhoc_run|]. split; [reflexivity|].
  split; [apply continue_edhoc_rejected_MSG2; exact D|].
  repeat split.
Qed.

(** X13.  The server answers a well-formed MSG1 with a MSG2 in whatever
    state it is: the session id, the ephemeral key and the shared secret
    are replaced by those of the new exchange, the keys of MSG2 are
    printed, and the third message and a cached context of an earlier
    handshake stay. *)
Theorem msg_1_restarts_session (s : Server) :
  exists m2 s',
    on_receive rnd_s (MSG1 rnd_c) s
    = (Return (ReplyMessage2 m2), s',
       [ ("Server Received: ", MSG1 rnd_c);
         ("Server AAD2 =", TH_2 rnd_c rnd_s);
         ("Server K2 =", K_ rnd_c rnd_s (TH_2 rnd_c rnd_s));
         ("Server IV2 =", IV_ rnd_c rnd_s (TH_2 rnd_c rnd_s)) ])
    /\ Message2.to_bytes m2 = Return (MSG2 (s_sk s) rnd_c rnd_s)
    /\ id (session (s_base s')) = Some (urandom_2 rnd_s)
    /\ private_key (session (s_base s')) = Some (generate_private_key rnd_s)
    /\ exchange (generate_private_key rnd_s)
         (public_numbers (generate_private_key rnd_c))
       = Return (shared_Z rnd_c rnd_s)
    /\ shared_secret (session (s_base s')) = Some (shared_Z rnd_c rnd_s)
    /\ message2 (s_base s') = Some m2
    /\ message3 (s_base s') = message3 (s_base s)
    /\ _oscore_context (s_base s') = _oscore_context (s_base s).
Proof.
  eexists _, _. split; [apply on_receive_MSG1_any|].
  split; [apply message2_s_bytes|].
  destruct (shared_Z_agree rnd_c rnd_s) as [Ez _].
  repeat split. exact Ez.
Qed.

End DepartureProperties.

(** ** [OscoreContext.__str__] *)

Lemma hex_digits (x : byte) :
  is_hex_digit (hex_digit (Byte.to_N x / 16)) = true
  /\ is_hex_digit (hex_digit (Byte.to_N x mod 16)) = true
  /\ Byte.of_N (16 * hex_value (hex_digit (Byte.to_N x / 16))
                + hex_value (hex_digit (Byte.to_N x mod 16))) = Some x.
Proof. destruct x; repeat split; vm_compute; reflexivity. Qed.

(** A string of hex digits followed by a character that is none and a
    rest determines the three. *)
Lemma hex_then_inj (b1 b2 : bytes) (c : ascii) (r1 r2 : string) :
  is_hex_digit c = false ->
  String.append (hex b1) (String c r1) = String.append (hex b2) (String c r2)
  -> b1 = b2 /\ r1 = r2.
Proof.
  intros Hc. revert b2. induction b1 as [|x b1 IH]; intros [|y b2] E.
  - cbn in E. injection E as ->. auto.
  - cbn in E. injection E as E _. subst c.
    destruct (hex_digits y) as (D & _). congruence.
  - cbn in E. injection E as E _. subst c.
    destruct (hex_digits x) as (D & _). congruence.
  - cbn in E. injection E as E1 E2 E.
    destruct (IH _ E) as [-> ->]. split; [|reflexivity]. f_equal.
    destruct (hex_digits x) as (_ & _ & X).
    destruct (hex_digits y) as (_ & _ & Y).
    rewrite E1, E2 in X. congruence.
Qed.

(** X14.  The text of a context determines the context: two contexts
    with the same [__str__] have the same master secret and the same
    master salt, so whoever reads the printed text has both. *)
Theorem OscoreContext__str__injective (c1 c2 : OscoreContext) :
  OscoreContext__str__ c1 = OscoreContext__str__ c2 -> c1 = c2.
Proof.
  unfold OscoreContext__str__. intros E.
  cbn [String.append] in E.
  repeat match type of E with
         | String _ _ = String _ _ => injection E as E
         end.
  destruct c1 as [s1 t1], c2 as [s2 t2]. cbn [master_secret master_salt] in E.
  apply hex_then_inj in E; [|reflexivity]. destruct E as [-> E].
  repeat match type of E with
         | String _ _ = String _ _ => injection E as E
         end.
  change ")" with (String ")"%char EmptyString) in E.
  apply hex_then_inj in E; [|reflexivity]. destruct E as [-> _].
  reflexivity.
Qed.

(** ** The key conversions of [util.py] *)

Section UtilProperties.
Context `{Cbor2Laws} `{Cryptography}.

(** X15.  For a public key on one of the three supported curves,
    [ecdh_cose_to_key] reads back the key that [ecdh_key_to_cose] wrote
    with [encode=True]; what [ecdh_key_to_cose] returns by default
    ([encode=False], a dict) is not accepted by [ecdh_cose_to_key],
    which raises [TypeError]. *)
Theorem ecdh_cose_round_trip (key : EllipticCurvePublicNumbers) :
  on_curve key = true ->
  In (pn_curve key) ["secp256r1"; "secp384r1"; "secp521r1"] ->
  (exists b, ecdh_key_to_cose key true = Return (CBytes b)
             /\ ecdh_cose_to_key (CBytes b) = Return key)
  /\ (exists d, ecdh_key_to_cose key false = Return (CMap d)
                /\ ecdh_cose_to_key (CMap d) = Raise TypeError).
Proof.
  intros O C. destruct key as [x y c]. cbn in C.
  destruct C as [<-|[<-|[<-|[]]]];
    (split;
     [ eexists; split; [reflexivity|];
       unfold ecdh_cose_to_key; cbn [loads_argument rbind];
       rewrite loads_dumps; cbn; rewrite O; reflexivity
     | eexists; split; reflexivity ]).
Qed.

(** X16.  [ecdh_cose_to_key] reads the key type and never looks at it:
    whatever value stands under [kty] in an encoded COSE key, the result
    is the same. *)
Theorem ecdh_cose_to_key_ignores_kty (d : list (cbor * cbor)) (v w : cbor) :
  ecdh_cose_to_key (CBytes (dumps (CMap (dict_set d CoseKey.KTY v))))
  = ecdh_cose_to_key (CBytes (dumps (CMap (dict_set d CoseKey.KTY w)))).
Proof.
  unfold ecdh_cose_to_key. cbn [loads_argument rbind]. rewrite !loads_dumps.
  cbn [py_getitem rbind]. rewrite !dict_get_set_same. cbn [rbind].
  rewrite !(dict_get_set_other d CoseKey.KTY) by discriminate.
  reflexivity.
Qed.

(** X17.  [ecdh_cose_to_key] raises [KeyError] on an encoded map that
    lacks the key type or the curve, names a curve other than 1, 2 and
    3, or names a supported curve and lacks a coordinate. *)
Theorem ecdh_cose_to_key_key_error (b : bytes) (d : list (cbor * cbor)) :
  loads b = Return (CMap d) ->
  dict_get d CoseKey.KTY = None
  \/ dict_get d CoseKey.CRV = None
  \/ (exists z, dict_get d CoseKey.CRV = Some (CInt z)
                /\ (~ In z [1; 2; 3]
                    \/ dict_get d CoseKey.X = None
                    \/ dict_get d CoseKey.Y = None)) ->
  ecdh_cose_to_key (CBytes b) = Raise KeyError.
Proof.
  intros L Hm. unfold ecdh_cose_to_key. cbn [loads_argument rbind]. rewrite L.
  cbn [py_getitem rbind].
  destruct (dict_get d CoseKey.KTY) as [kty|] eqn:K; cbn [rbind];
    [|reflexivity].
  destruct Hm as [Hm|[Hm|(z & C & Hm)]]; [discriminate| |].
  - rewrite Hm. reflexivity.
  - rewrite C. cbn [rbind]. unfold lookup_int, _ecdh_curves. cbn [find fst].
    unfold py_eq_int.
    destruct (Z.eqb_spec z CoseKey.Curve.P_256) as [->|N1];
      [|destruct (Z.eqb_spec z CoseKey.Curve.P_384) as [->|N2];
        [|destruct (Z.eqb_spec z CoseKey.Curve.P_521) as [->|N3]]];
      cbn [rbind snd].
    4: reflexivity.
    all: destruct Hm as [Hm|[Hm|Hm]];
      [destruct Hm; cbn; auto| |];
      destruct (dict_get d CoseKey.X); cbn [rbind]; try reflexivity;
      try discriminate; rewrite Hm; reflexivity.
Qed.

End UtilProperties.

Section UtilEcdsaProperties.
Context `{Cbor2Laws} `{EcdsaPointsLaws}.

(** X18.  For a verifying key on one of the three supported curves,
    [ecdsa_cose_to_key] reads back the key that [ecdsa_key_to_cose] wrote
    with [encode=True]; what [ecdsa_key_to_cose] returns by default is a
    dict, on which [ecdsa_cose_to_key] raises [TypeError]. *)
Theorem ecdsa_cose_round_trip (key : VerifyingKey) :
  In (vk_curve_name key) ["NIST256p"; "NIST384p"; "NIST521p"] ->
  (exists b, ecdsa_key_to_cose key true = Return (CBytes b)
             /\ ecdsa_cose_to_key (CBytes b) = Return key)
  /\ (exists d, ecdsa_key_to_cose key false = Return (CMap d)
                /\ ecdsa_cose_to_key (CMap d) = Raise TypeError).
Proof.
  intros C. pose proof (from_public_point_of_key key) as F.
  unfold ecdsa_key_to_cose.
  destruct C as [C|[C|[C|[]]]]; rewrite <- C in F |- *;
    (split;
     [ eexists; split; [reflexivity|];
       unfold ecdsa_cose_to_key; cbn [loads_argument rbind];
       rewrite loads_dumps; cbn; exact F
     | eexists; split; reflexivity ]).
Qed.

End UtilEcdsaProperties.

(** ** More of the Authorization Server *)

Section AuthorizationServerMore.
Context `{Cbor2} `{Ecdsa} `{!Collaborators} `{Keys}.

Lemma all_in_missing d keys k :
  In k keys -> dict_get d k = None -> all_in (CMap d) keys = Return false.
Proof.
  intros I N. induction keys as [|k' keys IH]; [destruct I|].
  cbn [all_in py_contains rbind].
  destruct (existsb _ d) eqn:E.
  - destruct I as [->|I]; [|auto].
    rewrite (dict_get_missing _ _ N) in E. discriminate.
  - reflexivity.
Qed.

(** X19.  A token request whose body is [null], or a map that lacks one
    of [grant_type], [client_id], [client_secret] and [aud], is answered
    400 with [invalid_request]; the server is unchanged. *)
Theorem token_missing_parameter clock request_body params a :
  loads request_body = Return params ->
  params = CNull
  \/ (exists d k, params = CMap d
                  /\ In k [GRANT_TYPE; CLIENT_ID; CLIENT_SECRET; AUD]
                  /\ dict_get d k = None) ->
  token clock request_body a
  = (Return {| status := 400; body := error_body "invalid_request" |},
     a, []).
Proof.
  intros L [->|(d & k & -> & I & N)]; unfold token, bind, lift, ret;
    rewrite L; [reflexivity|].
  unfold _verify_token_request. rewrite (all_in_missing _ _ _ I N).
  reflexivity.
Qed.

(** X20.  A token request whose body decodes to a number, a text or a
    boolean is not answered 400: the membership test of
    [_verify_token_request] raises [TypeError]. *)
Theorem token_body_not_a_container clock request_body params a :
  loads request_body = Return params ->
  match params with
  | CInt _ | CText _ | CBool _ => True
  | _ => False
  end ->
  token clock request_body a = (Raise TypeError, a, []).
Proof.
  intros L P. unfold token, bind, lift, ret. rewrite L.
  destruct params; try destruct P; reflexivity.
Qed.

(** X21.  A token request with the four expected parameters and
    credentials that the client registry does not accept is answered 400
    with [unauthorized_client], whatever else it holds; the server is
    unchanged. *)
Theorem token_unknown_client clock request_body params a
    client_id client_secret :
  loads request_body = Return params ->
  _verify_token_request params = Return true ->
  py_getitem params CLIENT_ID = Return client_id ->
  py_getitem params CLIENT_SECRET = Return client_secret ->
  check_secret (client_registry a) client_id client_secret = false ->
  token clock request_body a
  = (Return {| status := 400; body := error_body "unauthorized_client" |},
     a, []).
Proof.
  intros L V I S C.
  unfold token, verify_client, bind, lift, get, ret.
  rewrite L, V. cbn [negb]. rewrite I, S. cbn beta iota. rewrite C.
  reflexivity.
Qed.

(** X22.  [cnf] and [scope] are read without having been checked for: a
    request of a registered client that passes [_verify_token_request]
    and lacks [cnf], or holds a PoP key and lacks [scope], raises
    [KeyError] instead of being answered 400; nothing is registered. *)
Theorem token_unvalidated_parameters clock request_body params a
    client_id client_secret :
  loads request_body = Return params ->
  _verify_token_request params = Return true ->
  py_getitem params CLIENT_ID = Return client_id ->
  py_getitem params CLIENT_SECRET = Return client_secret ->
  check_secret (client_registry a) client_id client_secret = true ->
  py_getitem params CNF = Raise KeyError
  \/ (exists cnf cose_key client_pop_key,
         py_getitem params CNF = Return cnf
         /\ py_getitem cnf COSE_KEY = Return cose_key
         /\ CoseKey_from_cose cose_key = Return client_pop_key
         /\ py_getitem params SCOPE = Raise KeyError) ->
  token clock request_body a = (Raise KeyError, a, []).
Proof.
  intros L V I S C N.
  unfold token, verify_client, bind, lift, get, ret.
  rewrite L, V. cbn [negb]. rewrite I, S. cbn beta iota. rewrite C.
  cbn [negb].
  destruct N as [N|(cnf & ck & k & N & K & F & P)].
  - rewrite N. reflexivity.
  - rewrite N, K, F, P. reflexivity.
Qed.

(** X23.  [token] prints nothing and never touches the signature key or
    the client registry.  It leaves the whole server as it was, and every
    answer it then gives is a 400, unless it grants the request: then the
    answer is 200 with the signed token, the key registered under the
    client id of the request is the PoP key that [CoseKey.from_cose]
    reads from [cnf] of the request, and the token added to the token
    registry is the one that [_bind_token] builds from the scope and the
    audience of the request and that key. *)
Theorem token_changes_registries_only_on_200 clock request_body a r a' out :
  token clock request_body a = (r, a', out) ->
  out = []
  /\ signature_key a' = signature_key a
  /\ client_registry a' = client_registry a
  /\ ((a' = a /\ forall resp, r = Return resp -> status resp = 400)
      \/ exists params client_id cnf cose_key key scope_ aud_ token_,
           loads request_body = Return params
           /\ py_getitem params CLIENT_ID = Return client_id
           /\ py_getitem params CNF = Return cnf
           /\ py_getitem cnf COSE_KEY = Return cose_key
           /\ CoseKey_from_cose cose_key = Return key
           /\ py_getitem params SCOPE = Return scope_
           /\ py_getitem params AUD = Return aud_
           /\ _bind_token clock [(SCOPE, scope_); (AUD, aud_)] key
              = Return token_
           /\ r = Return
                    {| status := 200;
                       body := dumps (CMap (dict_of
                         [ (ACCESS_TOKEN,
                            sign_and_export_self_contained token_
                              (signature_key a) (token_sign_nonce clock));
                           (TOKEN_TYPE, CText "pop");
                           (PROFILE, CText "coap_oscore");
                           (RS_CNF, CoseKey_encode rs_public_cose_key) ])) |}
           /\ a' = set_token_registry
                      (add_token (token_registry a) token_ true)
                      (set_key_registry
                         (add_key (key_registry a) client_id key) a)).
Proof.
  intros E. unfold token, verify_client, bind, lift, get, put, ret in E.
  invert_run E; injection E as <- <- <-; repeat split; auto;
    try (left; split; [reflexivity|]; intros resp R; inversion R;
         reflexivity).
  right. eexists _, _, _, _, _, _, _, _. repeat split; eassumption.
Qed.

(** X24.  When the six claim labels are distinct and the two readings of
    the clock convert, [_bind_token] returns a token that holds exactly
    six claims: the issuer [ace.as-server.com]; the time of issue, which
    is [int] of the first reading; the expiry, which is [int] of the
    float sum of the second reading and [7200.0]; the identifier as the
    hex text of the random bytes; and the scope and the audience of the
    request.  The PoP key is bound to it. *)
Theorem bound_token_claims clock scope_ aud_ (key : CoseKey_t) iat exp :
  NoDup [ISS; IAT; EXP; CTI; SCOPE; AUD] ->
  py_int (time_1 clock) = Return iat ->
  py_int (time_2 clock + 7200.0)%float = Return exp ->
  exists t,
    _bind_token clock [(SCOPE, scope_); (AUD, aud_)] key = Return t
    /\ dict_get (claims t) ISS = Some (CText "ace.as-server.com")
    /\ dict_get (claims t) IAT = Some (CInt iat)
    /\ dict_get (claims t) EXP = Some (CInt exp)
    /\ dict_get (claims t) CTI = Some (CText (hex (cti_urandom_2 clock)))
    /\ dict_get (claims t) SCOPE = Some scope_
    /\ dict_get (claims t) AUD = Some aud_
    /\ token_key t = Some key
    /\ List.length (claims t) = 6%nat.
Proof.
  intros N I X.
  assert (ISS <> IAT /\ ISS <> EXP /\ ISS <> CTI /\ ISS <> SCOPE
          /\ ISS <> AUD /\ IAT <> EXP /\ IAT <> CTI /\ IAT <> SCOPE
          /\ IAT <> AUD /\ EXP <> CTI /\ EXP <> SCOPE /\ EXP <> AUD
          /\ CTI <> SCOPE /\ CTI <> AUD /\ SCOPE <> AUD)
    as (? & ? & ? & ? & ? & ? & ? & ? & ? & ? & ? & ? & ? & ? & ?).
  { repeat match goal with
           | N : NoDup (_ :: _) |- _ => inversion_clear N
           end.
    cbn [In] in *. repeat split; intros E; rewrite E in *; tauto. }
  unfold _bind_token. rewrite I, X. cbn [rbind]. eexists.
  split; [reflexivity|]. unfold dict_of.
  cbn [claims token_key fold_left fst snd].
  repeat split;
    try (repeat first
           [ rewrite dict_get_set_same
           | rewrite dict_get_set_other by congruence ];
         reflexivity).
  cbn [dict_set].
  repeat match goal with
         | |- context [py_eq_int (CInt ?a) ?b] =>
             let E := fresh in
             destruct (py_eq_int (CInt a) b) eqn:E;
             [cbn in E; apply Z.eqb_eq in E; congruence|]; cbn [dict_set]
         end.
  reflexivity.
Qed.

(** X25.  An introspection request whose map has no [token] is answered
    400 with the error [missing "token" parameter]; the server is
    unchanged. *)
Theorem introspect_missing_token request_body d a :
  loads request_body = Return (CMap d) ->
  dict_get d TOKEN = None ->
  introspect request_body a
  = (Return {| status := 400;
               body := error_body
                         (String.append "missing "
                            (String.append quote
                               (String.append "token"
                                  (String.append quote " parameter")))) |},
     a, []).
Proof.
  intros L N. unfold introspect, bind, lift, ret. rewrite L.
  cbn [py_contains]. rewrite (dict_get_missing _ _ N). reflexivity.
Qed.

(** X26.  [introspect] never changes the server and never prints,
    whether it answers or raises.  When it answers, the answer is 400 for
    a request without [token], or 201 with a map in which [active] is
    [True] (the label of [active] being none of the other six): the
    handler has no answer that calls a token inactive. *)
Theorem introspect_answers request_body a r a' out :
  ~ In ACTIVE [SCOPE; AUD; ISS; EXP; IAT; CNF] ->
  introspect request_body a = (r, a', out) ->
  a' = a /\ out = []
  /\ forall resp, r = Return resp ->
       (status resp = 400
        /\ exists params, loads request_body = Return params
                          /\ py_contains params TOKEN = Return false)
       \/ (status resp = 201
           /\ exists d, body resp = dumps (CMap d)
                        /\ dict_get d ACTIVE = Some (CBool true)).
Proof.
  intros N E. unfold introspect, bind, lift, get, ret in E.
  destruct (loads request_body) as [params|] eqn:L;
    [|injection E as <- <- <-; repeat split; discriminate].
  destruct (py_contains params TOKEN) as [[|]|] eqn:C; cbn [negb] in E;
    [| |injection E as <- <- <-; repeat split; discriminate].
  - invert_run E; injection E as <- <- <-; repeat split;
      try discriminate.
    intros resp R. injection R as <-.
    right. split; [reflexivity|]. eexists. split; [reflexivity|].
    apply dict_get_dict_of_head. exact N.
  - injection E as <- <- <-. repeat split. intros resp R.
    injection R as <-. left. split; [reflexivity|]. eauto.
Qed.

End AuthorizationServerMore.

(** ** CWT and the temperature resource *)

Section TokenAndResource.
Context `{Cbor2Laws} `{CryptographyLaws} `{EcdsaLaws}.

(** X27.  [decode] under the verifying key of the signer returns the
    claims that [encode] was given, whatever the key id and the nonce of
    the signature. *)
Theorem cwt_decode_encode (claims : cbor) (key : SigningKey)
    (kid k : bytes) :
  cwt.decode (cwt.encode claims key kid k) (get_verifying_key key)
  = Return claims.
Proof.
  unfold cwt.decode, cwt.encode. rewrite verify_serialize_signed.
  cbn [rbind]. apply loads_dumps.
Qed.

(** X28.  [decode] returns claims only for a token that carries a
    signature valid under the given key: the token decodes to a Sign1
    [[protected, unprotected, payload, signature]] of byte strings whose
    ECDSA signature verifies under the key over the [Sig_structure] of
    the protected header and the payload with empty external data, and
    the claims are the decoded payload. *)
Theorem cwt_decode_requires_signature (encoded : bytes)
    (key : VerifyingKey) (claims : cbor) :
  cwt.decode encoded key = Return claims ->
  exists decoded protected unprotected payload signature,
    loads encoded = Return decoded
    /\ unpack4 decoded
       = Return (CBytes protected, unprotected, CBytes payload,
                 CBytes signature)
    /\ ecdsa_verify key signature
         (SHA256 (Signature1Message.sig_structure protected [] payload))
       = true
    /\ loads payload = Return claims.
Proof.
  unfold cwt.decode, rbind.
  destruct (Signature1Message.verify encoded key []) as [payload|] eqn:V;
    [|discriminate].
  intros L.
  destruct (verify_sound _ _ _ _ V) as (d & pr & un & sg & Ls & U & W).
  eexists _, _, _, _, _. eauto.
Qed.

(** X29.  [get_temperature] on a session answers 200 with a body that a
    session holding the same context decrypts to the encoding of
    [{'temperature': t}], [t] one of [22C] to [26C]. *)
Theorem get_temperature_decrypts (A B A' B' : EdhocSession) ctx oa ob
    (temperature : Z) :
  oscore_context A = (Return ctx, A', oa) ->
  oscore_context B = (Return ctx, B', ob) ->
  well_sized ctx ->
  22 <= temperature <= 26 ->
  exists response plaintext reading,
    get_temperature encrypt temperature A
    = (Return {| status := 200; body := response |}, A', [])
    /\ decrypt response B = (Return plaintext, B', [])
    /\ loads plaintext = Return (CMap [(CText "temperature", CText reading)])
    /\ In reading ["22C"; "23C"; "24C"; "25C"; "26C"].
Proof.
  intros CA CB [Hs Hi] R.
  eexists _, _, _. unfold get_temperature, bind, ret.
  rewrite (encrypt_spec _ _ _ _ _ CA). split; [reflexivity|].
  rewrite (decrypt_spec _ _ _ _ _ CB).
  rewrite decrypt_serialize by (assumption || lia).
  split; [reflexivity|]. split; [apply loads_dumps|].
  assert (temperature = 22 \/ temperature = 23 \/ temperature = 24
          \/ temperature = 25 \/ temperature = 26)
    as [->|[->|[->|[->| ->]]]] by lia; cbn; auto 6.
Qed.

End TokenAndResource.




(** ** The claims on the sample instance *)

Module OnSample.
Import Sample SampleFacts.

Lemma sample_handshake :
  handshake rnd_c rnd_s client server
  = Return (MessageOk, client_done, server_done).
Proof. exact (handshake_run client_sk server_sk rnd_c rnd_s). Qed.

Lemma sample_client_context :
  oscore_context (c_base client_done)
  = (Return sample_CONTEXT,
     set__oscore_context (Some sample_CONTEXT) (c_base client_done), []).
Proof. exact (client_context_run client_sk server_sk rnd_c rnd_s). Qed.

Lemma sample_server_context :
  oscore_context (s_base server_done)
  = (Return sample_CONTEXT,
     set__oscore_context (Some sample_CONTEXT) (s_base server_done), []).
Proof. exact (server_context_run client_sk server_sk rnd_c rnd_s). Qed.

Lemma sample_well_sized : well_sized sample_CONTEXT.
Proof. split; vm_compute; reflexivity. Qed.



(** C2 as the specification words it fails on the sample: after the
    handshake the client's [master_salt] has 7 bytes where the
    specification's has 8, and neither value of the context is the
    specification's. *)
Lemma oscore_context_not_as_specified :
  handshake rnd_c rnd_s client server
  = Return (MessageOk, client_done, server_done)
  /\ shared_secret (session (c_base client_done)) = Some sample_Z
  /\ oscore_context (c_base client_done)
     = (Return sample_CONTEXT,
        set__oscore_context (Some sample_CONTEXT) (c_base client_done), [])
  /\ List.length (master_salt sample_CONTEXT) = 7%nat
  /\ List.length
       (spec_master_salt sample_Z (spec_TH_4 sample_TH_3 sample_CIPHERTEXT_3))
     = 8%nat
  /\ master_salt sample_CONTEXT
     <> spec_master_salt sample_Z (spec_TH_4 sample_TH_3 sample_CIPHERTEXT_3)
  /\ master_secret sample_CONTEXT
     <> spec_master_secret sample_Z
          (spec_TH_4 sample_TH_3 sample_CIPHERTEXT_3).
Proof.
  split; [exact sample_handshake|].
  split; [reflexivity|].
  split; [exact sample_client_context|].
  split; [vm_compute; reflexivity|].
  split; [vm_compute; reflexivity|].
  split; apply bytes_eqb_neq; vm_compute; reflexivity.
Qed.

(** C2 (amended) on the sample. *)
Lemma oscore_context_derivation_witness :
  exists ctx,
    oscore_context (c_base client_done)
    = (Return ctx, set__oscore_context (Some ctx) (c_base client_done), [])
    /\ master_secret ctx
       = HKDF 16
           (cose_kdf_context "EDHOC OSCORE Master Secret" 16
              (SHA256 (SHA256 (sample_MSG1 ++ sample_MSG2)
                       ++ sample_MSG3 (CMap [])))) sample_Z
    /\ List.length (master_secret ctx) = 16%nat
    /\ List.length (master_salt ctx) = 7%nat.
Proof.
  destruct (oscore_context_derivation (c_base client_done)
              sample_MSG1 sample_MSG2 (sample_MSG3 (CMap [])) sample_Z)
    as (E & L1 & L2); try reflexivity.
  eexists. split; [exact E|]. split; [reflexivity|]. split; assumption.
Defined.

(** C3 as the specification words it fails on the sample: the key and
    the IV the server prints for MSG2 are not the specification's, and
    the IV has 7 bytes where the specification's has 13. *)
Lemma message_keys_not_as_specified :
  on_receive rnd_s sample_MSG1 server
  = (Return (ReplyMessage2 (message2_s server_sk rnd_c rnd_s)),
     server_sent2,
     [ ("Server Received: ", sample_MSG1);
       ("Server AAD2 =", sample_TH_2);
       ("Server K2 =", sample_K sample_TH_2);
       ("Server IV2 =", sample_IV sample_TH_2) ])
  /\ shared_secret (session (s_base server_sent2)) = Some sample_Z
  /\ sample_K sample_TH_2 <> spec_K sample_Z sample_TH_2
  /\ sample_IV sample_TH_2 <> spec_IV sample_Z sample_TH_2
  /\ List.length (sample_IV sample_TH_2) = 7%nat
  /\ List.length (spec_IV sample_Z sample_TH_2) = 13%nat.
Proof.
  split; [exact (on_receive_MSG1_run client_sk server_sk rnd_c rnd_s)|].
  split; [reflexivity|].
  split; [apply bytes_eqb_neq; vm_compute; reflexivity|].
  split; [apply bytes_eqb_neq; vm_compute; reflexivity|].
  split; vm_compute; reflexivity.
Qed.

(** C3 (amended) on the sample: the client's part. *)
Lemma message_keys_derivation_witness :
  exists Z aad2 aad3 enc_2 sig_v sig_u,
    shared_secret (session (c_base client_done)) = Some Z
    /\ (exists m2, message2 (c_base client_done) = Some m2
                   /\ Message2.th_2 message_digest
                        (message1 (c_base client_done)) m2 = Return aad2)
    /\ Message3.th_3 message_digest (message1 (c_base client_done))
         (message2 (c_base client_done)) = Return aad3
    /\ Encrypt0Message.decrypt enc_2
         (HKDF 16 (cose_kdf_context "AES-CCM-64-64-128" 16 aad2) Z)
         (HKDF 7 (cose_kdf_context "IV-Generation" 7 aad2) Z) aad2
       = Return sig_v
    /\ Message3.ciphertext (message3_c client_sk server_sk rnd_c rnd_s)
       = Some (Encrypt0Message.serialize sig_u
                 (HKDF 7 (cose_kdf_context "IV-Generation" 7 aad3) Z)
                 (HKDF 16 (cose_kdf_context "AES-CCM-64-64-128" 16 aad3) Z)
                 aad3)
    /\ [ ("Client AAD2 =", sample_TH_2);
         ("Client K2 =", sample_K sample_TH_2);
         ("Client IV2 =", sample_IV sample_TH_2);
         ("Client AAD3 =", sample_TH_3);
         ("Client K3 =", sample_K sample_TH_3);
         ("Client IV3 =", sample_IV sample_TH_3) ]
       = [ ("Client AAD2 =", aad2);
           ("Client K2 =",
            HKDF 16 (cose_kdf_context "AES-CCM-64-64-128" 16 aad2) Z);
           ("Client IV2 =",
            HKDF 7 (cose_kdf_context "IV-Generation" 7 aad2) Z);
           ("Client AAD3 =", aad3);
           ("Client K3 =",
            HKDF 16 (cose_kdf_context "AES-CCM-64-64-128" 16 aad3) Z);
           ("Client IV3 =",
            HKDF 7 (cose_kdf_context "IV-Generation" 7 aad3) Z) ].
Proof.
  exact (proj1 (proj2 message_keys_derivation) rnd_c sample_MSG2
           (client_1 client_sk server_sk rnd_c) _ _ _
           (continue_edhoc_run client_sk server_sk rnd_c rnd_s)).
Defined.

(** C4 on the sample, with the plaintexts of [test_encrypt]. *)
Lemma encrypt_decrypt_swap_witness :
  (exists c,
      encrypt (string_bytes "hello from client") (c_base client_done)
      = (Return c,
         set__oscore_context (Some sample_CONTEXT) (c_base client_done), [])
      /\ decrypt c (s_base server_done)
         = (Return (string_bytes "hello from client"),
            set__oscore_context (Some sample_CONTEXT) (s_base server_done),
            []))
  /\ (exists c,
      encrypt (string_bytes "hello from client") (s_base server_done)
      = (Return c,
         set__oscore_context (Some sample_CONTEXT) (s_base server_done), [])
      /\ decrypt c (c_base client_done)
         = (Return (string_bytes "hello from client"),
            set__oscore_context (Some sample_CONTEXT) (c_base client_done),
            [])).
Proof.
  exact (encrypt_decrypt_swap _ _ _ _ _ _ _
           (string_bytes "hello from client")
           sample_client_context sample_server_context sample_well_sized).
Defined.

(** C5 as stated fails on the sample: the handshake has completed with
    [MessageOk] and the server's session still holds the ephemeral
    private key it generated for MSG2. *)
Lemma private_key_kept_after_handshake :
  handshake rnd_c rnd_s client server
  = Return (MessageOk, client_done, server_done)
  /\ private_key (session (s_base server_done))
     = Some (generate_private_key rnd_s)
  /\ generate_private_key rnd_s = (2222 : EllipticCurvePrivateKey).
Proof.
  split; [exact sample_handshake|]. split; reflexivity.
Qed.

(** C5 (amended) on the sample. *)
Lemma on_receive_ok_keeps_private_key_witness :
  private_key (session (s_base server_done))
  = private_key (session (s_base server_sent2)).
Proof.
  exact (on_receive_ok_keeps_private_key rnd_s (sample_MSG3 (CMap []))
           server_sent2 server_done _
           (on_receive_MSG3_run client_sk server_sk rnd_c rnd_s rnd_s
              (CMap []))).
Defined.

(** C6 as stated fails on the sample: a message with tag 2 sent to the
    fresh server and a message with tag 0 sent after MSG1 are ignored
    ([on_receive] returns [None], the session is as before), and a second
    MSG1 after MSG1 is processed like the first. *)
Lemma unexpected_tag_ignored :
  on_receive rnd_s tag_2_message server
  = (Return ReplyNone, server, [("Server Received: ", tag_2_message)])
  /\ on_receive rnd_s tag_0_message server_sent2
     = (Return ReplyNone, server_sent2,
        [("Server Received: ", tag_0_message)])
  /\ exists m2 s' out,
       on_receive rnd_s sample_MSG1 server
       = (Return (ReplyMessage2 m2), server_sent2, out)
       /\ on_receive rnd_s sample_MSG1 server_sent2
          = (Return (ReplyMessage2 m2), s', out).
Proof.
  split; [reflexivity|]. split; [reflexivity|].
  eexists _, _, _.
  split; [exact (on_receive_MSG1_run client_sk server_sk rnd_c rnd_s)|].
  exact (on_receive_MSG1_any rnd_c rnd_s server_sent2).
Qed.

(** C6 (amended) on the sample. *)
Lemma on_receive_dispatch_witness :
  on_receive rnd_s tag_2_message server_sent2
  = (Return ReplyNone, server_sent2,
     [("Server Received: ", tag_2_message)]).
Proof.
  exact (on_receive_dispatch rnd_s tag_2_message server_sent2
           (CArray [CInt 2; CBytes []]) (CInt 2) eq_refl eq_refl).
Defined.

(** C7 as stated fails on the sample: the inner Sign1 of MSG3 names a
    key the server has no record of, and the server answers
    [MessageOk]. *)
Lemma unknown_kid_accepted :
  on_receive rnd_s sample_MSG1 server
  = (Return (ReplyMessage2 (message2_s server_sk rnd_c rnd_s)),
     server_sent2,
     [ ("Server Received: ", sample_MSG1);
       ("Server AAD2 =", sample_TH_2);
       ("Server K2 =", sample_K sample_TH_2);
       ("Server IV2 =", sample_IV sample_TH_2) ])
  /\ on_receive rnd_s (sample_MSG3 unknown_kid) server_sent2
     = (Return MessageOk,
        server_2 client_sk server_sk rnd_c rnd_s unknown_kid,
        [("Server Received: ", sample_MSG3 unknown_kid)])
  /\ Signature1Message.verify
       (SIG_U client_sk server_sk rnd_c rnd_s unknown_kid)
       (client_id server_sent2) sample_TH_3
     = Return [].
Proof.
  split; [exact (on_receive_MSG1_run client_sk server_sk rnd_c rnd_s)|].
  split; [exact (on_receive_MSG3_run client_sk server_sk rnd_c rnd_s rnd_s
                   unknown_kid)|].
  vm_compute. reflexivity.
Qed.

(** C7 (amended) on the sample. *)
Lemma on_msg_3_ignores_unprotected_header_witness :
  exists m2 server_1 out_1 server_2 out_2,
    on_receive rnd_s sample_MSG1
      (Server__init__ server_sk (get_verifying_key client_sk))
    = (Return (ReplyMessage2 m2), server_1, out_1)
    /\ on_receive rnd_s (sample_MSG3 unknown_kid) server_1
       = (Return MessageOk, server_2, out_2)
    /\ client_id server_2 = get_verifying_key client_sk.
Proof.
  exact (on_msg_3_ignores_unprotected_header client_sk server_sk rnd_c
           rnd_s rnd_s unknown_kid).
Defined.

Lemma sample_token_granted (grant_type : cbor) :
  token clock (token_request grant_type) authorization_server
  = (Return sample_token_response, authorization_server_granted, []).
Proof.
  apply (token_granted clock (token_request grant_type)
           (sample_params grant_type) authorization_server
           (CText "ace_client_1")
           (CBytes (string_bytes "ace_client_1_secret_123456"))
           (CMap (dict_of [(COSE_KEY, sample_encode 6170)]))
           (sample_encode 6170) (6170 : Z)
           (CText "read_temperature") (CText "tempSensor0"));
    first [apply sample_loads_dumps | reflexivity].
Qed.

(** C8 as stated fails on the sample: the registered client sends a
    grant type no server supports and is answered 200 with a token. *)
Lemma unsupported_grant_type_granted :
  token clock (token_request (CText "no_such_grant")) authorization_server
  = (Return sample_token_response, authorization_server_granted, [])
  /\ status sample_token_response = 200.
Proof.
  split; [exact (sample_token_granted (CText "no_such_grant"))|reflexivity].
Qed.

(** C8 (amended) on the sample. *)
Lemma token_grant_type_unchecked_witness :
  token clock (token_request (CText "no_such_grant")) authorization_server
  = (Return sample_token_response, authorization_server_granted, [])
  /\ (forall clock' body' a0 r a1 out,
        token clock' body' a0 = (Return r, a1, out) ->
        status r = 400 ->
        body r = error_body "invalid_request"
        \/ body r = error_body "unauthorized_client").
Proof.
  apply (token_grant_type_unchecked clock
           (token_request (CText "no_such_grant"))
           (sample_params (CText "no_such_grant")) authorization_server
           (CText "no_such_grant") (CText "ace_client_1")
           (CBytes (string_bytes "ace_client_1_secret_123456"))
           (CMap (dict_of [(COSE_KEY, sample_encode 6170)]))
           (sample_encode 6170) (6170 : Z)
           (CText "read_temperature") (CText "tempSensor0") sample_token);
    first [apply sample_loads_dumps | reflexivity].
Defined.

(** C9 on the sample: the request without [token_type_hint] raises
    [KeyError]. *)
Lemma introspect_requires_token_type_hint_witness :
  introspect (dumps (CMap introspect_params)) authorization_server_granted
  = (Raise KeyError, authorization_server_granted, []).
Proof.
  apply (introspect_requires_token_type_hint
           (dumps (CMap introspect_params)) introspect_params
           (CText "abcd") authorization_server_granted).
  - apply sample_loads_dumps.
  - reflexivity.
  - reflexivity.
Defined.

(** The same request with [token_type_hint] is answered 201. *)
Lemma sample_introspect_with_hint :
  exists b,
    introspect (dumps (CMap introspect_params_hint))
      authorization_server_granted
    = (Return {| status := 201; body := b |},
       authorization_server_granted, [])
    /\ loads b
       = Return (CMap
           [ (CInt ACTIVE, CBool true);
             (CInt SCOPE, CText "read_temperature");
             (CInt AUD, CText "tempSensor0");
             (CInt ISS, CText "ace.as-server.com");
             (CInt EXP, CInt 1541210400);
             (CInt IAT, CInt 1541203200);
             (CInt CNF, CMap [(CInt COSE_KEY, sample_encode 6170)]) ]).
Proof.
  eexists. split.
  - apply (introspect_with_hint _ introspect_params_hint (CText "abcd")
             (CText "pop")).
    + apply sample_loads_dumps.
    + reflexivity.
    + reflexivity.
    + vm_compute. reflexivity.
  - change (@loads cbor2) with sample_loads; change (@dumps cbor2) with encode;
    rewrite sample_loads_dumps. vm_compute. reflexivity.
Qed.

(** C10 on the sample. *)
Lemma encrypt_deterministic_witness :
  exists c e1,
    encrypt (string_bytes "hello from client") (c_base client_done)
    = (Return c, e1, [])
    /\ encrypt (string_bytes "hello from client") e1 = (Return c, e1, [])
    /\ exists ctx, _oscore_context e1 = Some ctx
         /\ c = Encrypt0Message.serialize
                  (string_bytes "hello from client") (master_salt ctx)
                  (master_secret ctx) [].
Proof.
  eexists _, _.
  split;
    [exact (encrypt_spec _ _ _ _ (string_bytes "hello from client")
              sample_client_context)|].
  exact (encrypt_deterministic _ _ _ _ _
           (encrypt_spec _ _ _ _ (string_bytes "hello from client")
              sample_client_context)).
Defined.

(** *** The further properties on the sample *)

(** X1 on the sample. *)
Lemma cose_kdf_context_injective_witness :
  "IV-Generation" = "IV-Generation" /\ 7 = 7 /\ sample_TH_2 = sample_TH_2.
Proof.
  exact (cose_kdf_context_injective "IV-Generation" "IV-Generation" 7 7
           sample_TH_2 sample_TH_2 eq_refl).
Defined.

(** X2 on the sample: the server between MSG1 and MSG3. *)
Lemma oscore_context_requires_handshake_witness :
  exists x,
    oscore_context (s_base server_sent2) = (Raise x, s_base server_sent2, [])
    /\ encrypt (string_bytes "hello from server") (s_base server_sent2)
       = (Raise x, s_base server_sent2, [])
    /\ decrypt (string_bytes "hello from server") (s_base server_sent2)
       = (Raise x, s_base server_sent2, [])
    /\ (message1 (s_base server_sent2) = None -> x = TypeError).
Proof.
  exact (oscore_context_requires_handshake (s_base server_sent2)
           (string_bytes "hello from server") eq_refl
           (or_intror (or_intror (or_introl eq_refl)))).
Defined.

(** X3 on the sample: the server has completed a handshake and read its
    context; the MSG1 of another client replaces the shared secret and
    leaves the context. *)
Lemma cached_context_survives_on_receive_witness :
  exists r s' out,
    on_receive rnd_s (MSG1 rnd_2) server_keyed = (r, s', out)
    /\ shared_secret (session (s_base s')) = Some (shared_Z rnd_2 rnd_s)
    /\ s_super oscore_context s' = (Return sample_CONTEXT, s', []).
Proof.
  eexists _, _, _.
  split; [exact (on_receive_MSG1_any rnd_2 rnd_s server_keyed)|].
  split; [reflexivity|].
  exact (cached_context_survives_on_receive rnd_s (MSG1 rnd_2) server_keyed
           sample_CONTEXT _ _ _ eq_refl
           (on_receive_MSG1_any rnd_2 rnd_s server_keyed)).
Defined.

(** X4 on the sample: the client starts another handshake. *)
Lemma cached_context_survives_client_witness :
  exists m1 c',
    initiate_edhoc rnd_2 client_keyed = (Return m1, c', [])
    /\ private_key (session (c_base c')) = Some (generate_private_key rnd_2)
    /\ c_super oscore_context c' = (Return sample_CONTEXT, c', []).
Proof.
  eexists _, _. split; [reflexivity|]. split; [reflexivity|].
  exact (cached_context_survives_client rnd_2 [] client_keyed _
           sample_CONTEXT [] eq_refl
           (or_introl (ex_intro _ _ eq_refl))).
Defined.

(** X5 on the sample: the empty array. *)
Lemma on_receive_malformed_witness :
  on_receive rnd_s empty_message server
  = (Raise IndexError, server, [("Server Received: ", empty_message)]).
Proof.
  exact (on_receive_malformed rnd_s empty_message server IndexError
           (or_intror (ex_intro _ (CArray []) (conj eq_refl eq_refl)))).
Defined.

(** X6 on the sample: a server that never saw a MSG1. *)
Lemma on_msg_3_stores_before_verifying_witness :
  exists m3,
    message3 (s_base (snd (fst (on_msg_3 undecryptable_MSG3 server))))
    = Some m3
    /\ Message3.bytes_object m3 = Some undecryptable_MSG3
    /\ Message3.peer_session_id m3 = CBytes [].
Proof.
  destruct (on_msg_3 undecryptable_MSG3 server) as [[r s'] out] eqn:E.
  exact (on_msg_3_stores_before_verifying undecryptable_MSG3 server
           (CArray [CInt 3; CBytes []; CBytes []]) (CInt 3) (CBytes [])
           (CBytes []) r s' out eq_refl eq_refl E).
Defined.

(** X7 on the sample. *)
Lemma message_ok_requires_signature_witness :
  exists decoded tag tag_ p_sess_id enc_3 aad3 secret sig_u sign1 protected
         unprotected payload signature,
    loads (sample_MSG3 (CMap [])) = Return decoded
    /\ py_getitem decoded 0 = Return tag
    /\ py_eq_int tag EDHOC_MSG_3 = true
    /\ unpack3 decoded = Return (tag_, p_sess_id, enc_3)
    /\ Message3.th_3 message_digest (message1 (s_base server_sent2))
         (message2 (s_base server_sent2))
       = Return aad3
    /\ shared_secret (session (s_base server_sent2)) = Some secret
    /\ Encrypt0Message.decrypt enc_3
         (derive_key secret 16
            (cose_kdf_context "AES-CCM-64-64-128" 16 aad3))
         (derive_key secret 7 (cose_kdf_context "IV-Generation" 7 aad3))
         aad3
       = Return sig_u
    /\ loads sig_u = Return sign1
    /\ unpack4 sign1
       = Return (CBytes protected, unprotected, CBytes payload,
                 CBytes signature)
    /\ ecdsa_verify (client_id server_sent2) signature
         (SHA256 (Signature1Message.sig_structure protected aad3 payload))
       = true.
Proof.
  exact (message_ok_requires_signature rnd_s (sample_MSG3 (CMap []))
           server_sent2 server_done _
           (on_receive_MSG3_run client_sk server_sk rnd_c rnd_s rnd_s
              (CMap []))).
Defined.

(** X8 on the sample. *)
Lemma message_3_requires_signature_witness :
  exists decoded tag sess_id p_sess_id p_nonce p_eph_key enc_2 peer_key
         session_key secret m2 aad2 sig_v sign1 protected unprotected
         payload signature,
    loads sample_MSG2 = Return decoded
    /\ unpack6 decoded
       = Return (tag, sess_id, p_sess_id, p_nonce, p_eph_key, enc_2)
    /\ ecdh_cose_to_key p_eph_key = Return peer_key
    /\ private_key (session (c_base (client_1 client_sk server_sk rnd_c)))
       = Some session_key
    /\ exchange session_key peer_key = Return secret
    /\ message2 (c_base client_done) = Some m2
    /\ Message2.bytes_object m2 = Some sample_MSG2
    /\ Message2.th_2 message_digest
         (message1 (c_base (client_1 client_sk server_sk rnd_c))) m2
       = Return aad2
    /\ Encrypt0Message.decrypt enc_2
         (derive_key secret 16
            (cose_kdf_context "AES-CCM-64-64-128" 16 aad2))
         (derive_key secret 7 (cose_kdf_context "IV-Generation" 7 aad2))
         aad2
       = Return sig_v
    /\ loads sig_v = Return sign1
    /\ unpack4 sign1
       = Return (CBytes protected, unprotected, CBytes payload,
                 CBytes signature)
    /\ ecdsa_verify (server_id (client_1 client_sk server_sk rnd_c))
         signature
         (SHA256 (Signature1Message.sig_structure protected aad2 payload))
       = true.
Proof.
  exact (message_3_requires_signature rnd_c sample_MSG2
           (client_1 client_sk server_sk rnd_c) client_done _ _
           (continue_edhoc_run client_sk server_sk rnd_c rnd_s)).
Defined.

(** X9 on the sample: the fresh client is handed the honest MSG2. *)
Lemma continue_edhoc_without_initiate_witness :
  continue_edhoc rnd_c sample_MSG2 client
  = (Raise AttributeError, client, []).
Proof.
  exact (continue_edhoc_without_initiate rnd_c sample_MSG2 client _ _ _ _ _
           _ _ _ eq_refl
           (sample_loads_dumps _) eq_refl
           (ecdh_cose_to_key_generated (generate_private_key rnd_s))).
Defined.

(** X10 on the sample. *)
Lemma rejected_msg_3_yields_context_witness :
  exists m2 s1 out1 s2 s3,
    on_receive rnd_s sample_MSG1
      (Server__init__ server_sk (get_verifying_key client_sk))
    = (Return (ReplyMessage2 m2), s1, out1)
    /\ on_receive rnd_s undecryptable_MSG3 s1
       = (Raise CBORDecodeError, s2,
          [("Server Received: ", undecryptable_MSG3)])
    /\ s_super oscore_context s2
       = (Return (CONTEXT_with server_sk rnd_c rnd_s undecryptable_MSG3),
          s3, []).
Proof.
  exact (rejected_msg_3_yields_context client_sk server_sk rnd_c rnd_s
           rnd_s undecryptable_MSG3 (CBytes []) (CBytes []) CBORDecodeError
           eq_refl eq_refl).
Defined.

(** X11 on the sample: a third message that names the session 0000. *)
Lemma on_msg_3_ignores_session_id_witness :
  exists m2 s1 out1 s2 out2,
    on_receive rnd_s sample_MSG1
      (Server__init__ server_sk (get_verifying_key client_sk))
    = (Return (ReplyMessage2 m2), s1, out1)
    /\ id (session (s_base s1)) = Some [x51; x52]
    /\ on_receive rnd_s
         (MSG3_with client_sk server_sk rnd_c rnd_s (CBytes [x00; x00])) s1
       = (Return MessageOk, s2, out2).
Proof.
  exact (on_msg_3_ignores_session_id client_sk server_sk rnd_c rnd_s rnd_s
           [x00; x00]).
Defined.

(** X12 on the sample: a second message with an empty ciphertext. *)
Lemma rejected_msg_2_keeps_secret_witness :
  exists m1 c1 c2 m2,
    initiate_edhoc rnd_c
      (Client__init__ client_sk (get_verifying_key server_sk))
    = (Return m1, c1, [])
    /\ shared_secret (session (c_base c1)) = None
    /\ continue_edhoc rnd_c (MSG2_with rnd_c rnd_s (CBytes [])) c1
       = (Raise CBORDecodeError, c2,
          [ ("Client AAD2 =", sample_TH_2);
            ("Client K2 =", sample_K sample_TH_2);
            ("Client IV2 =", sample_IV sample_TH_2) ])
    /\ shared_secret (session (c_base c2)) = Some sample_Z
    /\ message2 (c_base c2) = Some m2
    /\ Message2.bytes_object m2 = Some (MSG2_with rnd_c rnd_s (CBytes []))
    /\ message3 (c_base c2) = None.
Proof.
  exact (rejected_msg_2_keeps_secret client_sk server_sk rnd_c rnd_s rnd_c
           (CBytes []) CBORDecodeError eq_refl).
Defined.

(** X13 on the sample: the MSG1 of another client reaches the server
    after a completed handshake. *)
Lemma msg_1_restarts_session_witness :
  exists m2 s',
    on_receive rnd_s (MSG1 rnd_2) server_keyed
    = (Return (ReplyMessage2 m2), s',
       [ ("Server Received: ", MSG1 rnd_2);
         ("Server AAD2 =", TH_2 rnd_2 rnd_s);
         ("Server K2 =", K_ rnd_2 rnd_s (TH_2 rnd_2 rnd_s));
         ("Server IV2 =", IV_ rnd_2 rnd_s (TH_2 rnd_2 rnd_s)) ])
    /\ Message2.to_bytes m2 = Return (MSG2 server_sk rnd_2 rnd_s)
    /\ id (session (s_base s')) = Some (urandom_2 rnd_s)
    /\ private_key (session (s_base s')) = Some (generate_private_key rnd_s)
    /\ exchange (generate_private_key rnd_s)
         (public_numbers (generate_private_key rnd_2))
       = Return (shared_Z rnd_2 rnd_s)
    /\ shared_secret (session (s_base s')) = Some (shared_Z rnd_2 rnd_s)
    /\ message2 (s_base s') = Some m2
    /\ message3 (s_base s') = message3 (s_base server_keyed)
    /\ _oscore_context (s_base s') = Some sample_CONTEXT.
Proof.
  exact (msg_1_restarts_session rnd_2 rnd_s server_keyed).
Defined.

(** X14 on the sample. *)
Lemma OscoreContext__str__injective_witness :
  sample_CONTEXT = sample_CONTEXT.
Proof.
  exact (OscoreContext__str__injective sample_CONTEXT sample_CONTEXT eq_refl).
Defined.

(** X15 on the sample: the client's ephemeral key. *)
Lemma ecdh_cose_round_trip_witness :
  (exists b, ecdh_key_to_cose sample_public_key true = Return (CBytes b)
             /\ ecdh_cose_to_key (CBytes b) = Return sample_public_key)
  /\ (exists d, ecdh_key_to_cose sample_public_key false = Return (CMap d)
                /\ ecdh_cose_to_key (CMap d) = Raise TypeError).
Proof.
  exact (ecdh_cose_round_trip sample_public_key eq_refl
           (or_introl eq_refl)).
Defined.

(** X16 on the sample: a COSE key that calls itself symmetric. *)
Lemma ecdh_cose_to_key_ignores_kty_witness :
  ecdh_cose_to_key
    (CBytes (dumps (CMap (dict_set (cose_items sample_public_key)
                            CoseKey.KTY (CInt 4)))))
  = ecdh_cose_to_key
      (CBytes (dumps (CMap (dict_set (cose_items sample_public_key)
                              CoseKey.KTY (CInt CoseKey.Type_.EC2))))).
Proof.
  exact (ecdh_cose_to_key_ignores_kty (cose_items sample_public_key)
           (CInt 4) (CInt CoseKey.Type_.EC2)).
Defined.

(** X17 on the sample: a COSE key on the curve 7. *)
Lemma ecdh_cose_to_key_key_error_witness :
  ecdh_cose_to_key
    (CBytes (dumps (CMap (dict_of [ (CoseKey.KTY, CInt 2);
                                    (CoseKey.CRV, CInt 7);
                                    (CoseKey.X, CInt 1);
                                    (CoseKey.Y, CInt 3) ]))))
  = Raise KeyError.
Proof.
  apply (ecdh_cose_to_key_key_error _
           (dict_of [ (CoseKey.KTY, CInt 2); (CoseKey.CRV, CInt 7);
                      (CoseKey.X, CInt 1); (CoseKey.Y, CInt 3) ])).
  - apply sample_loads_dumps.
  - right. right. exists 7. split; [reflexivity|]. left.
    cbn. intros [E|[E|[E|[]]]]; discriminate E.
Defined.

(** X18 on the sample: the client's verifying key. *)
Lemma ecdsa_cose_round_trip_witness :
  (exists b,
      ecdsa_key_to_cose (get_verifying_key client_sk) true
      = Return (CBytes b)
      /\ ecdsa_cose_to_key (CBytes b) = Return (get_verifying_key client_sk))
  /\ (exists d,
        ecdsa_key_to_cose (get_verifying_key client_sk) false
        = Return (CMap d)
        /\ ecdsa_cose_to_key (CMap d) = Raise TypeError).
Proof.
  exact (ecdsa_cose_round_trip (get_verifying_key client_sk)
           (or_introl eq_refl)).
Defined.

(** X19 on the sample: the request without [aud]. *)
Lemma token_missing_parameter_witness :
  token clock (dumps (CMap params_without_aud)) authorization_server
  = (Return {| status := 400; body := error_body "invalid_request" |},
     authorization_server, []).
Proof.
  apply (token_missing_parameter clock _ (CMap params_without_aud)).
  - apply sample_loads_dumps.
  - right. exists params_without_aud, AUD.
    split; [reflexivity|]. split; [cbn; auto|reflexivity].
Defined.

(** X20 on the sample: the body is the number 5. *)
Lemma token_body_not_a_container_witness :
  token clock (dumps (CInt 5)) authorization_server
  = (Raise TypeError, authorization_server, []).
Proof.
  apply (token_body_not_a_container clock _ (CInt 5)).
  - apply sample_loads_dumps.
  - exact I.
Defined.

(** X21 on the sample: the registered client with a wrong secret. *)
Lemma token_unknown_client_witness :
  token clock (dumps (CMap params_wrong_secret)) authorization_server
  = (Return {| status := 400; body := error_body "unauthorized_client" |},
     authorization_server, []).
Proof.
  apply (token_unknown_client clock _ (CMap params_wrong_secret) _
           (CText "ace_client_1") (CBytes (string_bytes "guess")));
    first [apply sample_loads_dumps | reflexivity].
Defined.

(** X22 on the sample: the registered client without [cnf]. *)
Lemma token_unvalidated_parameters_witness :
  token clock (dumps (CMap params_without_cnf)) authorization_server
  = (Raise KeyError, authorization_server, []).
Proof.
  apply (token_unvalidated_parameters clock _ (CMap params_without_cnf) _
           (CText "ace_client_1")
           (CBytes (string_bytes "ace_client_1_secret_123456")));
    first [apply sample_loads_dumps | reflexivity | left; reflexivity].
Defined.

(** X23 on the sample: the granted request. *)
Lemma token_changes_registries_only_on_200_witness :
  @nil line = []
  /\ signature_key authorization_server_granted
     = signature_key authorization_server
  /\ client_registry authorization_server_granted
     = client_registry authorization_server
  /\ ((authorization_server_granted = authorization_server
       /\ forall resp,
            Return sample_token_response = Return resp -> status resp = 400)
      \/ exists params client_id cnf cose_key key scope_ aud_ token_,
           loads (token_request (CText "client_credentials")) = Return params
           /\ py_getitem params CLIENT_ID = Return client_id
           /\ py_getitem params CNF = Return cnf
           /\ py_getitem cnf COSE_KEY = Return cose_key
           /\ CoseKey_from_cose cose_key = Return key
           /\ py_getitem params SCOPE = Return scope_
           /\ py_getitem params AUD = Return aud_
           /\ _bind_token clock [(SCOPE, scope_); (AUD, aud_)] key
              = Return token_
           /\ Return sample_token_response
              = Return
                  {| status := 200;
                     body := dumps (CMap (dict_of
                       [ (ACCESS_TOKEN,
                          sign_and_export_self_contained token_
                            (signature_key authorization_server)
                            (token_sign_nonce clock));
                         (TOKEN_TYPE, CText "pop");
                         (PROFILE, CText "coap_oscore");
                         (RS_CNF, CoseKey_encode rs_public_cose_key) ])) |}
           /\ authorization_server_granted
              = set_token_registry
                  (add_token (token_registry authorization_server) token_
                     true)
                  (set_key_registry
                     (add_key (key_registry authorization_server) client_id
                        key)
                     authorization_server)).
Proof.
  exact (token_changes_registries_only_on_200 clock _ _ _ _ _
           (sample_token_granted (CText "client_credentials"))).
Defined.

(** X24 on the sample, at readings of the clock just below [2 ^ 31]: the
    expiry is 7201 seconds after the time of issue. *)
Lemma bound_token_claims_witness :
  exists t,
    _bind_token late_clock
      [(SCOPE, CText "read_temperature"); (AUD, CText "tempSensor0")]
      (6170 : @CoseKey_t _ collaborators)
    = Return t
    /\ dict_get (claims t) ISS = Some (CText "ace.as-server.com")
    /\ dict_get (claims t) IAT = Some (CInt 2147483647)
    /\ dict_get (claims t) EXP = Some (CInt 2147490848)
    /\ dict_get (claims t) CTI = Some (CText "abcd")
    /\ dict_get (claims t) SCOPE = Some (CText "read_temperature")
    /\ dict_get (claims t) AUD = Some (CText "tempSensor0")
    /\ token_key t = Some (6170 : Z)
    /\ List.length (claims t) = 6%nat.
Proof.
  assert (NoDup [ISS; IAT; EXP; CTI; SCOPE; AUD]) as N
    by (repeat (constructor; [cbn; intuition discriminate|]); constructor).
  exact (bound_token_claims late_clock (CText "read_temperature")
           (CText "tempSensor0") (6170 : @CoseKey_t _ collaborators)
           2147483647 2147490848 N eq_refl eq_refl).
Defined.

(** X25 on the sample: the empty map. *)
Lemma introspect_missing_token_witness :
  introspect (dumps (CMap [])) authorization_server_granted
  = (Return {| status := 400;
               body := error_body
                         (String.append "missing "
                            (String.append quote
                               (String.append "token"
                                  (String.append quote " parameter")))) |},
     authorization_server_granted, []).
Proof.
  apply (introspect_missing_token _ []).
  - apply sample_loads_dumps.
  - reflexivity.
Defined.

(** X26 on the sample: the request with [token_type_hint], which is
    answered, and the request without it, which raises. *)
Lemma introspect_answers_witness :
  (authorization_server_granted = authorization_server_granted
   /\ @nil line = []
   /\ forall resp,
        @Raise Response KeyError = Return resp ->
        (status resp = 400
         /\ exists params,
              loads (dumps (CMap introspect_params)) = Return params
              /\ py_contains params TOKEN = Return false)
        \/ (status resp = 201
            /\ exists d, body resp = dumps (CMap d)
                         /\ dict_get d ACTIVE = Some (CBool true)))
  /\ exists r,
       introspect (dumps (CMap introspect_params_hint))
         authorization_server_granted
       = (Return r, authorization_server_granted, [])
       /\ authorization_server_granted = authorization_server_granted
       /\ @nil line = []
       /\ forall resp,
            Return r = Return resp ->
            (status resp = 400
             /\ exists params,
                  loads (dumps (CMap introspect_params_hint)) = Return params
                  /\ py_contains params TOKEN = Return false)
            \/ (status resp = 201
                /\ exists d, body resp = dumps (CMap d)
                             /\ dict_get d ACTIVE = Some (CBool true)).
Proof.
  assert (get_token (token_registry authorization_server_granted)
            (CText "abcd")
          = Return {| scope := CText "read_temperature";
                      audience := CText "tempSensor0";
                      issuer := CText "ace.as-server.com";
                      expires := CInt 1541210400;
                      issued_at := CInt 1541203200;
                      bound_key := (6170 : Z) |}) as G
    by (vm_compute; reflexivity).
  pose proof (introspect_with_hint (dumps (CMap introspect_params_hint))
                introspect_params_hint (CText "abcd") (CText "pop")
                authorization_server_granted _
                (sample_loads_dumps _) eq_refl eq_refl G) as E.
  assert (introspect (dumps (CMap introspect_params))
            authorization_server_granted
          = (Raise KeyError, authorization_server_granted, [])) as R.
  { unfold introspect, bind, lift.
    change (@loads cbor2) with sample_loads;
      change (@dumps cbor2) with encode.
    rewrite sample_loads_dumps. reflexivity. }
  assert (~ In ACTIVE [SCOPE; AUD; ISS; EXP; IAT; CNF]) as N
    by (cbn; intuition discriminate).
  split; [exact (introspect_answers _ _ _ _ _ N R)|].
  eexists. split; [exact E|].
  exact (introspect_answers _ _ _ _ _ N E).
Defined.

(** X27 on the sample: the Authorization Server signs. *)
Lemma cwt_decode_encode_witness :
  cwt.decode
    (cwt.encode sample_claims (9999 : SigningKey) (string_bytes "as") [x0c])
    (get_verifying_key (9999 : SigningKey))
  = Return sample_claims.
Proof.
  exact (cwt_decode_encode sample_claims (9999 : SigningKey)
           (string_bytes "as") [x0c]).
Defined.

(** X28 on the sample: the token of X27. *)
Lemma cwt_decode_requires_signature_witness :
  exists decoded protected unprotected payload signature,
    loads (cwt.encode sample_claims (9999 : SigningKey) (string_bytes "as")
             [x0c])
    = Return decoded
    /\ unpack4 decoded
       = Return (CBytes protected, unprotected, CBytes payload,
                 CBytes signature)
    /\ ecdsa_verify (get_verifying_key (9999 : SigningKey)) signature
         (SHA256 (Signature1Message.sig_structure protected [] payload))
       = true
    /\ loads payload = Return sample_claims.
Proof.
  assert (cwt.decode
            (cwt.encode sample_claims (9999 : SigningKey) (string_bytes "as")
               [x0c])
            (get_verifying_key (9999 : SigningKey))
          = Return sample_claims) as E.
  { unfold cwt.decode, cwt.encode. rewrite verify_serialize_signed.
    apply sample_loads_dumps. }
  exact (cwt_decode_requires_signature _ _ _ E).
Defined.

(** X29 on the sample: the server answers, the client decrypts. *)
Lemma get_temperature_decrypts_witness :
  exists response plaintext reading,
    get_temperature encrypt 24 (s_base server_done)
    = (Return {| status := 200; body := response |},
       set__oscore_context (Some sample_CONTEXT) (s_base server_done), [])
    /\ decrypt response (c_base client_done)
       = (Return plaintext,
          set__oscore_context (Some sample_CONTEXT) (c_base client_done), [])
    /\ loads plaintext
       = Return (CMap [(CText "temperature", CText reading)])
    /\ In reading ["22C"; "23C"; "24C"; "25C"; "26C"].
Proof.
  exact (get_temperature_decrypts _ _ _ _ _ _ _ 24
           sample_server_context sample_client_context sample_well_sized
           (conj (Zle_bool_imp_le 22 24 eq_refl)
                 (Zle_bool_imp_le 24 26 eq_refl))).
Defined.

End OnSample.
